(** * Track-Save: ledger store and aggregation engine

    A shallow embedding of [server/routes.ts] (the Express handlers and the
    [DatabaseStorage] class that follows them in the same file) and of the
    table declarations of [shared/schema.ts], with theorems about the
    queries and the derived statistics.

    The relational store is modelled as the list of rows of each table, in
    insertion order.  A Drizzle query becomes the list computation it
    denotes: [where] is [filter], [orderBy] a stable sort, [groupBy] a
    grouping on the key, [sum] an exact decimal sum.  Text handed to the
    store as a query parameter is converted to the type of the column it is
    compared with, and a failed conversion fails the whole statement; a
    rejected promise is the [StoreError] case of [result]. *)

From Stdlib Require Import ZArith Bool List String Ascii Lia.
From Stdlib Require Import Floats Uint63.
From Stdlib Require Import Permutation Sorted.
From Stdlib Require OrdersEx.
Import ListNotations.

Local Open Scope string_scope.
Local Open Scope list_scope.
Local Open Scope Z_scope.

(** ** Results of asynchronous calls *)

Inductive result (A : Type) : Type :=
| Ok (a : A)
| StoreError (msg : string).

Arguments Ok {A} a.
Arguments StoreError {A} msg.

Definition bind {A B : Type} (r : result A) (k : A -> result B) : result B :=
  match r with
  | Ok a => k a
  | StoreError msg => StoreError msg
  end.

Notation "'await' x <- c1 ; c2" := (bind c1 (fun x => c2))
  (at level 61, x name, c1 at next level, right associativity).

Definition isOk {A : Type} (r : result A) : bool :=
  match r with Ok _ => true | StoreError _ => false end.

(** ** JavaScript values *)

Module Js.

(** Truthiness of a value of type [string | undefined]: [undefined] and
    the empty string are falsy, every other string is truthy. *)
Definition truthy (v : option string) : bool :=
  match v with
  | None => false
  | Some s => negb (String.eqb s "")
  end.

(** [Number(text)] for the text of a [numeric] value with two decimal
    places, given as its count of hundredths: the binary64 number nearest
    to [c / 100], ties to even, which is what the conversion of the decimal
    text yields.  The quotient is rounded once, from the exact integers. *)
Definition Number_of_decimal (c : Z) : float :=
  match c with
  | Z0 => 0%float
  | Zpos p =>
      SF2Prim (SFdiv prec emax (S754_finite false p 0) (S754_finite false 100 0))
  | Zneg p =>
      SF2Prim (SFdiv prec emax (S754_finite true p 0) (S754_finite false 100 0))
  end.

(** [Number(total || 0)] where [total] is the text of a decimal or [null]:
    the text of a decimal is never empty, hence truthy. *)
Definition Number_or_0 (total : option Z) : float :=
  match total with
  | Some c => Number_of_decimal c
  | None => 0%float
  end.

(** One decimal digit, and zero-padded decimal fields. *)
Definition digit (n : Z) : ascii := ascii_of_nat (48 + Z.to_nat (n mod 10)).

Definition pad2 (n : Z) : string :=
  String (digit (n / 10)) (String (digit n) EmptyString).

Definition pad3 (n : Z) : string := String (digit (n / 100)) (pad2 n).

Definition pad4 (n : Z) : string := String (digit (n / 1000)) (pad3 n).

Definition pad6 (n : Z) : string :=
  String (digit (n / 100000)) (String (digit (n / 10000)) (pad4 n)).

(** A time, given by its calendar fields: [monthIndex] is 0-based,
    [msInDay] is the time of day in milliseconds.  A [Date] object is held
    by its UTC fields, which [toISOString] prints; [getMonth] and
    [setMonth] work on the fields of the same time read on the local
    clock of the host. *)
Record Date : Type := mkDate {
  fullYear : Z;
  monthIndex : Z;
  dayOfMonth : Z;
  msInDay : Z
}.

Definition isLeapYear (y : Z) : bool :=
  ((y mod 4 =? 0) && negb (y mod 100 =? 0)) || (y mod 400 =? 0).

(** Days of month [m] (1-based) of year [y], Gregorian calendar. *)
Definition daysInMonth (y m : Z) : Z :=
  if m =? 2 then (if isLeapYear y then 29 else 28)
  else if (m =? 4) || (m =? 6) || (m =? 9) || (m =? 11) then 30
  else 31.

(** [MakeDate(MakeDay(YearFromTime(t), m, DateFromTime(t)),
    TimeWithinDay(t))] of ECMAScript on the fields [d] of [t]: the month
    index [m] is reduced modulo 12 into the year, and a day of month past
    the end of the target month runs over into the following month. *)
Definition MakeDay (d : Date) (m : Z) : Date :=
  let y' := fullYear d + m / 12 in
  let m' := m mod 12 in
  let dim := daysInMonth y' (m' + 1) in
  if dayOfMonth d <=? dim
  then mkDate y' m' (dayOfMonth d) (msInDay d)
  else if m' =? 11
       then mkDate (y' + 1) 0 (dayOfMonth d - dim) (msInDay d)
       else mkDate y' (m' + 1) (dayOfMonth d - dim) (msInDay d).

Definition msPerDay : Z := 86400000.

(** The same time of day on the following and on the preceding calendar
    day. *)
Definition nextDay (d : Date) : Date :=
  if dayOfMonth d <? daysInMonth (fullYear d) (monthIndex d + 1)
  then mkDate (fullYear d) (monthIndex d) (dayOfMonth d + 1) (msInDay d)
  else if monthIndex d =? 11
       then mkDate (fullYear d + 1) 0 1 (msInDay d)
       else mkDate (fullYear d) (monthIndex d + 1) 1 (msInDay d).

Definition previousDay (d : Date) : Date :=
  if 1 <? dayOfMonth d
  then mkDate (fullYear d) (monthIndex d) (dayOfMonth d - 1) (msInDay d)
  else if monthIndex d =? 0
       then mkDate (fullYear d - 1) 11 31 (msInDay d)
       else mkDate (fullYear d) (monthIndex d - 1)
              (daysInMonth (fullYear d) (monthIndex d)) (msInDay d).

(** [n] days later, or [- n] days earlier when [n] is negative. *)
Definition addDays (d : Date) (n : Z) : Date :=
  if 0 <=? n then Nat.iter (Z.to_nat n) nextDay d
  else Nat.iter (Z.to_nat (- n)) previousDay d.

(** The time [t] milliseconds after the midnight that begins the day of
    [d], for [t] of either sign and any size. *)
Definition atTime (d : Date) (t : Z) : Date :=
  addDays (mkDate (fullYear d) (monthIndex d) (dayOfMonth d) (t mod msPerDay))
    (t / msPerDay).

(** The time zone of the host: the offset of local time from UTC in
    milliseconds, as it stands at a time given in UTC ([LocalTZA(t, true)]
    of ECMAScript) and at a time given on the local clock
    ([LocalTZA(t, false)]). *)
Record TimeZone : Type := mkTimeZone {
  offsetAtUTC : Date -> Z;
  offsetAtLocal : Date -> Z
}.

(** [LocalTime(t)] and [UTC(t)] of ECMAScript. *)
Definition LocalTime (tz : TimeZone) (t : Date) : Date :=
  atTime t (msInDay t + offsetAtUTC tz t).

Definition UTC (tz : TimeZone) (t : Date) : Date :=
  atTime t (msInDay t - offsetAtLocal tz t).

(** [d.getMonth()] *)
Definition getMonth (tz : TimeZone) (d : Date) : Z := monthIndex (LocalTime tz d).

(** [d.setMonth(m)], as the new value of [d]: the local fields are moved
    to month [m] and the result is read back in UTC.  ([TimeClip] is left
    out: it matters only beyond 275 000 years from 1970.) *)
Definition setMonth (tz : TimeZone) (d : Date) (m : Z) : Date :=
  UTC tz (MakeDay (LocalTime tz d) m).

(** A zone at a fixed offset from UTC, and UTC itself. *)
Definition zoneAt (offset : Z) : TimeZone :=
  mkTimeZone (fun _ => offset) (fun _ => offset).

Definition zoneUTC : TimeZone := zoneAt 0.

(** Order of the calendar days of two times. *)
Definition day_leb (a b : Date) : bool :=
  (fullYear a <? fullYear b)
  || ((fullYear a =? fullYear b)
      && ((monthIndex a <? monthIndex b)
          || ((monthIndex a =? monthIndex b) && (dayOfMonth a <=? dayOfMonth b)))).

(** The year field of [toISOString]: four digits for years 0 to 9999, a
    sign and six digits otherwise. *)
Definition isoYear (y : Z) : string :=
  if (0 <=? y) && (y <=? 9999) then pad4 y
  else if y <? 0 then String "-" (pad6 (- y))
  else String "+" (pad6 y).

Definition isoTime (t : Z) : string :=
  pad2 (t / 3600000) ++ ":" ++ pad2 (t / 60000 mod 60) ++ ":"
    ++ pad2 (t / 1000 mod 60) ++ "." ++ pad3 (t mod 1000) ++ "Z".

Definition toISOString (d : Date) : string :=
  isoYear (fullYear d) ++ "-" ++ pad2 (monthIndex d + 1) ++ "-"
    ++ pad2 (dayOfMonth d) ++ "T" ++ isoTime (msInDay d).

(** [s.slice(0, n)] for [0 <= n]. *)
Definition slice0 (n : nat) (s : string) : string := substring 0 n s.

End Js.

(** ** Column types of the store *)

Module Pg.

(** A value of a [date] column. *)
Record date : Type := mkdate { year : Z; month : Z; day : Z }.

(** [a <= b] on dates. *)
Definition date_leb (a b : date) : bool :=
  (year a <? year b)
  || ((year a =? year b)
      && ((month a <? month b)
          || ((month a =? month b) && (day a <=? day b)))).

(** A calendar day in the range that is written with a four-digit year. *)
Definition valid_date (d : date) : bool :=
  (1 <=? year d) && (year d <=? 9999)
  && (1 <=? month d) && (month d <=? 12)
  && (1 <=? day d) && (day d <=? Js.daysInMonth (year d) (month d)).

Definition digit_in (c : ascii) : option Z :=
  let n := nat_of_ascii c in
  if ((48 <=? n) && (n <=? 57))%nat then Some (Z.of_nat (n - 48)) else None.

Definition obind {A B : Type} (o : option A) (k : A -> option B) : option B :=
  match o with Some a => k a | None => None end.

(** Value of a run of decimal digits, most significant first. *)
Fixpoint digits_in (acc : Z) (cs : list ascii) : option Z :=
  match cs with
  | [] => Some acc
  | c :: cs' => obind (digit_in c) (fun v => digits_in (10 * acc + v) cs')
  end.

Definition is_digit (c : ascii) : bool :=
  match digit_in c with Some _ => true | None => false end.

(** Text of the ISO form [YYYY-MM-DD]: four, two and two decimal digits
    joined by hyphens.  This is the form that the program produces and the
    clients send, and the only one for which [date_in] below speaks for
    the store. *)
Definition iso_shape (s : string) : bool :=
  match list_ascii_of_string s with
  | [y1; y2; y3; y4; s1; m1; m2; s2; d1; d2] =>
      Ascii.eqb s1 "-" && Ascii.eqb s2 "-"
      && forallb is_digit [y1; y2; y3; y4; m1; m2; d1; d2]
  | _ => false
  end.

(** Input conversion of the [date] type, for text in the ISO form
    [YYYY-MM-DD]: the fields must name a calendar day, otherwise the
    conversion fails ("date/time field value out of range").  The store
    reads other spellings as well (one-digit fields, no separators, month
    names, years past 9999); they are outside this model, where they count
    as failures, so a statement that rests on a failed conversion is made
    for text of [iso_shape] only. *)
Definition date_in (s : string) : option date :=
  match list_ascii_of_string s with
  | [y1; y2; y3; y4; s1; m1; m2; s2; d1; d2] =>
      if Ascii.eqb s1 "-" && Ascii.eqb s2 "-" then
        obind (digits_in 0 [y1; y2; y3; y4]) (fun y =>
        obind (digits_in 0 [m1; m2]) (fun m =>
        obind (digits_in 0 [d1; d2]) (fun d =>
          let v := mkdate y m d in
          if valid_date v then Some v else None)))
      else None
  | _ => None
  end.

(** Output conversion of the [date] type. *)
Definition date_out (d : date) : string :=
  Js.pad4 (year d) ++ "-" ++ Js.pad2 (month d) ++ "-" ++ Js.pad2 (day d).

(** [to_char(d, 'YYYY-MM')], for the years written with four digits. *)
Definition to_char_YYYY_MM (d : date) : string :=
  Js.pad4 (year d) ++ "-" ++ Js.pad2 (month d).

(** Input conversion of [decimal(10, 2)], in hundredths, for plain decimal
    text: an optional sign, digits, and an optional fraction.  The value
    is rounded to two places, half away from zero, and must then have at
    most eight integer digits ("numeric field overflow" otherwise).  The
    store reads other spellings as well (surrounding blanks, exponents,
    [NaN], digit separators); they are outside this model, where they
    count as failures, so a statement that rests on a failed conversion is
    made for text of [plain_decimal] only. *)
Fixpoint split_dot (cs : list ascii) : list ascii * option (list ascii) :=
  match cs with
  | [] => ([], None)
  | c :: cs' =>
      if Ascii.eqb c "." then ([], Some cs')
      else let '(a, b) := split_dot cs' in (c :: a, b)
  end.

Definition unsigned_numeric_in (cs : list ascii) : option Z :=
  let '(ip, fp) := split_dot cs in
  let fr := match fp with Some f => f | None => [] end in
  match ip, fr with
  | [], [] => None
  | _, _ =>
      obind (digits_in 0 ip) (fun i =>
      obind (digits_in 0 fr) (fun _ =>
      obind (digits_in 0 (firstn 2 (fr ++ ["0"; "0"]%char))) (fun f =>
      obind (digits_in 0 (firstn 1 (skipn 2 fr))) (fun r =>
        let c := 100 * i + f + (if 5 <=? r then 1 else 0) in
        if c <? 10000000000 then Some c else None))))
  end.

Definition numeric_in (s : string) : option Z :=
  match list_ascii_of_string s with
  | c :: cs =>
      if Ascii.eqb c "-" then option_map Z.opp (unsigned_numeric_in cs)
      else if Ascii.eqb c "+" then unsigned_numeric_in cs
      else unsigned_numeric_in (c :: cs)
  | [] => None
  end.

(** Plain decimal notation: an optional sign, then digits with at most one
    point among them, and at least one digit. *)
Definition plain_decimal (s : string) : bool :=
  let cs := list_ascii_of_string s in
  let unsigned :=
    match cs with
    | c :: cs' => if Ascii.eqb c "-" || Ascii.eqb c "+" then cs' else cs
    | [] => []
    end in
  let '(ip, fp) := split_dot unsigned in
  let fr := match fp with Some f => f | None => [] end in
  forallb is_digit ip && forallb is_digit fr
  && negb (Nat.eqb (List.length ip + List.length fr) 0).

(** Text that the [text] and [varchar] types hold: any string without a
    NUL character.  The store refuses a string with one ("invalid byte
    sequence for encoding"); such strings are outside this model, so a
    statement that an insert succeeds is made for text of [text_ok]
    only. *)
Definition text_ok (s : string) : bool :=
  forallb (fun c => negb (Ascii.eqb c Ascii.zero)) (list_ascii_of_string s).

(** [sum(amount)] over the selected rows: [NULL] when there is none. *)
Definition sum (amounts : list Z) : option Z :=
  match amounts with
  | [] => None
  | _ => Some (fold_right Z.add 0 amounts)
  end.

End Pg.

(** ** Tables of [shared/schema.ts] *)

Module Schema.

(** [transactionTypeEnum] *)
Inductive transaction_type : Type := t_income | t_expense.

(** [categoryEnum] *)
Inductive category : Type :=
| c_food | c_transportation | c_entertainment | c_utilities | c_healthcare
| c_shopping | c_income | c_salary | c_freelance | c_investment | c_other.

Definition transaction_type_out (t : transaction_type) : string :=
  match t with t_income => "income" | t_expense => "expense" end.

Definition category_out (c : category) : string :=
  match c with
  | c_food => "food" | c_transportation => "transportation"
  | c_entertainment => "entertainment" | c_utilities => "utilities"
  | c_healthcare => "healthcare" | c_shopping => "shopping"
  | c_income => "income" | c_salary => "salary"
  | c_freelance => "freelance" | c_investment => "investment"
  | c_other => "other"
  end.

Definition transaction_types : list transaction_type := [t_income; t_expense].

Definition categories : list category :=
  [c_food; c_transportation; c_entertainment; c_utilities; c_healthcare;
   c_shopping; c_income; c_salary; c_freelance; c_investment; c_other].

(** Input conversion of an enum type: the label must be one of the
    declared ones ("invalid input value for enum" otherwise). *)
Definition enum_in {E : Type} (out : E -> string) (values : list E)
    (s : string) : option E :=
  find (fun v => String.eqb (out v) s) values.

Definition transaction_type_in : string -> option transaction_type :=
  enum_in transaction_type_out transaction_types.

Definition category_in : string -> option category :=
  enum_in category_out categories.

Definition transaction_type_eqb (a b : transaction_type) : bool :=
  String.eqb (transaction_type_out a) (transaction_type_out b).

Definition category_eqb (a b : category) : bool :=
  String.eqb (category_out a) (category_out b).

End Schema.

(** A row of [users]; [email] carries a unique constraint. *)
Module User.
Record row : Type := mk {
  id : string;
  email : option string;
  firstName : option string;
  lastName : option string;
  profileImageUrl : option string;
  defaultCurrency : option string;
  createdAt : option Js.Date;
  updatedAt : option Js.Date
}.
End User.

(** A row of [transactions].  [amount] is a [decimal(10, 2)], held as its
    count of hundredths; [userId] references [users.id]. *)
Module Transaction.
Record row : Type := mk {
  id : string;
  userId : string;
  type : Schema.transaction_type;
  description : string;
  amount : Z;
  category : Schema.category;
  date : Pg.date;
  currency : option string;
  createdAt : option Js.Date;
  updatedAt : option Js.Date
}.
End Transaction.

(** A row of [budgets]; [userId] references [users.id]. *)
Module Budget.
Record row : Type := mk {
  id : string;
  userId : string;
  category : Schema.category;
  amount : Z;
  period : option string;
  currency : option string;
  createdAt : option Js.Date;
  updatedAt : option Js.Date
}.
End Budget.

(** What [insertTransactionSchema.parse] returns.  The columns [id],
    [userId], [createdAt] and [updatedAt] are omitted from the schema;
    [currency] has a default and is nullable, so it may be absent
    ([None]) or [null] ([Some None]). *)
Module InsertTransaction.
Record t : Type := mk {
  type : Schema.transaction_type;
  description : string;
  amount : string;
  category : Schema.category;
  date : string;
  currency : option (option string)
}.
End InsertTransaction.

(** What [insertTransactionSchema.partial().parse] returns: every field may
    be absent. *)
Module TransactionUpdates.
Record t : Type := mk {
  type : option Schema.transaction_type;
  description : option string;
  amount : option string;
  category : option Schema.category;
  date : option string;
  currency : option (option string)
}.
End TransactionUpdates.

(** What [insertBudgetSchema.partial().parse] returns. *)
Module BudgetUpdates.
Record t : Type := mk {
  category : option Schema.category;
  amount : option string;
  period : option (option string);
  currency : option (option string)
}.
End BudgetUpdates.

(** The [filters] argument of [getTransactions]. *)
Module Filters.
Record t : Type := mk {
  startDate : option string;
  endDate : option string;
  category : option string;
  type : option string
}.
End Filters.

(** ** Query building blocks *)

Module Sql.

(** A text parameter compared with a column of some type. *)
Definition param {A : Type} (conv : string -> option A) (ty : string)
    (s : string) : result A :=
  match conv s with
  | Some v => Ok v
  | None => StoreError ("invalid input for type " ++ ty ++ ": " ++ s)
  end.

(** An optional text parameter. *)
Definition param_opt {A : Type} (conv : string -> option A) (ty : string)
    (s : option string) : result (option A) :=
  match s with
  | Some s' => await v <- param conv ty s'; Ok (Some v)
  | None => Ok None
  end.

(** [and(...conditions)] *)
Definition and_ {R : Type} (conditions : list (R -> bool)) (r : R) : bool :=
  forallb (fun c => c r) conditions.

(** [orderBy(desc(key))] with [leb] the order of the key: a stable sort.
    The store promises no order among equal keys; keeping the order of
    the table is one admissible outcome. *)
Fixpoint insert_desc {R K : Type} (leb : K -> K -> bool) (key : R -> K)
    (x : R) (l : list R) : list R :=
  match l with
  | [] => [x]
  | y :: l' =>
      if leb (key y) (key x) then x :: y :: l'
      else y :: insert_desc leb key x l'
  end.

Definition orderBy_desc {R K : Type} (leb : K -> K -> bool) (key : R -> K)
    (l : list R) : list R :=
  fold_right (insert_desc leb key) [] l.

(** [orderBy(key)], ascending, stable. *)
Fixpoint insert_asc {R K : Type} (leb : K -> K -> bool) (key : R -> K)
    (x : R) (l : list R) : list R :=
  match l with
  | [] => [x]
  | y :: l' =>
      if leb (key x) (key y) then x :: y :: l'
      else y :: insert_asc leb key x l'
  end.

Definition orderBy_asc {R K : Type} (leb : K -> K -> bool) (key : R -> K)
    (l : list R) : list R :=
  fold_right (insert_asc leb key) [] l.

(** The distinct keys of a [groupBy], in order of first occurrence (the
    store promises no order of the groups). *)
Fixpoint distinct {K : Type} (eqb : K -> K -> bool) (ks : list K) : list K :=
  match ks with
  | [] => []
  | k :: ks' => k :: filter (fun k' => negb (eqb k' k)) (distinct eqb ks')
  end.

(** [select({key, total: sum(value)}).groupBy(key)] *)
Definition groupBy_sum {R K : Type} (eqb : K -> K -> bool) (key : R -> K)
    (value : R -> Z) (rows : list R) : list (K * option Z) :=
  map (fun k => (k, Pg.sum (map value (filter (fun r => eqb (key r) k) rows))))
      (distinct eqb (map key rows)).

End Sql.

(** ** [DatabaseStorage] *)

Module Storage.

Definition opt {A B : Type} (o : option A) (f : A -> option B) : option B :=
  match o with Some a => f a | None => None end.

Definition table : Type := list Transaction.row.

(** *** Transactions *)

(** One [if (filters?.field) conditions.push(...)]: a falsy field leaves
    the conditions alone; a truthy one is converted to the type of the
    column it is compared with. *)
Definition push_if {A : Type} (field : option string)
    (conv : string -> option A) (ty : string)
    (cond : A -> Transaction.row -> bool)
    (conditions : list (Transaction.row -> bool))
    : result (list (Transaction.row -> bool)) :=
  if Js.truthy field then
    match field with
    | Some s => await v <- Sql.param conv ty s; Ok (conditions ++ [cond v])
    | None => Ok conditions
    end
  else Ok conditions.

Definition getTransactions (tbl : table) (userId : string)
    (filters : option Filters.t) : result (list Transaction.row) :=
  let conditions := [fun r => String.eqb (Transaction.userId r) userId] in
  await conditions <- push_if (opt filters Filters.startDate) Pg.date_in "date"
      (fun v r => Pg.date_leb v (Transaction.date r)) conditions;
  await conditions <- push_if (opt filters Filters.endDate) Pg.date_in "date"
      (fun v r => Pg.date_leb (Transaction.date r) v) conditions;
  await conditions <- push_if (opt filters Filters.category) Schema.category_in "category"
      (fun v r => Schema.category_eqb (Transaction.category r) v) conditions;
  await conditions <- push_if (opt filters Filters.type) Schema.transaction_type_in
      "transaction_type"
      (fun v r => Schema.transaction_type_eqb (Transaction.type r) v) conditions;
  Ok (Sql.orderBy_desc Pg.date_leb Transaction.date
        (filter (Sql.and_ conditions) tbl)).

(** [references(() => users.id)] on a [userId] column: the foreign key
    holds when [users] has a row with that id. *)
Definition user_exists (users : list User.row) (userId : string) : bool :=
  existsb (fun u => String.eqb (User.id u) userId) users.

(** [id] is the value that the column default [gen_random_uuid()]
    produces for this insert and [now] the value of [now()]; [id] is the
    primary key, so a value already in the table is refused, and [userId]
    is a foreign key, so an owner without a row in [users] is refused.  An
    absent [currency] takes the column default. *)
Definition createTransaction (users : list User.row) (tbl : table)
    (transaction : InsertTransaction.t) (userId : string)
    (id : string) (now : Js.Date) : result (table * Transaction.row) :=
  await amount <- Sql.param Pg.numeric_in "numeric" (InsertTransaction.amount transaction);
  await date <- Sql.param Pg.date_in "date" (InsertTransaction.date transaction);
  if existsb (fun r => String.eqb (Transaction.id r) id) tbl
  then StoreError "duplicate key value violates unique constraint"
  else if negb (user_exists users userId)
  then StoreError "insert or update on table violates foreign key constraint"
  else
    let newTransaction :=
      Transaction.mk id userId
        (InsertTransaction.type transaction)
        (InsertTransaction.description transaction)
        amount
        (InsertTransaction.category transaction)
        date
        (match InsertTransaction.currency transaction with
         | Some c => c
         | None => Some "INR"
         end)
        (Some now) (Some now) in
    Ok (tbl ++ [newTransaction], newTransaction).

Definition or_else {A : Type} (o : option A) (a : A) : A :=
  match o with Some v => v | None => a end.

(** [.set({ ...updates, updatedAt: new Date() })] on one row, the text
    fields already converted. *)
Definition set_transaction (updates : TransactionUpdates.t)
    (amount : option Z) (date : option Pg.date) (now : Js.Date)
    (r : Transaction.row) : Transaction.row :=
  Transaction.mk (Transaction.id r) (Transaction.userId r)
    (or_else (TransactionUpdates.type updates) (Transaction.type r))
    (or_else (TransactionUpdates.description updates) (Transaction.description r))
    (or_else amount (Transaction.amount r))
    (or_else (TransactionUpdates.category updates) (Transaction.category r))
    (or_else date (Transaction.date r))
    (or_else (TransactionUpdates.currency updates) (Transaction.currency r))
    (Transaction.createdAt r)
    (Some now).

Definition transaction_is (id userId : string) (r : Transaction.row) : bool :=
  Sql.and_ [fun r => String.eqb (Transaction.id r) id;
            fun r => String.eqb (Transaction.userId r) userId] r.

(** Returns the new table and [updated], the first row of [returning()]
    ([undefined] when no row was updated). *)
Definition updateTransaction (tbl : table) (id userId : string)
    (updates : TransactionUpdates.t) (now : Js.Date)
    : result (table * option Transaction.row) :=
  await amount <- Sql.param_opt Pg.numeric_in "numeric" (TransactionUpdates.amount updates);
  await date <- Sql.param_opt Pg.date_in "date" (TransactionUpdates.date updates);
  let set := set_transaction updates amount date now in
  let returning := map set (filter (transaction_is id userId) tbl) in
  Ok (map (fun r => if transaction_is id userId r then set r else r) tbl,
      hd_error returning).

(** Returns the new table and [(result.rowCount ?? 0) > 0]. *)
Definition deleteTransaction (tbl : table) (id userId : string)
    : result (table * bool) :=
  let rowCount := Z.of_nat (List.length (filter (transaction_is id userId) tbl)) in
  Ok (filter (fun r => negb (transaction_is id userId r)) tbl, 0 <? rowCount).

(** *** Budgets *)

Definition budget_is (id userId : string) (r : Budget.row) : bool :=
  Sql.and_ [fun r => String.eqb (Budget.id r) id;
            fun r => String.eqb (Budget.userId r) userId] r.

Definition set_budget (updates : BudgetUpdates.t) (amount : option Z)
    (now : Js.Date) (r : Budget.row) : Budget.row :=
  Budget.mk (Budget.id r) (Budget.userId r)
    (or_else (BudgetUpdates.category updates) (Budget.category r))
    (or_else amount (Budget.amount r))
    (or_else (BudgetUpdates.period updates) (Budget.period r))
    (or_else (BudgetUpdates.currency updates) (Budget.currency r))
    (Budget.createdAt r)
    (Some now).

Definition updateBudget (tbl : list Budget.row) (id userId : string)
    (updates : BudgetUpdates.t) (now : Js.Date)
    : result (list Budget.row * option Budget.row) :=
  await amount <- Sql.param_opt Pg.numeric_in "numeric" (BudgetUpdates.amount updates);
  let set := set_budget updates amount now in
  let returning := map set (filter (budget_is id userId) tbl) in
  Ok (map (fun r => if budget_is id userId r then set r else r) tbl,
      hd_error returning).

(** *** Analytics *)

Record DashboardData : Type := mkDashboardData {
  totalBalance : float;
  monthlyIncome : float;
  monthlyExpenses : float;
  savingsRate : float
}.

(** [select({ total: sum(amount) })] over the rows of [userId] of kind
    [ty] with [startOfMonth <= date <= endOfMonth]. *)
Definition monthly_total (tbl : table) (userId : string)
    (ty : Schema.transaction_type) (startOfMonth endOfMonth : string)
    : result (option Z) :=
  await lo <- Sql.param Pg.date_in "date" startOfMonth;
  await hi <- Sql.param Pg.date_in "date" endOfMonth;
  Ok (Pg.sum (map Transaction.amount
        (filter (Sql.and_
           [fun r => String.eqb (Transaction.userId r) userId;
            fun r => Schema.transaction_type_eqb (Transaction.type r) ty;
            fun r => Pg.date_leb lo (Transaction.date r);
            fun r => Pg.date_leb (Transaction.date r) hi]) tbl))).

(** [now] is the value of [new Date()]. *)
Definition getDashboardData (tbl : table) (userId : string) (now : Js.Date)
    : result DashboardData :=
  let currentMonth := Js.slice0 7 (Js.toISOString now) in
  let startOfMonth := (currentMonth ++ "-01")%string in
  let endOfMonth := (currentMonth ++ "-31")%string in
  await incomeResult <-
    monthly_total tbl userId Schema.t_income startOfMonth endOfMonth;
  await expenseResult <-
    monthly_total tbl userId Schema.t_expense startOfMonth endOfMonth;
  let monthlyIncome := Js.Number_or_0 incomeResult in
  let monthlyExpenses := Js.Number_or_0 expenseResult in
  let totalBalance := PrimFloat.sub monthlyIncome monthlyExpenses in
  let savingsRate :=
    if PrimFloat.ltb 0%float monthlyIncome
    then PrimFloat.mul
           (PrimFloat.div (PrimFloat.sub monthlyIncome monthlyExpenses) monthlyIncome)
           100%float
    else 0%float in
  Ok (mkDashboardData totalBalance monthlyIncome monthlyExpenses savingsRate).

Record CategoryAmount : Type := mkCategoryAmount {
  ca_category : Schema.category;
  ca_amount : float
}.

Definition expense_in_range (userId : string) (lo hi : Pg.date)
    : Transaction.row -> bool :=
  Sql.and_
    [fun r => String.eqb (Transaction.userId r) userId;
     fun r => Schema.transaction_type_eqb (Transaction.type r) Schema.t_expense;
     fun r => Pg.date_leb lo (Transaction.date r);
     fun r => Pg.date_leb (Transaction.date r) hi].

Definition getExpensesByCategory (tbl : table) (userId : string)
    (startDate endDate : string) : result (list CategoryAmount) :=
  await lo <- Sql.param Pg.date_in "date" startDate;
  await hi <- Sql.param Pg.date_in "date" endDate;
  let result :=
    Sql.groupBy_sum Schema.category_eqb Transaction.category Transaction.amount
      (filter (expense_in_range userId lo hi) tbl) in
  Ok (map (fun row => mkCategoryAmount (fst row) (Js.Number_or_0 (snd row))) result).

Record MonthTotals : Type := mkMonthTotals {
  mt_income : float;
  mt_expenses : float
}.

Record MonthEntry : Type := mkMonthEntry {
  me_month : string;
  me_income : float;
  me_expenses : float
}.

(** The object [monthlyData], as its properties in insertion order, which
    is the order of [Object.entries] for keys that are not array
    indices. *)
Definition object : Type := list (string * MonthTotals).

Fixpoint obj_get (o : object) (k : string) : option MonthTotals :=
  match o with
  | [] => None
  | (k', v) :: o' => if String.eqb k' k then Some v else obj_get o' k
  end.

Fixpoint obj_set (o : object) (k : string) (v : MonthTotals) : object :=
  match o with
  | [] => [(k, v)]
  | (k', v') :: o' =>
      if String.eqb k' k then (k', v) :: o' else (k', v') :: obj_set o' k v
  end.

Definition month_key (k : string * Schema.transaction_type) : string := fst k.

Definition month_type_eqb (a b : string * Schema.transaction_type) : bool :=
  String.eqb (fst a) (fst b) && Schema.transaction_type_eqb (snd a) (snd b).

(** The body of [result.forEach]. *)
Definition forEach_row (monthlyData : object)
    (row : (string * Schema.transaction_type) * option Z) : object :=
  let month := fst (fst row) in
  let monthlyData :=
    match obj_get monthlyData month with
    | None => obj_set monthlyData month (mkMonthTotals 0%float 0%float)
    | Some _ => monthlyData
    end in
  match obj_get monthlyData month with
  | Some data =>
      match snd (fst row) with
      | Schema.t_income =>
          obj_set monthlyData month
            (mkMonthTotals (Js.Number_or_0 (snd row)) (mt_expenses data))
      | Schema.t_expense =>
          obj_set monthlyData month
            (mkMonthTotals (mt_income data) (Js.Number_or_0 (snd row)))
      end
  | None => monthlyData
  end.

Definition since (userId : string) (start : Pg.date) : Transaction.row -> bool :=
  Sql.and_
    [fun r => String.eqb (Transaction.userId r) userId;
     fun r => Pg.date_leb start (Transaction.date r)].

Definition month_type_of (r : Transaction.row) : string * Schema.transaction_type :=
  (Pg.to_char_YYYY_MM (Transaction.date r), Transaction.type r).

(** [tz] is the time zone of the host and [now] the value of
    [new Date()]. *)
Definition getIncomeVsExpenses (tz : Js.TimeZone) (tbl : table) (userId : string)
    (months : Z) (now : Js.Date) : result (list MonthEntry) :=
  let startDate := Js.setMonth tz now (Js.getMonth tz now - months) in
  await start <- Sql.param Pg.date_in "date" (Js.slice0 10 (Js.toISOString startDate));
  let result :=
    Sql.orderBy_asc String.leb (fun row => month_key (fst row))
      (Sql.groupBy_sum month_type_eqb month_type_of Transaction.amount
         (filter (since userId start) tbl)) in
  let monthlyData := fold_left forEach_row result [] in
  Ok (map (fun entry =>
             mkMonthEntry (fst entry) (mt_income (snd entry)) (mt_expenses (snd entry)))
          monthlyData).

End Storage.

(** ** Request validation

    [createInsertSchema] of drizzle-zod derives the schema from the column
    types: an enum column must hold one of its labels, a [text], [decimal]
    or [date] column any string; a column that is nullable or has a default
    may be absent or [null].  Unknown keys are dropped. *)

Module Zod.

(** A JSON value of a request body, as far as the schema tells them
    apart. *)
Inductive json : Type :=
| JNull
| JBool (b : bool)
| JNumber (n : float)
| JString (s : string)
| JCompound.

(** The body of a request on a transaction: the value under each key the
    schema knows, [None] when the key is missing. *)
Record body : Type := mkbody {
  b_type : option json;
  b_description : option json;
  b_amount : option json;
  b_category : option json;
  b_date : option json;
  b_currency : option json
}.

Definition z_string (v : option json) : option string :=
  match v with
  | Some (JString s) => Some s
  | _ => None
  end.

Definition z_enum {E : Type} (enum_in : string -> option E) (v : option json)
    : option E :=
  match v with
  | Some (JString s) => enum_in s
  | _ => None
  end.

(** [z.string().nullable().optional()] *)
Definition z_string_nullish (v : option json) : option (option (option string)) :=
  match v with
  | None => Some None
  | Some JNull => Some (Some None)
  | Some (JString s) => Some (Some (Some s))
  | Some _ => None
  end.

(** [schema.optional()] *)
Definition optional {A : Type} (schema : option json -> option A)
    (v : option json) : option (option A) :=
  match v with
  | None => Some None
  | Some _ => option_map Some (schema v)
  end.

(** [insertTransactionSchema.parse]; [None] stands for a thrown
    [ZodError]. *)
Definition insertTransactionSchema_parse (b : body) : option InsertTransaction.t :=
  Pg.obind (z_enum Schema.transaction_type_in (b_type b)) (fun type =>
  Pg.obind (z_string (b_description b)) (fun description =>
  Pg.obind (z_string (b_amount b)) (fun amount =>
  Pg.obind (z_enum Schema.category_in (b_category b)) (fun category =>
  Pg.obind (z_string (b_date b)) (fun date =>
  Pg.obind (z_string_nullish (b_currency b)) (fun currency =>
    Some (InsertTransaction.mk type description amount category date currency))))))).

(** [insertTransactionSchema.partial().parse] *)
Definition insertTransactionSchema_partial_parse (b : body)
    : option TransactionUpdates.t :=
  Pg.obind (optional (z_enum Schema.transaction_type_in) (b_type b)) (fun type =>
  Pg.obind (optional z_string (b_description b)) (fun description =>
  Pg.obind (optional z_string (b_amount b)) (fun amount =>
  Pg.obind (optional (z_enum Schema.category_in) (b_category b)) (fun category =>
  Pg.obind (optional z_string (b_date b)) (fun date =>
  Pg.obind (z_string_nullish (b_currency b)) (fun currency =>
    Some (TransactionUpdates.mk type description amount category date currency))))))).

End Zod.

(** ** Route handlers of [registerRoutes] *)

Module Routes.

Inductive response (A : Type) : Type :=
| Json (status : Z) (payload : A)
| Message (status : Z) (message : string)
| Send (status : Z).

Arguments Json {A} status payload.
Arguments Message {A} status message.
Arguments Send {A} status.

(** [GET /api/transactions]; [query] holds the four query parameters. *)
Definition get_transactions (tbl : Storage.table) (userId : string)
    (query : Filters.t) : response (list Transaction.row) :=
  match Storage.getTransactions tbl userId
          (Some (Filters.mk (Filters.startDate query) (Filters.endDate query)
                   (Filters.category query) (Filters.type query))) with
  | Ok transactions => Json 200 transactions
  | StoreError _ => Message 500 "Failed to fetch transactions"
  end.

(** [POST /api/transactions]; [users] is the users table at the time of
    the request. *)
Definition post_transactions (users : list User.row) (tbl : Storage.table)
    (userId : string) (body : Zod.body) (id : string) (now : Js.Date)
    : Storage.table * response Transaction.row :=
  match Zod.insertTransactionSchema_parse body with
  | None => (tbl, Message 400 "Invalid transaction data")
  | Some validatedData =>
      match Storage.createTransaction users tbl validatedData userId id now with
      | Ok (tbl', transaction) => (tbl', Json 201 transaction)
      | StoreError _ => (tbl, Message 500 "Failed to create transaction")
      end
  end.

(** [PUT /api/transactions/:id] *)
Definition put_transactions (tbl : Storage.table) (userId id : string)
    (body : Zod.body) (now : Js.Date)
    : Storage.table * response Transaction.row :=
  match Zod.insertTransactionSchema_partial_parse body with
  | None => (tbl, Message 400 "Invalid transaction data")
  | Some validatedData =>
      match Storage.updateTransaction tbl id userId validatedData now with
      | Ok (tbl', Some transaction) => (tbl', Json 200 transaction)
      | Ok (tbl', None) => (tbl', Message 404 "Transaction not found")
      | StoreError _ => (tbl, Message 500 "Failed to update transaction")
      end
  end.

(** [DELETE /api/transactions/:id] *)
Definition delete_transactions (tbl : Storage.table) (userId id : string)
    : Storage.table * response Transaction.row :=
  match Storage.deleteTransaction tbl id userId with
  | Ok (tbl', true) => (tbl', Send 204)
  | Ok (tbl', false) => (tbl', Message 404 "Transaction not found")
  | StoreError _ => (tbl, Message 500 "Failed to delete transaction")
  end.

End Routes.

(** ** Vocabulary of the specification *)

Module Spec.

(** The filter of [listTransactions], with typed fields. *)
Record filter : Type := mkfilter {
  startDate : option Pg.date;
  endDate : option Pg.date;
  category : option Schema.category;
  kind : option Schema.transaction_type
}.

(** The filter as it reaches [getTransactions]: dates in ISO form, enum
    values by their labels. *)
Definition to_filters (f : filter) : Filters.t :=
  Filters.mk (option_map Pg.date_out (startDate f))
             (option_map Pg.date_out (endDate f))
             (option_map Schema.category_out (category f))
             (option_map Schema.transaction_type_out (kind f)).

Definition holds {A : Type} (o : option A) (p : A -> bool) : bool :=
  match o with Some a => p a | None => true end.

(** A row of [owner] that satisfies every supplied field. *)
Definition satisfies (owner : string) (f : filter) (r : Transaction.row) : bool :=
  String.eqb (Transaction.userId r) owner
  && holds (startDate f) (fun d => Pg.date_leb d (Transaction.date r))
  && holds (endDate f) (fun d => Pg.date_leb (Transaction.date r) d)
  && holds (category f) (fun c => Schema.category_eqb (Transaction.category r) c)
  && holds (kind f) (fun k => Schema.transaction_type_eqb (Transaction.type r) k).

Definition well_formed (f : filter) : bool :=
  holds (startDate f) Pg.valid_date && holds (endDate f) Pg.valid_date.

Definition owned_by (owner : string) (r : Transaction.row) : bool :=
  String.eqb (Transaction.userId r) owner.

End Spec.

(** ** Sample data *)

Module Sample.

Definition tx (id userId : string) (type : Schema.transaction_type) (amount : Z)
    (category : Schema.category) (y m d : Z) : Transaction.row :=
  Transaction.mk id userId type "" amount category (Pg.mkdate y m d)
    (Some "INR") None None.

(** The ledger of the example in the specification. *)
Definition ledger : Storage.table :=
  [tx "t1" "alice" Schema.t_income 100000 Schema.c_salary 2024 1 15;
   tx "t2" "alice" Schema.t_expense 30000 Schema.c_other 2024 1 20;
   tx "t3" "alice" Schema.t_expense 15000 Schema.c_food 2024 2 5].

(** The users table with the two owners of the examples. *)
Definition people : list User.row :=
  [User.mk "alice" (Some "alice@example.org") (Some "Alice") None None (Some "INR")
     None None;
   User.mk "bob" (Some "bob@example.org") (Some "Bob") None None (Some "INR")
     None None].

(** Two owners, the second holding one row. *)
Definition shared : Storage.table :=
  ledger ++ [tx "t4" "bob" Schema.t_expense 700 Schema.c_food 2024 1 21].

Definition january : Spec.filter :=
  Spec.mkfilter (Some (Pg.mkdate 2024 1 1)) (Some (Pg.mkdate 2024 1 31))
    None (Some Schema.t_expense).

(** Thirty and ten hundredths in January 2024. *)
Definition small_change : Storage.table :=
  [tx "s1" "alice" Schema.t_income 30 Schema.c_other 2024 1 15;
   tx "s2" "alice" Schema.t_expense 10 Schema.c_other 2024 1 20].

(** One income in April 2024. *)
Definition april : Storage.table :=
  [tx "a1" "alice" Schema.t_income 100000 Schema.c_salary 2024 4 10].

(** One expense of amount zero. *)
Definition free_lunch : Storage.table :=
  [tx "f1" "alice" Schema.t_expense 0 Schema.c_food 2024 1 12].

(** A request body with a negative amount, and one with a day that does
    not exist. *)
Definition refund : Zod.body :=
  Zod.mkbody (Some (Zod.JString "expense")) (Some (Zod.JString "refund"))
    (Some (Zod.JString "-5.00")) (Some (Zod.JString "food"))
    (Some (Zod.JString "2024-01-10")) None.

Definition feb_30 : Zod.body :=
  Zod.mkbody (Some (Zod.JString "expense")) (Some (Zod.JString "lunch"))
    (Some (Zod.JString "5.00")) (Some (Zod.JString "food"))
    (Some (Zod.JString "2024-02-30")) None.

(** An expense in May and an income in July 2024. *)
Definition around_june : Storage.table :=
  [tx "j1" "alice" Schema.t_expense 2000 Schema.c_food 2024 5 20;
   tx "j2" "alice" Schema.t_income 5000 Schema.c_salary 2024 7 1].

Definition jan_25 : Js.Date := Js.mkDate 2024 0 25 0.
Definition apr_15 : Js.Date := Js.mkDate 2024 3 15 0.
Definition jun_15 : Js.Date := Js.mkDate 2024 5 15 0.

Definition budgets : list Budget.row :=
  [Budget.mk "b1" "alice" Schema.c_food 50000 (Some "monthly") (Some "INR") None None;
   Budget.mk "b2" "bob" Schema.c_food 20000 (Some "weekly") (Some "INR") None None].

End Sample.

(** ** Patches and stated outcomes *)

Module Patch.

(** A budget patch that holds the [period] field and nothing else. *)
Definition period_only (period : option string) : BudgetUpdates.t :=
  BudgetUpdates.mk None None (Some period) None.

(** The row [b] with a new period and a new [updatedAt], every other
    column as it was. *)
Definition with_period (period : option string) (now : Js.Date) (b : Budget.row)
    : Budget.row :=
  Budget.mk (Budget.id b) (Budget.userId b) (Budget.category b) (Budget.amount b)
    period (Budget.currency b) (Budget.createdAt b) (Some now).

(** The user row [u] with a new [updatedAt], every other column as it
    was. *)
Definition stamped (now : Js.Date) (u : User.row) : User.row :=
  User.mk (User.id u) (User.email u) (User.firstName u) (User.lastName u)
    (User.profileImageUrl u) (User.defaultCurrency u) (User.createdAt u) (Some now).

End Patch.

(** ** Stated aggregates *)

Module Aggregate.

(** The date falls in month [m] of year [y]. *)
Definition in_month (y m : Z) (d : Pg.date) : bool :=
  (Pg.year d =? y) && (Pg.month d =? m).

(** The rows of [owner] of kind [ty] dated in month [m] of year [y]. *)
Definition of_month (owner : string) (ty : Schema.transaction_type) (y m : Z)
    (r : Transaction.row) : bool :=
  String.eqb (Transaction.userId r) owner
  && Schema.transaction_type_eqb (Transaction.type r) ty
  && in_month y m (Transaction.date r).

(** Exact decimal total of the amounts of the rows selected by [p], in
    hundredths. *)
Definition total (p : Transaction.row -> bool) (tbl : Storage.table) : Z :=
  fold_right Z.add 0 (map Transaction.amount (filter p tbl)).

(** Every stored date is a calendar day, as the column type ensures. *)
Definition dates_valid (tbl : Storage.table) : Prop :=
  forall r, In r tbl -> Pg.valid_date (Transaction.date r) = true.

(** The fields name a calendar day. *)
Definition day_ok (d : Js.Date) : Prop :=
  0 <= Js.monthIndex d <= 11
  /\ 1 <= Js.dayOfMonth d <= Js.daysInMonth (Js.fullYear d) (Js.monthIndex d + 1).

(** The clock shows a date written with a four-digit year. *)
Definition clock_ok (now : Js.Date) : Prop :=
  1 <= Js.fullYear now <= 9999 /\ 0 <= Js.monthIndex now <= 11
  /\ 1 <= Js.dayOfMonth now <= Js.daysInMonth (Js.fullYear now) (Js.monthIndex now + 1).

End Aggregate.

(** ** Stated selections *)

Module Select.

(** An expense of [owner] dated from [lo] to [hi], both included. *)
Definition expense_between (owner : string) (lo hi : Pg.date)
    (r : Transaction.row) : bool :=
  String.eqb (Transaction.userId r) owner
  && Schema.transaction_type_eqb (Transaction.type r) Schema.t_expense
  && Pg.date_leb lo (Transaction.date r)
  && Pg.date_leb (Transaction.date r) hi.

(** The same, within category [c]. *)
Definition expense_of_category (owner : string) (lo hi : Pg.date)
    (c : Schema.category) (r : Transaction.row) : bool :=
  expense_between owner lo hi r && Schema.category_eqb (Transaction.category r) c.

End Select.

(** ** The monthly series *)

Module Series.

(** The local time to which [getIncomeVsExpenses] moves the clock: the
    local date and time of [now], [months] months back. *)
Definition shifted (tz : Js.TimeZone) (now : Js.Date) (months : Z) : Js.Date :=
  Js.MakeDay (Js.LocalTime tz now) (Js.getMonth tz now - months).

(** The first day that [getIncomeVsExpenses] takes into account: the day
    on which that time falls in UTC. *)
Definition start_of (tz : Js.TimeZone) (now : Js.Date) (months : Z) : Pg.date :=
  let startDate := Js.UTC tz (shifted tz now months) in
  Pg.mkdate (Js.fullYear startDate) (Js.monthIndex startDate + 1)
    (Js.dayOfMonth startDate).

(** A row of [owner] of kind [ty], dated [start] or later, in the month
    written [month]. *)
Definition counted (owner : string) (start : Pg.date) (month : string)
    (ty : Schema.transaction_type) (r : Transaction.row) : bool :=
  String.eqb (Transaction.userId r) owner
  && Pg.date_leb start (Transaction.date r)
  && String.eqb (Pg.to_char_YYYY_MM (Transaction.date r)) month
  && Schema.transaction_type_eqb (Transaction.type r) ty.

(** The rows selected by the query of [getIncomeVsExpenses], its groups,
    and the groups in the order of the result. *)
Definition selected (tbl : Storage.table) (owner : string) (start : Pg.date)
    : Storage.table :=
  filter (Storage.since owner start) tbl.

Definition groups (tbl : Storage.table) (owner : string) (start : Pg.date)
    : list ((string * Schema.transaction_type) * option Z) :=
  Sql.groupBy_sum Storage.month_type_eqb Storage.month_type_of Transaction.amount
    (selected tbl owner start).

Definition query_rows (tbl : Storage.table) (owner : string) (start : Pg.date)
    : list ((string * Schema.transaction_type) * option Z) :=
  Sql.orderBy_asc String.leb
    (fun row : (string * Schema.transaction_type) * option Z =>
       Storage.month_key (fst row))
    (groups tbl owner start).

(** The number that the group of [month] and [ty], if there is one among
    the rows of the query, puts into [monthlyData]. *)
Definition reported (rows : list ((string * Schema.transaction_type) * option Z))
    (month : string) (ty : Schema.transaction_type) : float :=
  match find (fun row => Storage.month_type_eqb (fst row) (month, ty)) rows with
  | Some row => Js.Number_or_0 (snd row)
  | None => 0%float
  end.

(** What [monthlyData] holds after the loop has run over [rows]: a key for
    each month that occurs, in ascending order, and under it the number of
    each kind that has a row. *)
Definition loop_invariant
    (rows : list ((string * Schema.transaction_type) * option Z))
    (o : Storage.object) : Prop :=
  (forall m, In m (map fst o) <-> exists row, In row rows /\ fst (fst row) = m)
  /\ (forall m data, Storage.obj_get o m = Some data ->
        Storage.mt_income data = reported rows m Schema.t_income
        /\ Storage.mt_expenses data = reported rows m Schema.t_expense)
  /\ StronglySorted (fun a b => String.ltb a b = true) (map fst o).

End Series.

(** ** The other tables of [shared/schema.ts] *)

(** [UpsertUser], the insert type of [users]: every column may be absent
    ([None]); a nullable column may also be [null] ([Some None]). *)
Module UpsertUser.
Record t : Type := mk {
  id : option string;
  email : option (option string);
  firstName : option (option string);
  lastName : option (option string);
  profileImageUrl : option (option string);
  defaultCurrency : option (option string);
  createdAt : option (option Js.Date);
  updatedAt : option (option Js.Date)
}.
End UpsertUser.

(** A row of [goals]; the amounts are [decimal(10, 2)], in hundredths. *)
Module Goal.
Record row : Type := mk {
  id : string;
  userId : string;
  name : string;
  description : option string;
  targetAmount : Z;
  currentAmount : option Z;
  targetDate : option Pg.date;
  currency : option string;
  createdAt : option Js.Date;
  updatedAt : option Js.Date
}.
End Goal.

(** What [insertBudgetSchema.parse] returns. *)
Module InsertBudget.
Record t : Type := mk {
  category : Schema.category;
  amount : string;
  period : option (option string);
  currency : option (option string)
}.
End InsertBudget.

(** What [insertGoalSchema.parse] returns. *)
Module InsertGoal.
Record t : Type := mk {
  name : string;
  description : option (option string);
  targetAmount : string;
  currentAmount : option (option string);
  targetDate : option (option string);
  currency : option (option string)
}.
End InsertGoal.

(** What [insertGoalSchema.partial().parse] returns. *)
Module GoalUpdates.
Record t : Type := mk {
  name : option string;
  description : option (option string);
  targetAmount : option string;
  currentAmount : option (option string);
  targetDate : option (option string);
  currency : option (option string)
}.
End GoalUpdates.

(** ** The rest of [DatabaseStorage] *)

Module DatabaseStorage.

(** A text parameter for a nullable column: absent, [null], or text to
    convert. *)
Definition param_nullish {A : Type} (conv : string -> option A) (ty : string)
    (v : option (option string)) : result (option (option A)) :=
  match v with
  | None => Ok None
  | Some None => Ok (Some None)
  | Some (Some s) => await a <- Sql.param conv ty s; Ok (Some (Some a))
  end.

(** *** Users *)

Definition getUser (users : list User.row) (id : string) : option User.row :=
  hd_error (filter (fun u => String.eqb (User.id u) id) users).

(** The unique constraint on [email]: no other row, that is no row with
    an id different from [id], holds the same non-null email. *)
Definition email_taken (users : list User.row) (id : string)
    (email : option string) : bool :=
  match email with
  | None => false
  | Some e =>
      existsb (fun u => negb (String.eqb (User.id u) id)
                        && match User.email u with
                           | Some e' => String.eqb e' e
                           | None => false
                           end) users
  end.

(** [set: { ...userData, updatedAt: new Date() }] on the row in conflict. *)
Definition set_user (userData : UpsertUser.t) (now : Js.Date) (u : User.row)
    : User.row :=
  User.mk (Storage.or_else (UpsertUser.id userData) (User.id u))
    (Storage.or_else (UpsertUser.email userData) (User.email u))
    (Storage.or_else (UpsertUser.firstName userData) (User.firstName u))
    (Storage.or_else (UpsertUser.lastName userData) (User.lastName u))
    (Storage.or_else (UpsertUser.profileImageUrl userData) (User.profileImageUrl u))
    (Storage.or_else (UpsertUser.defaultCurrency userData) (User.defaultCurrency u))
    (Storage.or_else (UpsertUser.createdAt userData) (User.createdAt u))
    (Some now).

(** The row that [values(userData)] inserts; [id] is its primary key, given
    or generated. *)
Definition new_user (userData : UpsertUser.t) (id : string) (now : Js.Date)
    : User.row :=
  User.mk id
    (Storage.or_else (UpsertUser.email userData) None)
    (Storage.or_else (UpsertUser.firstName userData) None)
    (Storage.or_else (UpsertUser.lastName userData) None)
    (Storage.or_else (UpsertUser.profileImageUrl userData) None)
    (Storage.or_else (UpsertUser.defaultCurrency userData) (Some "INR"))
    (Storage.or_else (UpsertUser.createdAt userData) (Some now))
    (Storage.or_else (UpsertUser.updatedAt userData) (Some now)).

(** [insert ... onConflictDoUpdate({ target: users.id, ... }).returning()].
    [gen] is the value of [gen_random_uuid()] used when [userData] has no
    id.  [now] is the time that the statement stamps: one call reads one
    clock only, [now()] of the store for the defaults of a row it inserts,
    [new Date()] of the server for the [updatedAt] of a row in conflict. *)
Definition upsertUser (users : list User.row) (userData : UpsertUser.t)
    (gen : string) (now : Js.Date) : result (list User.row * User.row) :=
  let id := Storage.or_else (UpsertUser.id userData) gen in
  let is_id := fun u => String.eqb (User.id u) id in
  if existsb is_id users then
    let set := set_user userData now in
    if existsb (fun u => is_id u && email_taken users id (User.email (set u))) users
    then StoreError "duplicate key value violates unique constraint"
    else
      match hd_error (map set (filter is_id users)) with
      | Some user => Ok (map (fun u => if is_id u then set u else u) users, user)
      | None => StoreError "no row returned"
      end
  else
    let user := new_user userData id now in
    if email_taken users id (User.email user)
    then StoreError "duplicate key value violates unique constraint"
    else Ok (users ++ [user], user).

(** *** Budgets *)

Fixpoint index_of {E : Type} (eqb : E -> E -> bool) (v : E) (l : list E) : nat :=
  match l with
  | [] => 0
  | x :: l' => if eqb x v then 0 else S (index_of eqb v l')
  end.

(** Values of an enum type sort in the order of their declaration. *)
Definition category_rank (c : Schema.category) : nat :=
  index_of Schema.category_eqb c Schema.categories.

Definition getBudgets (tbl : list Budget.row) (userId : string)
    : result (list Budget.row) :=
  Ok (Sql.orderBy_asc Nat.leb (fun r => category_rank (Budget.category r))
        (filter (fun r => String.eqb (Budget.userId r) userId) tbl)).

Definition createBudget (users : list User.row) (tbl : list Budget.row)
    (budget : InsertBudget.t) (userId : string) (id : string) (now : Js.Date)
    : result (list Budget.row * Budget.row) :=
  await amount <- Sql.param Pg.numeric_in "numeric" (InsertBudget.amount budget);
  if existsb (fun r => String.eqb (Budget.id r) id) tbl
  then StoreError "duplicate key value violates unique constraint"
  else if negb (Storage.user_exists users userId)
  then StoreError "insert or update on table violates foreign key constraint"
  else
    let newBudget :=
      Budget.mk id userId (InsertBudget.category budget) amount
        (Storage.or_else (InsertBudget.period budget) (Some "monthly"))
        (Storage.or_else (InsertBudget.currency budget) (Some "INR"))
        (Some now) (Some now) in
    Ok (tbl ++ [newBudget], newBudget).


(** *** Goals *)

(** Order of two timestamps. *)
Definition timestamp_leb (a b : Js.Date) : bool :=
  (Js.fullYear a <? Js.fullYear b)
  || ((Js.fullYear a =? Js.fullYear b)
      && ((Js.monthIndex a <? Js.monthIndex b)
          || ((Js.monthIndex a =? Js.monthIndex b)
              && ((Js.dayOfMonth a <? Js.dayOfMonth b)
                  || ((Js.dayOfMonth a =? Js.dayOfMonth b)
                      && (Js.msInDay a <=? Js.msInDay b)))))).

(** Ascending order of a nullable timestamp column: nulls come last. *)
Definition nullable_timestamp_leb (a b : option Js.Date) : bool :=
  match a, b with
  | Some x, Some y => timestamp_leb x y
  | Some _, None => true
  | None, Some _ => false
  | None, None => true
  end.

Definition goal_is (id userId : string) (r : Goal.row) : bool :=
  Sql.and_ [fun r => String.eqb (Goal.id r) id;
            fun r => String.eqb (Goal.userId r) userId] r.

Definition getGoals (tbl : list Goal.row) (userId : string)
    : result (list Goal.row) :=
  Ok (Sql.orderBy_asc nullable_timestamp_leb Goal.createdAt
        (filter (fun r => String.eqb (Goal.userId r) userId) tbl)).

Definition createGoal (users : list User.row) (tbl : list Goal.row)
    (goal : InsertGoal.t) (userId : string) (id : string) (now : Js.Date)
    : result (list Goal.row * Goal.row) :=
  await targetAmount <- Sql.param Pg.numeric_in "numeric" (InsertGoal.targetAmount goal);
  await currentAmount <-
    param_nullish Pg.numeric_in "numeric" (InsertGoal.currentAmount goal);
  await targetDate <- param_nullish Pg.date_in "date" (InsertGoal.targetDate goal);
  if existsb (fun r => String.eqb (Goal.id r) id) tbl
  then StoreError "duplicate key value violates unique constraint"
  else if negb (Storage.user_exists users userId)
  then StoreError "insert or update on table violates foreign key constraint"
  else
    let newGoal :=
      Goal.mk id userId (InsertGoal.name goal)
        (Storage.or_else (InsertGoal.description goal) None)
        targetAmount
        (Storage.or_else currentAmount (Some 0))
        (Storage.or_else targetDate None)
        (Storage.or_else (InsertGoal.currency goal) (Some "INR"))
        (Some now) (Some now) in
    Ok (tbl ++ [newGoal], newGoal).

Definition set_goal (updates : GoalUpdates.t) (targetAmount : option Z)
    (currentAmount : option (option Z)) (targetDate : option (option Pg.date))
    (now : Js.Date) (r : Goal.row) : Goal.row :=
  Goal.mk (Goal.id r) (Goal.userId r)
    (Storage.or_else (GoalUpdates.name updates) (Goal.name r))
    (Storage.or_else (GoalUpdates.description updates) (Goal.description r))
    (Storage.or_else targetAmount (Goal.targetAmount r))
    (Storage.or_else currentAmount (Goal.currentAmount r))
    (Storage.or_else targetDate (Goal.targetDate r))
    (Storage.or_else (GoalUpdates.currency updates) (Goal.currency r))
    (Goal.createdAt r)
    (Some now).

Definition updateGoal (tbl : list Goal.row) (id userId : string)
    (updates : GoalUpdates.t) (now : Js.Date)
    : result (list Goal.row * option Goal.row) :=
  await targetAmount <-
    Sql.param_opt Pg.numeric_in "numeric" (GoalUpdates.targetAmount updates);
  await currentAmount <-
    param_nullish Pg.numeric_in "numeric" (GoalUpdates.currentAmount updates);
  await targetDate <- param_nullish Pg.date_in "date" (GoalUpdates.targetDate updates);
  let set := set_goal updates targetAmount currentAmount targetDate now in
  let returning := map set (filter (goal_is id userId) tbl) in
  Ok (map (fun r => if goal_is id userId r then set r else r) tbl,
      hd_error returning).


End DatabaseStorage.

(** ** Validation of budgets and goals *)

Module Schemas.

Record budget_body : Type := mkbudget_body {
  bb_category : option Zod.json;
  bb_amount : option Zod.json;
  bb_period : option Zod.json;
  bb_currency : option Zod.json
}.

Record goal_body : Type := mkgoal_body {
  gb_name : option Zod.json;
  gb_description : option Zod.json;
  gb_targetAmount : option Zod.json;
  gb_currentAmount : option Zod.json;
  gb_targetDate : option Zod.json;
  gb_currency : option Zod.json
}.

(** [insertBudgetSchema.parse] *)
Definition insertBudgetSchema_parse (b : budget_body) : option InsertBudget.t :=
  Pg.obind (Zod.z_enum Schema.category_in (bb_category b)) (fun category =>
  Pg.obind (Zod.z_string (bb_amount b)) (fun amount =>
  Pg.obind (Zod.z_string_nullish (bb_period b)) (fun period =>
  Pg.obind (Zod.z_string_nullish (bb_currency b)) (fun currency =>
    Some (InsertBudget.mk category amount period currency))))).

(** [insertBudgetSchema.partial().parse] *)
Definition insertBudgetSchema_partial_parse (b : budget_body)
    : option BudgetUpdates.t :=
  Pg.obind (Zod.optional (Zod.z_enum Schema.category_in) (bb_category b)) (fun category =>
  Pg.obind (Zod.optional Zod.z_string (bb_amount b)) (fun amount =>
  Pg.obind (Zod.z_string_nullish (bb_period b)) (fun period =>
  Pg.obind (Zod.z_string_nullish (bb_currency b)) (fun currency =>
    Some (BudgetUpdates.mk category amount period currency))))).

(** [insertGoalSchema.parse] *)
Definition insertGoalSchema_parse (b : goal_body) : option InsertGoal.t :=
  Pg.obind (Zod.z_string (gb_name b)) (fun name =>
  Pg.obind (Zod.z_string_nullish (gb_description b)) (fun description =>
  Pg.obind (Zod.z_string (gb_targetAmount b)) (fun targetAmount =>
  Pg.obind (Zod.z_string_nullish (gb_currentAmount b)) (fun currentAmount =>
  Pg.obind (Zod.z_string_nullish (gb_targetDate b)) (fun targetDate =>
  Pg.obind (Zod.z_string_nullish (gb_currency b)) (fun currency =>
    Some (InsertGoal.mk name description targetAmount currentAmount targetDate
            currency))))))).

(** [insertGoalSchema.partial().parse] *)
Definition insertGoalSchema_partial_parse (b : goal_body) : option GoalUpdates.t :=
  Pg.obind (Zod.optional Zod.z_string (gb_name b)) (fun name =>
  Pg.obind (Zod.z_string_nullish (gb_description b)) (fun description =>
  Pg.obind (Zod.optional Zod.z_string (gb_targetAmount b)) (fun targetAmount =>
  Pg.obind (Zod.z_string_nullish (gb_currentAmount b)) (fun currentAmount =>
  Pg.obind (Zod.z_string_nullish (gb_targetDate b)) (fun targetDate =>
  Pg.obind (Zod.z_string_nullish (gb_currency b)) (fun currency =>
    Some (GoalUpdates.mk name description targetAmount currentAmount targetDate
            currency))))))).

End Schemas.

(** ** The other route handlers *)

Module Api.

(** [GET /api/dashboard] *)
Definition get_dashboard (tbl : Storage.table) (userId : string) (now : Js.Date)
    : Routes.response Storage.DashboardData :=
  match Storage.getDashboardData tbl userId now with
  | Ok dashboardData => Routes.Json 200 dashboardData
  | StoreError _ => Routes.Message 500 "Failed to fetch dashboard data"
  end.

(** [GET /api/budgets] *)
Definition get_budgets (tbl : list Budget.row) (userId : string)
    : Routes.response (list Budget.row) :=
  match DatabaseStorage.getBudgets tbl userId with
  | Ok budgets => Routes.Json 200 budgets
  | StoreError _ => Routes.Message 500 "Failed to fetch budgets"
  end.

(** [POST /api/budgets] *)
Definition post_budgets (users : list User.row) (tbl : list Budget.row)
    (userId : string) (body : Schemas.budget_body) (id : string) (now : Js.Date)
    : list Budget.row * Routes.response Budget.row :=
  match Schemas.insertBudgetSchema_parse body with
  | None => (tbl, Routes.Message 400 "Invalid budget data")
  | Some validatedData =>
      match DatabaseStorage.createBudget users tbl validatedData userId id now with
      | Ok (tbl', budget) => (tbl', Routes.Json 201 budget)
      | StoreError _ => (tbl, Routes.Message 500 "Failed to create budget")
      end
  end.

(** [PUT /api/budgets/:id] *)
Definition put_budgets (tbl : list Budget.row) (userId id : string)
    (body : Schemas.budget_body) (now : Js.Date)
    : list Budget.row * Routes.response Budget.row :=
  match Schemas.insertBudgetSchema_partial_parse body with
  | None => (tbl, Routes.Message 400 "Invalid budget data")
  | Some validatedData =>
      match Storage.updateBudget tbl id userId validatedData now with
      | Ok (tbl', Some budget) => (tbl', Routes.Json 200 budget)
      | Ok (tbl', None) => (tbl', Routes.Message 404 "Budget not found")
      | StoreError _ => (tbl, Routes.Message 500 "Failed to update budget")
      end
  end.


(** [GET /api/goals] *)
Definition get_goals (tbl : list Goal.row) (userId : string)
    : Routes.response (list Goal.row) :=
  match DatabaseStorage.getGoals tbl userId with
  | Ok goals => Routes.Json 200 goals
  | StoreError _ => Routes.Message 500 "Failed to fetch goals"
  end.

(** [POST /api/goals] *)
Definition post_goals (users : list User.row) (tbl : list Goal.row)
    (userId : string) (body : Schemas.goal_body) (id : string) (now : Js.Date)
    : list Goal.row * Routes.response Goal.row :=
  match Schemas.insertGoalSchema_parse body with
  | None => (tbl, Routes.Message 400 "Invalid goal data")
  | Some validatedData =>
      match DatabaseStorage.createGoal users tbl validatedData userId id now with
      | Ok (tbl', goal) => (tbl', Routes.Json 201 goal)
      | StoreError _ => (tbl, Routes.Message 500 "Failed to create goal")
      end
  end.

(** [PUT /api/goals/:id] *)
Definition put_goals (tbl : list Goal.row) (userId id : string)
    (body : Schemas.goal_body) (now : Js.Date)
    : list Goal.row * Routes.response Goal.row :=
  match Schemas.insertGoalSchema_partial_parse body with
  | None => (tbl, Routes.Message 400 "Invalid goal data")
  | Some validatedData =>
      match DatabaseStorage.updateGoal tbl id userId validatedData now with
      | Ok (tbl', Some goal) => (tbl', Routes.Json 200 goal)
      | Ok (tbl', None) => (tbl', Routes.Message 404 "Goal not found")
      | StoreError _ => (tbl, Routes.Message 500 "Failed to update goal")
      end
  end.


(** [GET /api/analytics/expenses-by-category]; the two query parameters
    may be missing. *)
Definition get_expenses_by_category (tbl : Storage.table) (userId : string)
    (startDate endDate : option string)
    : Routes.response (list Storage.CategoryAmount) :=
  if negb (Js.truthy startDate) || negb (Js.truthy endDate)
  then Routes.Message 400 "Start date and end date are required"
  else
    match startDate, endDate with
    | Some s, Some e =>
        match Storage.getExpensesByCategory tbl userId s e with
        | Ok expenses => Routes.Json 200 expenses
        | StoreError _ => Routes.Message 500 "Failed to fetch expenses by category"
        end
    | _, _ => Routes.Message 400 "Start date and end date are required"
    end.

End Api.

(** ** [server/localAuth.ts] *)

Module LocalAuth.

(** The user object kept in the session. *)
Record SessionUser : Type := mkSessionUser {
  id : string;
  email : option string;
  firstName : option string;
  lastName : option string;
  profileImageUrl : option string
}.

Definition demoUser : SessionUser :=
  mkSessionUser "demo-user-123" (Some "demo@financetracker.com") (Some "Demo")
    (Some "User") None.

(** [GET /api/login] and [GET /api/logout], as their effect on the session
    user. *)
Definition login (session : option SessionUser) : option SessionUser :=
  Some demoUser.

Definition logout (session : option SessionUser) : option SessionUser := None.

Record Claims : Type := mkClaims {
  sub : string;
  claim_email : option string;
  first_name : option string;
  last_name : option string;
  profile_image_url : option string
}.

Inductive outcome : Type :=
| Unauthorized (status : Z) (message : string)
| Next (claims : Claims).

(** The middleware [isAuthenticated]: the users table afterwards, and
    either the 401 answer or the claims with which [next()] runs.  A
    failed upsert is logged and otherwise ignored. *)
Definition isAuthenticated (users : list User.row) (session : option SessionUser)
    (gen : string) (now : Js.Date) : list User.row * outcome :=
  match session with
  | None => (users, Unauthorized 401 "Unauthorized")
  | Some user =>
      let users' :=
        match DatabaseStorage.upsertUser users
                (UpsertUser.mk (Some (id user)) (Some (email user))
                   (Some (firstName user)) (Some (lastName user))
                   (Some (profileImageUrl user)) None None None)
                gen now with
        | Ok (users', _) => users'
        | StoreError _ => users
        end in
      (users', Next (mkClaims (id user) (email user) (firstName user)
                       (lastName user) (profileImageUrl user)))
  end.

(** A route registered as [app.verb(path, isAuthenticated, handler)]:
    [handler] receives [req.user.claims.sub] and acts on the state [S] of
    the tables it uses. *)
Definition guarded {S A : Type}
    (handler : string -> S -> S * Routes.response A)
    (users : list User.row) (session : option SessionUser) (gen : string)
    (now : Js.Date) (tables : S)
    : list User.row * S * Routes.response A :=
  match isAuthenticated users session gen now with
  | (users', Unauthorized status message) =>
      (users', tables, Routes.Message status message)
  | (users', Next claims) =>
      let '(tables', answer) := handler (sub claims) tables in
      (users', tables', answer)
  end.

End LocalAuth.

(** ** Client pages and forms

    The forms send their data with [apiRequest(method, url, data)], which
    serializes the object as JSON.  [parseFloat] is the built-in; where
    only the kind of its result matters it is a parameter. *)

Module Client.

(** [JSON.stringify] of a number: [NaN] and the infinities become [null]. *)
Definition json_of_number (n : float) : Zod.json :=
  if PrimFloat.is_nan n || PrimFloat.is_infinity n then Zod.JNull
  else Zod.JNumber n.

(** A property that [JSON.stringify] leaves out when it is [undefined]. *)
Definition json_of_optional_string (v : option string) : option Zod.json :=
  option_map Zod.JString v.

(** *** [TransactionModal] *)

Record TransactionFormData : Type := mkTransactionFormData {
  tf_type : string;
  tf_description : string;
  tf_amount : string;
  tf_category : string;
  tf_date : string
}.

(** The body built in [mutationFn]: [{ ...data, amount: parseFloat(data.amount) }]. *)
Definition transaction_request (parseFloat : string -> float)
    (data : TransactionFormData) : Zod.body :=
  Zod.mkbody (Some (Zod.JString (tf_type data)))
    (Some (Zod.JString (tf_description data)))
    (Some (json_of_number (parseFloat (tf_amount data))))
    (Some (Zod.JString (tf_category data)))
    (Some (Zod.JString (tf_date data)))
    None.

(** *** [BudgetModal] *)

Record BudgetFormData : Type := mkBudgetFormData {
  bf_category : string;
  bf_amount : string;
  bf_period : string
}.

Definition budget_request (parseFloat : string -> float) (data : BudgetFormData)
    : Schemas.budget_body :=
  Schemas.mkbudget_body (Some (Zod.JString (bf_category data)))
    (Some (json_of_number (parseFloat (bf_amount data))))
    (Some (Zod.JString (bf_period data)))
    None.

(** *** [GoalModal] and the goals page *)

Record GoalFormData : Type := mkGoalFormData {
  gf_name : string;
  gf_description : option string;
  gf_targetAmount : string;
  gf_currentAmount : option string;
  gf_targetDate : option string
}.

(** [{ ...data, targetAmount: parseFloat(data.targetAmount),
       currentAmount: data.currentAmount ? parseFloat(data.currentAmount) : 0 }] *)
Definition goal_request (parseFloat : string -> float) (data : GoalFormData)
    : Schemas.goal_body :=
  Schemas.mkgoal_body (Some (Zod.JString (gf_name data)))
    (json_of_optional_string (gf_description data))
    (Some (json_of_number (parseFloat (gf_targetAmount data))))
    (Some (json_of_number
             (if Js.truthy (gf_currentAmount data)
              then match gf_currentAmount data with
                   | Some s => parseFloat s
                   | None => 0%float
                   end
              else 0%float)))
    (json_of_optional_string (gf_targetDate data))
    None.

(** The body of [addMoneyMutation]: [{ currentAmount: newCurrentAmount }]. *)
Definition add_money_request (newCurrentAmount : float) : Schemas.goal_body :=
  Schemas.mkgoal_body None None None (Some (json_of_number newCurrentAmount))
    None None.

(** *** The budgets page *)

(** The figures of one budget card; [budgetAmount] is
    [parseFloat(budget.amount)]. *)
Record BudgetCard : Type := mkBudgetCard {
  bc_remaining : float;
  bc_percentage : float;
  bc_isOverBudget : bool
}.

Definition budget_card (budgetAmount : float) : BudgetCard :=
  let spent := 0%float in
  let remaining := PrimFloat.sub budgetAmount spent in
  let percentage :=
    if PrimFloat.ltb 0%float budgetAmount
    then PrimFloat.mul (PrimFloat.div spent budgetAmount) 100%float
    else 0%float in
  let isOverBudget := PrimFloat.ltb 100%float percentage in
  mkBudgetCard remaining percentage isOverBudget.

(** *** The reports page *)

(** The object [categoryTotals], as its properties in insertion order. *)
Definition totals : Type := list (string * float).

Fixpoint totals_get (o : totals) (k : string) : option float :=
  match o with
  | [] => None
  | (k', v) :: o' => if String.eqb k' k then Some v else totals_get o' k
  end.

Fixpoint totals_set (o : totals) (k : string) (v : float) : totals :=
  match o with
  | [] => [(k, v)]
  | (k', v') :: o' =>
      if String.eqb k' k then (k', v) :: o' else (k', v') :: totals_set o' k v
  end.

(** [v || 0] for [v] a number or [undefined]. *)
Definition or_0 (v : option float) : float :=
  match v with
  | Some x => if PrimFloat.is_nan x || PrimFloat.eqb x 0%float then 0%float else x
  | None => 0%float
  end.

(** The body of [transactions.forEach] in [getCategoryBreakdown]; the
    amount of a transaction arrives as the text of its decimal. *)
Definition add_expense (categoryTotals : totals) (transaction : Transaction.row)
    : totals :=
  match Transaction.type transaction with
  | Schema.t_expense =>
      let category := Schema.category_out (Transaction.category transaction) in
      totals_set categoryTotals category
        (PrimFloat.add (or_0 (totals_get categoryTotals category))
           (Js.Number_of_decimal (Transaction.amount transaction)))
  | Schema.t_income => categoryTotals
  end.

(** [array.sort(compare)]: the stable sort, for a comparison that is
    consistent on the elements. *)
Fixpoint insert_by {A : Type} (compare : A -> A -> float) (x : A) (l : list A)
    : list A :=
  match l with
  | [] => [x]
  | y :: l' =>
      if PrimFloat.ltb (compare y x) 0%float then y :: insert_by compare x l'
      else x :: y :: l'
  end.

Definition sort_by {A : Type} (compare : A -> A -> float) (l : list A) : list A :=
  fold_right (insert_by compare) [] l.

Definition getCategoryBreakdown (transactions : option (list Transaction.row))
    : list (string * float) :=
  match transactions with
  | None => []
  | Some transactions =>
      sort_by (fun a b => PrimFloat.sub (snd b) (snd a))
        (fold_left add_expense transactions [])
  end.

(** *** The dashboard page *)

(** [recentTransactions.slice(0, 5)] *)
Definition recent (recentTransactions : list Transaction.row)
    : list Transaction.row :=
  firstn 5 recentTransactions.

End Client.

(** ** More sample data *)

Module More.

Definition refund_data : InsertTransaction.t :=
  InsertTransaction.mk Schema.t_expense "refund" "-5.00" Schema.c_food "2024-01-10" None.

(** The row that inserting [refund_data] for alice on 25 January yields. *)
Definition refund_row : Transaction.row :=
  Transaction.mk "t9" "alice" Schema.t_expense "refund" (-500) Schema.c_food
    (Pg.mkdate 2024 1 10) (Some "INR") (Some Sample.jan_25) (Some Sample.jan_25).

(** A budget request, and the row that inserting it for alice on 25
    January yields. *)
Definition rent_budget : InsertBudget.t :=
  InsertBudget.mk Schema.c_utilities "1200.50" None None.

Definition rent_row : Budget.row :=
  Budget.mk "b9" "alice" Schema.c_utilities 120050 (Some "monthly") (Some "INR")
    (Some Sample.jan_25) (Some Sample.jan_25).

Definition touch : TransactionUpdates.t :=
  TransactionUpdates.mk None (Some "rent") None None None None.

Definition goals : list Goal.row :=
  [Goal.mk "g1" "alice" "car" None 500000 (Some 10000) None (Some "INR")
     (Some Sample.jan_25) (Some Sample.jan_25);
   Goal.mk "g2" "bob" "trip" None 200000 (Some 0) (Some (Pg.mkdate 2025 1 1))
     (Some "INR") (Some Sample.apr_15) (Some Sample.apr_15);
   Goal.mk "g3" "alice" "fund" None 100000 None None (Some "INR") None None].

Definition users : list User.row :=
  [User.mk "u1" (Some "ann@example.org") (Some "Ann") None None (Some "INR")
     (Some Sample.jan_25) (Some Sample.jan_25)].

Definition demo_data : UpsertUser.t :=
  UpsertUser.mk (Some "demo-user-123") (Some (Some "demo@financetracker.com"))
    (Some (Some "Demo")) (Some (Some "User")) (Some None) None None None.

Definition lunch_form : Client.TransactionFormData :=
  Client.mkTransactionFormData "expense" "lunch" "12.50" "food" "2024-01-10".

End More.

(** ** The route of the signed-in user *)

Module AuthRoutes.

(** [GET /api/auth/user], behind [isAuthenticated]: the handler reads the
    users table as the middleware has left it. *)
Definition auth_user (users : list User.row)
    (session : option LocalAuth.SessionUser) (gen : string) (now : Js.Date)
    : list User.row * Routes.response (option User.row) :=
  match LocalAuth.isAuthenticated users session gen now with
  | (users', LocalAuth.Unauthorized status message) =>
      (users', Routes.Message status message)
  | (users', LocalAuth.Next claims) =>
      (users', Routes.Json 200 (DatabaseStorage.getUser users' (LocalAuth.sub claims)))
  end.

End AuthRoutes.

(** * Properties *)

(** ** Text conversions *)

Example numeric_in_ex1 : Pg.numeric_in "12.5" = Some 1250. Proof. reflexivity. Qed.
Example numeric_in_ex2 : Pg.numeric_in "-5.00" = Some (-500). Proof. reflexivity. Qed.
Example numeric_in_ex3 : Pg.numeric_in "1.005" = Some 101. Proof. reflexivity. Qed.
Example numeric_in_ex4 : Pg.numeric_in "abc" = None. Proof. reflexivity. Qed.
Example Number_of_decimal_ex :
  Js.Number_of_decimal 1250 = 12.5%float
  /\ Js.Number_of_decimal (-500) = (-5)%float
  /\ Js.Number_of_decimal 30 = PrimFloat.div 30%float 100%float
  /\ Js.Number_of_decimal 0 = 0%float.
Proof. repeat split; vm_compute; reflexivity. Qed.
Example date_in_ex1 : Pg.date_in "2024-04-30" = Some (Pg.mkdate 2024 4 30). Proof. reflexivity. Qed.
Example date_in_ex2 : Pg.date_in "2024-04-31" = None. Proof. reflexivity. Qed.
Example date_in_ex3 : Pg.date_in "2024-02-29" = Some (Pg.mkdate 2024 2 29). Proof. reflexivity. Qed.
Example toISOString_ex1 :
  Js.toISOString (Js.mkDate 2024 3 15 45296789) = "2024-04-15T12:34:56.789Z".
Proof. reflexivity. Qed.
Example setMonth_ex1 :
  Js.setMonth Js.zoneUTC (Js.mkDate 2024 2 31 0) 1 = Js.mkDate 2024 2 2 0.
Proof. reflexivity. Qed.
Example setMonth_ex2 :
  Js.setMonth Js.zoneUTC (Js.mkDate 2024 0 15 0) (-1) = Js.mkDate 2023 11 15 0.
Proof. reflexivity. Qed.

Lemma digit_in_digit (n : Z) : Pg.digit_in (Js.digit n) = Some (n mod 10).
Proof.
  unfold Js.digit.
  assert (H : 0 <= n mod 10 < 10) by (apply Z.mod_pos_bound; lia).
  remember (n mod 10) as k eqn:E. clear E.
  assert (C : k = 0 \/ k = 1 \/ k = 2 \/ k = 3 \/ k = 4 \/ k = 5 \/ k = 6
              \/ k = 7 \/ k = 8 \/ k = 9) by lia.
  repeat (destruct C as [-> | C]; [reflexivity |]). subst k. reflexivity.
Qed.

Lemma digits2 (n : Z) :
  0 <= n <= 99 -> 10 * (10 * 0 + (n / 10) mod 10) + n mod 10 = n.
Proof. intros H. Z.to_euclidean_division_equations. lia. Qed.

Lemma digits4 (n : Z) :
  0 <= n <= 9999 ->
  10 * (10 * (10 * (10 * 0 + (n / 1000) mod 10) + (n / 100) mod 10)
        + (n / 10) mod 10) + n mod 10 = n.
Proof. intros H. Z.to_euclidean_division_equations. lia. Qed.

Lemma digits_in_pad2 (n : Z) :
  0 <= n <= 99 -> Pg.digits_in 0 [Js.digit (n / 10); Js.digit n] = Some n.
Proof.
  intros H. unfold Pg.digits_in. rewrite !digit_in_digit. unfold Pg.obind.
  now rewrite digits2.
Qed.

Lemma digits_in_pad4 (n : Z) :
  0 <= n <= 9999 ->
  Pg.digits_in 0 [Js.digit (n / 1000); Js.digit (n / 100); Js.digit (n / 10);
                  Js.digit n] = Some n.
Proof.
  intros H. unfold Pg.digits_in. rewrite !digit_in_digit. unfold Pg.obind.
  now rewrite digits4.
Qed.

(** The ISO text of year, month and day is read back as that date exactly
    when it names a calendar day. *)
Lemma date_in_iso (y m d : Z) :
  0 <= y <= 9999 -> 0 <= m <= 99 -> 0 <= d <= 99 ->
  Pg.date_in (Js.pad4 y ++ "-" ++ Js.pad2 m ++ "-" ++ Js.pad2 d)
  = if Pg.valid_date (Pg.mkdate y m d) then Some (Pg.mkdate y m d) else None.
Proof.
  intros Hy Hm Hd. unfold Pg.date_in.
  change (list_ascii_of_string (Js.pad4 y ++ "-" ++ Js.pad2 m ++ "-" ++ Js.pad2 d))
    with [Js.digit (y / 1000); Js.digit (y / 100); Js.digit (y / 10); Js.digit y;
          "-"%char; Js.digit (m / 10); Js.digit m; "-"%char;
          Js.digit (d / 10); Js.digit d].
  cbv beta iota.
  change (Ascii.eqb "-" "-") with true. cbv beta iota. simpl andb. cbv iota.
  rewrite (digits_in_pad4 y Hy), (digits_in_pad2 m Hm), (digits_in_pad2 d Hd).
  reflexivity.
Qed.

Lemma valid_date_bounds (d : Pg.date) :
  Pg.valid_date d = true ->
  1 <= Pg.year d <= 9999 /\ 1 <= Pg.month d <= 12
  /\ 1 <= Pg.day d <= Js.daysInMonth (Pg.year d) (Pg.month d).
Proof. unfold Pg.valid_date. intros H. lia. Qed.

Lemma daysInMonth_bounds (y m : Z) : 28 <= Js.daysInMonth y m <= 31.
Proof.
  unfold Js.daysInMonth.
  destruct (m =? 2); [destruct (Js.isLeapYear y); lia |].
  destruct ((m =? 4) || (m =? 6) || (m =? 9) || (m =? 11)); lia.
Qed.

Lemma date_in_out (d : Pg.date) :
  Pg.valid_date d = true -> Pg.date_in (Pg.date_out d) = Some d.
Proof.
  intros V. pose proof (valid_date_bounds d V) as (Hy & Hm & Hd).
  pose proof (daysInMonth_bounds (Pg.year d) (Pg.month d)).
  unfold Pg.date_out. rewrite date_in_iso by lia.
  destruct d as [y m dd]. simpl in *. now rewrite V.
Qed.

Lemma category_in_out (c : Schema.category) :
  Schema.category_in (Schema.category_out c) = Some c.
Proof. destruct c; reflexivity. Qed.

Lemma transaction_type_in_out (t : Schema.transaction_type) :
  Schema.transaction_type_in (Schema.transaction_type_out t) = Some t.
Proof. destruct t; reflexivity. Qed.

Lemma category_eqb_eq (a b : Schema.category) :
  Schema.category_eqb a b = true <-> a = b.
Proof.
  split; [| intros ->; apply String.eqb_refl].
  destruct a, b; simpl; intros H; try reflexivity; discriminate H.
Qed.

Lemma transaction_type_eqb_eq (a b : Schema.transaction_type) :
  Schema.transaction_type_eqb a b = true <-> a = b.
Proof.
  split; [| intros ->; apply String.eqb_refl].
  destruct a, b; simpl; intros H; try reflexivity; discriminate H.
Qed.

(** ** Sorting and grouping *)

Section OrderBy.
Context {R K : Type} (leb : K -> K -> bool) (key : R -> K).

Lemma insert_desc_perm (x : R) (l : list R) :
  Permutation (Sql.insert_desc leb key x l) (x :: l).
Proof.
  induction l as [| y l IH]; simpl; [reflexivity |].
  destruct (leb (key y) (key x)); [reflexivity |].
  rewrite IH. apply perm_swap.
Qed.

Lemma orderBy_desc_perm (l : list R) : Permutation (Sql.orderBy_desc leb key l) l.
Proof.
  induction l as [| x l IH]; simpl; [reflexivity |].
  rewrite insert_desc_perm. now constructor.
Qed.

Lemma insert_asc_perm (x : R) (l : list R) :
  Permutation (Sql.insert_asc leb key x l) (x :: l).
Proof.
  induction l as [| y l IH]; simpl; [reflexivity |].
  destruct (leb (key x) (key y)); [reflexivity |].
  rewrite IH. apply perm_swap.
Qed.

Lemma orderBy_asc_perm (l : list R) : Permutation (Sql.orderBy_asc leb key l) l.
Proof.
  induction l as [| x l IH]; simpl; [reflexivity |].
  rewrite insert_asc_perm. now constructor.
Qed.

Lemma orderBy_desc_nil_inv (l : list R) : Sql.orderBy_desc leb key l = [] -> l = [].
Proof.
  intros H. apply Permutation_nil. pose proof (orderBy_desc_perm l) as P. rewrite H in P. exact P.
Qed.
End OrderBy.

Lemma and_app {R : Type} (a b : list (R -> bool)) (r : R) :
  Sql.and_ (a ++ b) r = Sql.and_ a r && Sql.and_ b r.
Proof. unfold Sql.and_. apply forallb_app. Qed.

(** ** [getTransactions] *)

Lemma push_if_falsy {A : Type} (field : option string) (conv : string -> option A)
    ty cond conditions :
  Js.truthy field = false ->
  Storage.push_if field conv ty cond conditions = Ok conditions.
Proof. unfold Storage.push_if. now intros ->. Qed.

Lemma push_if_typed {A : Type} (o : option A) (out : A -> string)
    (conv : string -> option A) ty cond conditions :
  (forall a, o = Some a -> conv (out a) = Some a /\ out a <> "") ->
  Storage.push_if (option_map out o) conv ty cond conditions
  = Ok (conditions ++ match o with Some a => [cond a] | None => [] end).
Proof.
  intros H. destruct o as [a |]; simpl.
  - destruct (H a eq_refl) as [Hc Hne]. unfold Storage.push_if, Js.truthy.
    apply String.eqb_neq in Hne. rewrite Hne. simpl.
    unfold Sql.param. now rewrite Hc.
  - unfold Storage.push_if. simpl. now rewrite app_nil_r.
Qed.

Lemma date_out_nonempty (d : Pg.date) : Pg.date_out d <> "".
Proof. discriminate. Qed.

Lemma category_out_nonempty (c : Schema.category) : Schema.category_out c <> "".
Proof. destruct c; discriminate. Qed.

Lemma transaction_type_out_nonempty (t : Schema.transaction_type) :
  Schema.transaction_type_out t <> "".
Proof. destruct t; discriminate. Qed.

Lemma and_holds {A : Type} (o : option A) (cond : A -> Transaction.row -> bool) r :
  Sql.and_ match o with Some a => [cond a] | None => [] end r
  = Spec.holds o (fun a => cond a r).
Proof. destruct o; simpl; [apply andb_true_r | reflexivity]. Qed.

(** With a typed filter the query succeeds and selects the rows that
    satisfy it, by date descending. *)
Lemma getTransactions_typed (tbl : Storage.table) (owner : string) (f : Spec.filter) :
  Spec.well_formed f = true ->
  Storage.getTransactions tbl owner (Some (Spec.to_filters f))
  = Ok (Sql.orderBy_desc Pg.date_leb Transaction.date
          (filter (Spec.satisfies owner f) tbl)).
Proof.
  intros W. unfold Spec.well_formed in W. apply andb_true_iff in W as [Ws We].
  unfold Storage.getTransactions, Spec.to_filters, Storage.opt. simpl.
  rewrite (push_if_typed (Spec.startDate f) Pg.date_out).
  2:{ intros a E. rewrite E in Ws. split; [now apply date_in_out | apply date_out_nonempty]. }
  simpl bind.
  rewrite (push_if_typed (Spec.endDate f) Pg.date_out).
  2:{ intros a E. rewrite E in We. split; [now apply date_in_out | apply date_out_nonempty]. }
  simpl bind.
  rewrite (push_if_typed (Spec.category f) Schema.category_out).
  2:{ intros a _. split; [apply category_in_out | apply category_out_nonempty]. }
  simpl bind.
  rewrite (push_if_typed (Spec.kind f) Schema.transaction_type_out).
  2:{ intros a _. split; [apply transaction_type_in_out | apply transaction_type_out_nonempty]. }
  simpl bind. do 2 f_equal. apply filter_ext. intros r.
  change (Sql.and_ (?c :: ?l) r) with (c r && Sql.and_ l r).
  rewrite !and_app. unfold Spec.satisfies.
  destruct (Spec.startDate f), (Spec.endDate f), (Spec.category f), (Spec.kind f);
    unfold Sql.and_; simpl; rewrite ?andb_true_r, ?andb_assoc; reflexivity.
Qed.

Lemma getTransactions_no_filter (tbl : Storage.table) (owner : string) :
  Storage.getTransactions tbl owner None
  = Ok (Sql.orderBy_desc Pg.date_leb Transaction.date
          (filter (Spec.owned_by owner) tbl)).
Proof.
  unfold Storage.getTransactions. simpl. do 2 f_equal. apply filter_ext.
  intros r. unfold Sql.and_, Spec.owned_by. simpl. apply andb_true_r.
Qed.

(** C4: for every owner, every table and every filter whose four fields are
    independently present or absent, [getTransactions] succeeds and returns
    exactly the rows of the owner that satisfy every supplied field (start
    and end date inclusive, category and kind by equality), each as often
    as it is stored; in particular the empty list, and no error, when no
    row matches.  Without a filter object it returns the rows of the
    owner. *)
Theorem C4_getTransactions_filter (tbl : Storage.table) (owner : string)
    (f : Spec.filter) :
  Spec.well_formed f = true ->
  (exists l,
     Storage.getTransactions tbl owner (Some (Spec.to_filters f)) = Ok l
     /\ Permutation l (filter (Spec.satisfies owner f) tbl)
     /\ (forall r, In r l <-> In r tbl /\ Spec.satisfies owner f r = true)
     /\ ((forall r, In r tbl -> Spec.satisfies owner f r = false) -> l = []))
  /\ (exists l,
        Storage.getTransactions tbl owner None = Ok l
        /\ Permutation l (filter (Spec.owned_by owner) tbl)).
Proof.
  intros W. split.
  - eexists. split; [apply (getTransactions_typed _ _ _ W) |].
    pose proof (orderBy_desc_perm Pg.date_leb Transaction.date
                  (filter (Spec.satisfies owner f) tbl)) as P.
    split; [exact P |]. split.
    + intros r. rewrite <- filter_In. split; apply Permutation_in; [| symmetry]; exact P.
    + intros N.
      assert (E : filter (Spec.satisfies owner f) tbl = []).
      { destruct (filter (Spec.satisfies owner f) tbl) as [| r l'] eqn:E; [reflexivity |].
        assert (I : In r (filter (Spec.satisfies owner f) tbl)) by (rewrite E; now left).
        apply filter_In in I as [I S]. rewrite (N r I) in S. discriminate. }
      now rewrite E.
  - eexists. split; [apply getTransactions_no_filter | apply orderBy_desc_perm].
Qed.

Lemma C4_getTransactions_filter_witness :
  Spec.well_formed Sample.january = true
  /\ exists l,
       Storage.getTransactions Sample.shared "alice"
         (Some (Spec.to_filters Sample.january)) = Ok l
       /\ Permutation l (filter (Spec.satisfies "alice" Sample.january) Sample.shared).
Proof.
  split; [reflexivity |].
  destruct (C4_getTransactions_filter Sample.shared "alice" Sample.january eq_refl)
    as [[l [E [P _]]] _].
  exists l. split; assumption.
Defined.

Example getTransactions_january :
  Storage.getTransactions Sample.shared "alice" (Some (Spec.to_filters Sample.january))
  = Ok [Sample.tx "t2" "alice" Schema.t_expense 30000 Schema.c_other 2024 1 20].
Proof. reflexivity. Qed.

(** C10: a filter field given as the empty string is treated like an absent
    field: for each of [startDate], [endDate], [category] and [type] the
    query with [""] is the query without the field, and with all four empty
    [getTransactions] (and the [GET /api/transactions] handler) returns the
    rows of the owner, not an empty list or an error. *)
Theorem C10_empty_string_is_absent (tbl : Storage.table) (owner : string)
    (startDate endDate category type : option string) :
  Storage.getTransactions tbl owner (Some (Filters.mk (Some "") endDate category type))
  = Storage.getTransactions tbl owner (Some (Filters.mk None endDate category type))
  /\ Storage.getTransactions tbl owner (Some (Filters.mk startDate (Some "") category type))
     = Storage.getTransactions tbl owner (Some (Filters.mk startDate None category type))
  /\ Storage.getTransactions tbl owner (Some (Filters.mk startDate endDate (Some "") type))
     = Storage.getTransactions tbl owner (Some (Filters.mk startDate endDate None type))
  /\ Storage.getTransactions tbl owner (Some (Filters.mk startDate endDate category (Some "")))
     = Storage.getTransactions tbl owner (Some (Filters.mk startDate endDate category None))
  /\ Storage.getTransactions tbl owner
       (Some (Filters.mk (Some "") (Some "") (Some "") (Some "")))
     = Ok (Sql.orderBy_desc Pg.date_leb Transaction.date
             (filter (Spec.owned_by owner) tbl))
  /\ Routes.get_transactions tbl owner (Filters.mk (Some "") (Some "") (Some "") (Some ""))
     = Routes.Json 200 (Sql.orderBy_desc Pg.date_leb Transaction.date
                          (filter (Spec.owned_by owner) tbl)).
Proof.
  assert (All : Storage.getTransactions tbl owner
                  (Some (Filters.mk (Some "") (Some "") (Some "") (Some "")))
                = Ok (Sql.orderBy_desc Pg.date_leb Transaction.date
                        (filter (Spec.owned_by owner) tbl))).
  { rewrite <- getTransactions_no_filter. reflexivity. }
  repeat split; try reflexivity.
  - exact All.
  - unfold Routes.get_transactions. simpl Filters.startDate. simpl Filters.endDate.
    simpl Filters.category. simpl Filters.type. now rewrite All.
Qed.

(** ** Writes to a single row *)

Lemma transaction_is_spec (id userId : string) (r : Transaction.row) :
  Storage.transaction_is id userId r = true
  <-> Transaction.id r = id /\ Transaction.userId r = userId.
Proof.
  unfold Storage.transaction_is, Sql.and_. simpl.
  rewrite andb_true_r, andb_true_iff, !String.eqb_eq. tauto.
Qed.


Section Frames.
Context {R : Type} (p : R -> bool).

(** Rows that a write does not select come through a [where]-guarded
    update unchanged. *)
Lemma filter_map_frame (g : R -> R) (l : list R) :
  (forall r, p (g r) = p r) -> (forall r, p r = true -> g r = r) ->
  filter p (map g l) = filter p l.
Proof.
  intros Hp Hg. induction l as [| r l IH]; simpl; [reflexivity |].
  rewrite Hp. destruct (p r) eqn:E; [rewrite (Hg r E) |]; now rewrite IH.
Qed.

Lemma filter_filter_frame (q : R -> bool) (l : list R) :
  (forall r, p r = true -> q r = true) -> filter p (filter q l) = filter p l.
Proof.
  intros H. induction l as [| r l IH]; simpl; [reflexivity |].
  destruct (q r) eqn:Q; simpl; destruct (p r) eqn:P; rewrite ?IH; try reflexivity.
  rewrite (H r P) in Q. discriminate.
Qed.

Lemma filter_none (l : list R) :
  (forall r, In r l -> p r = false) -> filter p l = [].
Proof.
  intros H. induction l as [| r l IH]; simpl; [reflexivity |].
  rewrite (H r (or_introl eq_refl)). apply IH. intros r' I. apply H. now right.
Qed.

Lemma filter_all (l : list R) :
  (forall r, In r l -> p r = true) -> filter p l = l.
Proof.
  intros H. induction l as [| r l IH]; simpl; [reflexivity |].
  rewrite (H r (or_introl eq_refl)). f_equal. apply IH. intros r' I. apply H. now right.
Qed.

Lemma map_unselected (g : R -> R) (l : list R) :
  (forall r, In r l -> p r = false) -> map (fun r => if p r then g r else r) l = l.
Proof.
  intros H. induction l as [| r l IH]; simpl; [reflexivity |].
  rewrite (H r (or_introl eq_refl)). f_equal. apply IH. intros r' I. apply H. now right.
Qed.
End Frames.

Lemma getTransactions_owned (tbl : Storage.table) (owner : string)
    (filters : option Filters.t) (l : list Transaction.row) :
  Storage.getTransactions tbl owner filters = Ok l ->
  forall r, In r l -> In r tbl /\ Transaction.userId r = owner.
Proof.
  unfold Storage.getTransactions.
  set (c0 := [fun r : Transaction.row => (Transaction.userId r =? owner)%string]).
  assert (G : forall (A : Type) field (conv : string -> option A) ty cond cs cs',
             Storage.push_if field conv ty cond cs = Ok cs' ->
             forall r, Sql.and_ cs' r = true -> Sql.and_ cs r = true).
  { intros A field conv ty cond cs cs' E r. unfold Storage.push_if in E.
    destruct (Js.truthy field); [| injection E as <-; trivial].
    destruct field as [s |]; [| injection E as <-; trivial].
    unfold Sql.param in E. destruct (conv s); [| discriminate].
    simpl in E. injection E as <-. rewrite and_app, andb_true_iff. tauto. }
  destruct (Storage.push_if _ _ _ _ c0) as [c1 |] eqn:E1; [| discriminate]. simpl bind.
  destruct (Storage.push_if _ _ _ _ c1) as [c2 |] eqn:E2; [| discriminate]. simpl bind.
  destruct (Storage.push_if _ _ _ _ c2) as [c3 |] eqn:E3; [| discriminate]. simpl bind.
  destruct (Storage.push_if _ _ _ _ c3) as [c4 |] eqn:E4; [| discriminate]. simpl bind.
  intros E r I. injection E as <-.
  apply (Permutation_in _ (orderBy_desc_perm _ _ _)) in I.
  apply filter_In in I as [I S]. split; [exact I |].
  apply (G _ _ _ _ _ _ _ E4), (G _ _ _ _ _ _ _ E3), (G _ _ _ _ _ _ _ E2),
        (G _ _ _ _ _ _ _ E1) in S.
  unfold c0, Sql.and_ in S. simpl in S. rewrite andb_true_r in S.
  now apply String.eqb_eq.
Qed.

Lemma set_transaction_userId updates amount date now r :
  Transaction.userId (Storage.set_transaction updates amount date now r)
  = Transaction.userId r.
Proof. reflexivity. Qed.

Lemma set_transaction_id updates amount date now r :
  Transaction.id (Storage.set_transaction updates amount date now r)
  = Transaction.id r.
Proof. reflexivity. Qed.

Lemma hd_error_filter_map {R : Type} (p : R -> bool) (g : R -> R) (l : list R) r :
  hd_error (map g (filter p l)) = Some r -> exists r0, In r0 l /\ p r0 = true /\ r = g r0.
Proof.
  destruct (filter p l) as [| r0 l'] eqn:E; simpl; [discriminate |].
  intros H. injection H as <-. exists r0.
  assert (I : In r0 (filter p l)) by (rewrite E; now left).
  apply filter_In in I as [I P]. auto.
Qed.

(** What [updateTransaction] does once the text fields are converted. *)
Lemma updateTransaction_inv tbl id userId updates now tbl' ret :
  Storage.updateTransaction tbl id userId updates now = Ok (tbl', ret) ->
  exists amount date,
    let set := Storage.set_transaction updates amount date now in
    tbl' = map (fun r => if Storage.transaction_is id userId r then set r else r) tbl
    /\ ret = hd_error (map set (filter (Storage.transaction_is id userId) tbl)).
Proof.
  unfold Storage.updateTransaction.
  destruct (Sql.param_opt Pg.numeric_in _ _) as [amount |]; [| discriminate].
  destruct (Sql.param_opt Pg.date_in _ _) as [date |]; [| discriminate].
  simpl. intros E. injection E as <- <-. now exists amount, date.
Qed.

(** When no row has this id under this owner, [updateTransaction] changes
    nothing and returns [undefined], unless a text field of the patch is
    refused; the outcome does not depend on the table. *)
Lemma updateTransaction_not_found tbl id userId updates now :
  (forall r, In r tbl -> Storage.transaction_is id userId r = false) ->
  Storage.updateTransaction tbl id userId updates now
  = (await _ <- Storage.updateTransaction [] id userId updates now; Ok (tbl, None)).
Proof.
  intros N. unfold Storage.updateTransaction.
  destruct (Sql.param_opt Pg.numeric_in _ _) as [amount |]; [| reflexivity].
  destruct (Sql.param_opt Pg.date_in _ _) as [date |]; [| reflexivity].
  simpl. rewrite (filter_none _ _ N), (map_unselected _ _ _ N). reflexivity.
Qed.

Lemma put_transactions_not_found tbl userId id body now :
  (forall r, In r tbl -> Storage.transaction_is id userId r = false) ->
  Routes.put_transactions tbl userId id body now
  = (tbl, snd (Routes.put_transactions [] userId id body now)).
Proof.
  intros N. unfold Routes.put_transactions.
  destruct (Zod.insertTransactionSchema_partial_parse body) as [updates |]; [| reflexivity].
  rewrite (updateTransaction_not_found _ _ _ _ _ N).
  destruct (Storage.updateTransaction [] id userId updates now) as [[t o] |] eqn:E;
    simpl; [| reflexivity].
  apply updateTransaction_inv in E as (a & d & _ & ->). reflexivity.
Qed.

Lemma deleteTransaction_not_found tbl id userId :
  (forall r, In r tbl -> Storage.transaction_is id userId r = false) ->
  Storage.deleteTransaction tbl id userId = Ok (tbl, false).
Proof.
  intros N. unfold Storage.deleteTransaction. rewrite (filter_none _ _ N).
  rewrite filter_all; [reflexivity |]. intros r I. now rewrite (N r I).
Qed.

Lemma foreign_not_selected (owner other id : string) (r : Transaction.row) :
  owner <> other -> Spec.owned_by other r = true ->
  Storage.transaction_is id owner r = false.
Proof.
  intros D O. apply String.eqb_eq in O.
  destruct (Storage.transaction_is id owner r) eqn:E; [| reflexivity].
  apply transaction_is_spec in E as [_ E]. congruence.
Qed.

Lemma createTransaction_inv users tbl transaction userId id now tbl' created :
  Storage.createTransaction users tbl transaction userId id now = Ok (tbl', created) ->
  tbl' = tbl ++ [created]
  /\ Transaction.id created = id
  /\ Transaction.userId created = userId
  /\ Transaction.createdAt created = Some now
  /\ Transaction.updatedAt created = Some now
  /\ (forall r, In r tbl -> Transaction.id r <> id)
  /\ Storage.user_exists users userId = true.
Proof.
  unfold Storage.createTransaction.
  destruct (Sql.param Pg.numeric_in _ _) as [amount |]; [| discriminate].
  destruct (Sql.param Pg.date_in _ _) as [date |]; [| discriminate].
  simpl bind. destruct (existsb _ tbl) eqn:X; [discriminate |].
  destruct (Storage.user_exists users userId) eqn:FK; [| discriminate].
  cbn [negb].
  intros E. injection E as <- <-. repeat split.
  intros r I Hid.
  assert (existsb (fun r => (Transaction.id r =? id)%string) tbl = true) as C.
  { apply existsb_exists. exists r. split; [exact I | now apply String.eqb_eq]. }
  congruence.
Qed.

(** C5: a call made with one owner's id neither returns nor changes a row of
    another owner, whatever row id it names: [getTransactions] returns rows
    of the caller only; [createTransaction], [updateTransaction] and
    [deleteTransaction] leave the rows of every other owner as they were,
    and what they return belongs to the caller.  An update (storage call
    and [PUT] handler alike) aimed at an id that exists under another
    owner behaves exactly as on a table where no row has that id: nothing
    changes and the answer is the one given for a missing row (404 when the
    patch itself is acceptable). *)
Theorem C5_owner_isolation (tbl : Storage.table) (owner other id : string) :
  owner <> other ->
  (forall filters l,
      Storage.getTransactions tbl owner filters = Ok l ->
      forall r, In r l -> Transaction.userId r = owner)
  /\ (forall users transaction now tbl' created,
         Storage.createTransaction users tbl transaction owner id now
         = Ok (tbl', created) ->
         filter (Spec.owned_by other) tbl' = filter (Spec.owned_by other) tbl
         /\ Transaction.userId created = owner)
  /\ (forall updates now tbl' ret,
         Storage.updateTransaction tbl id owner updates now = Ok (tbl', ret) ->
         filter (Spec.owned_by other) tbl' = filter (Spec.owned_by other) tbl
         /\ (forall r, ret = Some r ->
                       Transaction.userId r = owner /\ Transaction.id r = id))
  /\ (forall tbl' removed,
         Storage.deleteTransaction tbl id owner = Ok (tbl', removed) ->
         filter (Spec.owned_by other) tbl' = filter (Spec.owned_by other) tbl)
  /\ ((forall r, In r tbl -> Transaction.id r = id -> Transaction.userId r <> owner) ->
      let absent := filter (fun r => negb (Transaction.id r =? id)%string) tbl in
      (forall updates now,
          Storage.updateTransaction tbl id owner updates now
          = (await _ <- Storage.updateTransaction absent id owner updates now;
             Ok (tbl, None)))
      /\ (forall body now,
             Routes.put_transactions tbl owner id body now
             = (tbl, snd (Routes.put_transactions absent owner id body now)))
      /\ (forall body updates now,
             Zod.insertTransactionSchema_partial_parse body = Some updates ->
             isOk (Storage.updateTransaction tbl id owner updates now) = true ->
             Routes.put_transactions tbl owner id body now
             = (tbl, Routes.Message 404 "Transaction not found"))).
Proof.
  intros D. split; [| split; [| split; [| split]]].
  - intros filters l E r I. now apply (getTransactions_owned _ _ _ _ E).
  - intros users transaction now tbl' created E.
    apply createTransaction_inv in E as (-> & _ & U & _). split; [| exact U].
    rewrite filter_app. simpl.
    replace (Spec.owned_by other created) with false; [apply app_nil_r |].
    symmetry. unfold Spec.owned_by. apply String.eqb_neq. congruence.
  - intros updates now tbl' ret E.
    apply updateTransaction_inv in E as (amount & date & -> & ->). split.
    + apply filter_map_frame.
      * intros r. now destruct (Storage.transaction_is id owner r).
      * intros r O. now rewrite (foreign_not_selected owner other id r D O).
    + intros r H. apply hd_error_filter_map in H as (r0 & _ & S & ->).
      apply transaction_is_spec in S as [Hid Hu]. now split.
  - intros tbl' removed E. unfold Storage.deleteTransaction in E.
    injection E as <- _. apply filter_filter_frame.
    intros r O. now rewrite (foreign_not_selected owner other id r D O).
  - intros F absent.
    assert (N : forall r, In r tbl -> Storage.transaction_is id owner r = false).
    { intros r I. destruct (Storage.transaction_is id owner r) eqn:S; [| reflexivity].
      apply transaction_is_spec in S as [Hid Hu]. now destruct (F r I Hid). }
    assert (N' : forall r, In r absent -> Storage.transaction_is id owner r = false).
    { intros r I. apply filter_In in I as [I _]. now apply N. }
    split; [| split].
    + intros updates now.
      rewrite (updateTransaction_not_found _ _ _ _ _ N),
              (updateTransaction_not_found _ _ _ _ _ N').
      now destruct (Storage.updateTransaction [] id owner updates now).
    + intros body now.
      rewrite (put_transactions_not_found _ _ _ _ _ N),
              (put_transactions_not_found absent _ _ _ _ N').
      reflexivity.
    + intros body updates now P K. unfold Routes.put_transactions. rewrite P.
      rewrite (updateTransaction_not_found _ _ _ _ _ N) in K |- *.
      now destruct (Storage.updateTransaction [] id owner updates now).
Qed.

Lemma C5_owner_isolation_witness :
  "alice" <> "bob"
  /\ forall updates now tbl' ret,
       Storage.updateTransaction Sample.shared "t4" "alice" updates now = Ok (tbl', ret) ->
       filter (Spec.owned_by "bob") tbl' = filter (Spec.owned_by "bob") Sample.shared
       /\ (forall r, ret = Some r ->
                     Transaction.userId r = "alice" /\ Transaction.id r = "t4").
Proof.
  split; [discriminate |].
  apply (C5_owner_isolation Sample.shared "alice" "bob" "t4"). discriminate.
Defined.

Example put_foreign_row :
  Routes.put_transactions Sample.shared "alice" "t4"
    (Zod.mkbody None None (Some (Zod.JString "1.00")) None None None) Sample.jan_25
  = (Sample.shared, Routes.Message 404 "Transaction not found").
Proof. reflexivity. Qed.

Example put_missing_row :
  Routes.put_transactions Sample.shared "alice" "t9"
    (Zod.mkbody None None (Some (Zod.JString "1.00")) None None None) Sample.jan_25
  = (Sample.shared, Routes.Message 404 "Transaction not found").
Proof. reflexivity. Qed.



Example delete_own_row :
  Storage.deleteTransaction Sample.ledger "t2" "alice"
  = Ok ([Sample.tx "t1" "alice" Schema.t_income 100000 Schema.c_salary 2024 1 15;
         Sample.tx "t3" "alice" Schema.t_expense 15000 Schema.c_food 2024 2 5], true).
Proof. reflexivity. Qed.

Example delete_foreign_row :
  Storage.deleteTransaction Sample.shared "t4" "alice" = Ok (Sample.shared, false).
Proof. reflexivity. Qed.

(** ** Budgets *)

Lemma set_budget_period_only period now (b : Budget.row) :
  Storage.set_budget (Patch.period_only period) None now b = Patch.with_period period now b.
Proof. reflexivity. Qed.





(** ** The dashboard summary *)

Lemma currentMonth_iso (now : Js.Date) :
  0 <= Js.fullYear now <= 9999 ->
  Js.slice0 7 (Js.toISOString now)
  = (Js.pad4 (Js.fullYear now) ++ "-" ++ Js.pad2 (Js.monthIndex now + 1))%string.
Proof.
  intros H. unfold Js.toISOString, Js.isoYear.
  replace ((0 <=? Js.fullYear now) && (Js.fullYear now <=? 9999)) with true by lia.
  reflexivity.
Qed.

Lemma startOfMonth_in (now : Js.Date) :
  Aggregate.clock_ok now ->
  Pg.date_in (Js.slice0 7 (Js.toISOString now) ++ "-01")
  = Some (Pg.mkdate (Js.fullYear now) (Js.monthIndex now + 1) 1).
Proof.
  intros (Hy & Hm & Hd). rewrite currentMonth_iso by lia.
  pose proof (date_in_iso (Js.fullYear now) (Js.monthIndex now + 1) 1) as E.
  pose proof (daysInMonth_bounds (Js.fullYear now) (Js.monthIndex now + 1)) as B.
  etransitivity; [| etransitivity; [apply E; lia |]].
  - f_equal.
  - unfold Pg.valid_date. simpl Pg.year. simpl Pg.month. simpl Pg.day.
    replace (_ && _) with true; [reflexivity | lia].
Qed.

Lemma endOfMonth_in (now : Js.Date) :
  Aggregate.clock_ok now ->
  Pg.date_in (Js.slice0 7 (Js.toISOString now) ++ "-31")
  = if Js.daysInMonth (Js.fullYear now) (Js.monthIndex now + 1) =? 31
    then Some (Pg.mkdate (Js.fullYear now) (Js.monthIndex now + 1) 31)
    else None.
Proof.
  intros (Hy & Hm & Hd). rewrite currentMonth_iso by lia.
  pose proof (date_in_iso (Js.fullYear now) (Js.monthIndex now + 1) 31) as E.
  pose proof (daysInMonth_bounds (Js.fullYear now) (Js.monthIndex now + 1)) as B.
  etransitivity; [| etransitivity; [apply E; lia |]].
  - f_equal.
  - unfold Pg.valid_date. simpl Pg.year. simpl Pg.month. simpl Pg.day.
    destruct (Js.daysInMonth (Js.fullYear now) (Js.monthIndex now + 1) =? 31) eqn:D.
    + replace (_ && _) with true; [reflexivity | lia].
    + replace (_ && _) with false; [reflexivity | lia].
Qed.

Lemma month_window (y m : Z) (d : Pg.date) :
  Pg.valid_date d = true ->
  Pg.date_leb (Pg.mkdate y m 1) d && Pg.date_leb d (Pg.mkdate y m 31)
  = Aggregate.in_month y m d.
Proof.
  intros V. apply valid_date_bounds in V as (_ & _ & Hd).
  pose proof (daysInMonth_bounds (Pg.year d) (Pg.month d)).
  unfold Pg.date_leb, Aggregate.in_month. simpl. lia.
Qed.

Lemma monthly_total_long_month tbl owner ty (now : Js.Date) :
  Aggregate.clock_ok now ->
  Js.daysInMonth (Js.fullYear now) (Js.monthIndex now + 1) = 31 ->
  Aggregate.dates_valid tbl ->
  Storage.monthly_total tbl owner ty
    (Js.slice0 7 (Js.toISOString now) ++ "-01")
    (Js.slice0 7 (Js.toISOString now) ++ "-31")
  = Ok (Pg.sum (map Transaction.amount
          (filter (Aggregate.of_month owner ty (Js.fullYear now) (Js.monthIndex now + 1))
             tbl))).
Proof.
  intros C D V. unfold Storage.monthly_total, Sql.param.
  rewrite (startOfMonth_in now C), (endOfMonth_in now C), D. simpl.
  do 3 f_equal. apply filter_ext_in. intros r I.
  unfold Sql.and_, Aggregate.of_month. simpl.
  rewrite andb_true_r, <- (month_window _ _ _ (V r I)), !andb_assoc. reflexivity.
Qed.

Lemma monthly_total_short_month tbl owner ty (now : Js.Date) :
  Aggregate.clock_ok now ->
  Js.daysInMonth (Js.fullYear now) (Js.monthIndex now + 1) <> 31 ->
  exists msg,
    Storage.monthly_total tbl owner ty
      (Js.slice0 7 (Js.toISOString now) ++ "-01")
      (Js.slice0 7 (Js.toISOString now) ++ "-31")
    = StoreError msg.
Proof.
  intros C D. unfold Storage.monthly_total, Sql.param.
  rewrite (startOfMonth_in now C), (endOfMonth_in now C).
  apply Z.eqb_neq in D. rewrite D. simpl. eexists. reflexivity.
Qed.

Lemma Number_or_0_sum (l : list Z) :
  Js.Number_or_0 (Pg.sum l) = Js.Number_of_decimal (fold_right Z.add 0 l).
Proof. destruct l; reflexivity. Qed.

(** In a month of 31 days the summary is produced, and its two totals are
    the decimal sums over the rows of the owner dated in the current
    month, by kind. *)
Lemma getDashboardData_long_month tbl owner (now : Js.Date) :
  Aggregate.clock_ok now ->
  Js.daysInMonth (Js.fullYear now) (Js.monthIndex now + 1) = 31 ->
  Aggregate.dates_valid tbl ->
  exists s,
    Storage.getDashboardData tbl owner now = Ok s
    /\ Storage.monthlyIncome s
       = Js.Number_of_decimal
           (Aggregate.total
              (Aggregate.of_month owner Schema.t_income
                 (Js.fullYear now) (Js.monthIndex now + 1)) tbl)
    /\ Storage.monthlyExpenses s
       = Js.Number_of_decimal
           (Aggregate.total
              (Aggregate.of_month owner Schema.t_expense
                 (Js.fullYear now) (Js.monthIndex now + 1)) tbl).
Proof.
  intros C D V. unfold Storage.getDashboardData.
  rewrite !(monthly_total_long_month _ _ _ _ C D V). simpl bind.
  eexists. split; [reflexivity |]. simpl. rewrite !Number_or_0_sum. split; reflexivity.
Qed.

(** In a month of fewer than 31 days the upper bound of the window names
    no calendar day, the store refuses it, and no summary is produced. *)
Lemma getDashboardData_short_month tbl owner (now : Js.Date) :
  Aggregate.clock_ok now ->
  Js.daysInMonth (Js.fullYear now) (Js.monthIndex now + 1) <> 31 ->
  exists msg, Storage.getDashboardData tbl owner now = StoreError msg.
Proof.
  intros C D. unfold Storage.getDashboardData.
  destruct (monthly_total_short_month tbl owner Schema.t_income now C D) as [msg E].
  rewrite E. now exists msg.
Qed.

(** The arithmetic of a summary, whenever one is produced. *)
Lemma getDashboardData_fields tbl owner (now : Js.Date) s :
  Storage.getDashboardData tbl owner now = Ok s ->
  Storage.totalBalance s
  = PrimFloat.sub (Storage.monthlyIncome s) (Storage.monthlyExpenses s)
  /\ Storage.savingsRate s
     = if PrimFloat.ltb 0%float (Storage.monthlyIncome s)
       then PrimFloat.mul
              (PrimFloat.div
                 (PrimFloat.sub (Storage.monthlyIncome s) (Storage.monthlyExpenses s))
                 (Storage.monthlyIncome s))
              100%float
       else 0%float.
Proof.
  unfold Storage.getDashboardData.
  destruct (Storage.monthly_total _ _ Schema.t_income _ _); [| discriminate].
  destruct (Storage.monthly_total _ _ Schema.t_expense _ _); [| discriminate].
  simpl. intros E. injection E as <-. split; reflexivity.
Qed.

Example dashboard_of_ledger :
  Storage.getDashboardData Sample.ledger "alice" Sample.jan_25
  = Ok (Storage.mkDashboardData 700%float 1000%float 300%float 70%float).
Proof. vm_compute. reflexivity. Qed.

Lemma getDashboardData_total tbl owner (now : Js.Date) :
  Aggregate.clock_ok now ->
  Js.daysInMonth (Js.fullYear now) (Js.monthIndex now + 1) = 31 ->
  exists s, Storage.getDashboardData tbl owner now = Ok s.
Proof.
  intros C D. unfold Storage.getDashboardData, Storage.monthly_total, Sql.param.
  rewrite (startOfMonth_in now C), (endOfMonth_in now C), D. simpl.
  eexists. reflexivity.
Qed.

(** C1, as stated, fails: with an income of 0.30 and an expense of 0.10 the
    two totals are the binary64 values of 0.30 and 0.10, and the balance is
    their binary64 difference 0.19999999999999998, not the value of the
    decimal 0.20. *)
Lemma C1_balance_not_decimal_exact :
  exists s,
    Storage.getDashboardData Sample.small_change "alice" Sample.jan_25 = Ok s
    /\ Storage.monthlyIncome s = Js.Number_of_decimal 30
    /\ Storage.monthlyExpenses s = Js.Number_of_decimal 10
    /\ Storage.totalBalance s <> Js.Number_of_decimal (30 - 10).
Proof.
  eexists. split; [vm_compute; reflexivity |].
  split; [vm_compute; reflexivity |]. split; [vm_compute; reflexivity |].
  intros H.
  apply (f_equal (fun x => PrimFloat.eqb x (Js.Number_of_decimal (30 - 10)))) in H.
  vm_compute in H. discriminate H.
Qed.

(** C1, amended: every summary that [getDashboardData] produces (it
    produces one in every month of 31 days) has [totalBalance] equal to the
    binary64 difference of its [monthlyIncome] and [monthlyExpenses];
    [savingsRate] is [((monthlyIncome - monthlyExpenses) / monthlyIncome) * 100]
    in binary64 arithmetic when [monthlyIncome > 0] and [0] otherwise, in
    particular when [monthlyIncome] is zero or when the decimal total of the
    month's income is zero, whatever the expenses. *)
Theorem C1_dashboard_arithmetic (tbl : Storage.table) (owner : string)
    (now : Js.Date) :
  (Aggregate.clock_ok now ->
   Js.daysInMonth (Js.fullYear now) (Js.monthIndex now + 1) = 31 ->
   exists s, Storage.getDashboardData tbl owner now = Ok s)
  /\ forall s,
       Storage.getDashboardData tbl owner now = Ok s ->
       let income := Storage.monthlyIncome s in
       let expenses := Storage.monthlyExpenses s in
       Storage.totalBalance s = PrimFloat.sub income expenses
       /\ (PrimFloat.ltb 0%float income = true ->
           Storage.savingsRate s
           = PrimFloat.mul (PrimFloat.div (PrimFloat.sub income expenses) income)
               100%float)
       /\ (PrimFloat.ltb 0%float income = false -> Storage.savingsRate s = 0%float)
       /\ (income = 0%float -> Storage.savingsRate s = 0%float)
       /\ (Aggregate.clock_ok now -> Aggregate.dates_valid tbl ->
           Aggregate.total
             (Aggregate.of_month owner Schema.t_income
                (Js.fullYear now) (Js.monthIndex now + 1)) tbl = 0 ->
           Storage.savingsRate s = 0%float).
Proof.
  split; [apply getDashboardData_total |].
  intros s E income expenses.
  destruct (getDashboardData_fields _ _ _ _ E) as [B R]. fold income expenses in B, R.
  split; [exact B |].
  assert (Z0 : income = 0%float -> Storage.savingsRate s = 0%float).
  { intros H. rewrite R, H. reflexivity. }
  split; [| split; [| split]].
  - intros H. now rewrite R, H.
  - intros H. now rewrite R, H.
  - exact Z0.
  - intros C V T. apply Z0.
    destruct (Z.eq_dec (Js.daysInMonth (Js.fullYear now) (Js.monthIndex now + 1)) 31)
      as [D | D].
    + destruct (getDashboardData_long_month tbl owner now C D V) as (s' & E' & I & _).
      rewrite E in E'. injection E' as <-. unfold income. rewrite I, T. reflexivity.
    + destruct (getDashboardData_short_month tbl owner now C D) as [msg E'].
      rewrite E in E'. discriminate.
Qed.

Lemma C1_dashboard_arithmetic_witness :
  exists s,
    Storage.getDashboardData Sample.ledger "alice" Sample.jan_25 = Ok s
    /\ Storage.totalBalance s
       = PrimFloat.sub (Storage.monthlyIncome s) (Storage.monthlyExpenses s).
Proof.
  destruct (C1_dashboard_arithmetic Sample.ledger "alice" Sample.jan_25) as [T F].
  destruct T as [s E].
  - repeat split; vm_compute; discriminate.
  - reflexivity.
  - exists s. split; [exact E |]. apply (F s E).
Defined.

(** C2: in April 2024 the window's upper bound is the text [2024-04-31],
    which names no calendar day; the comparison with the [date] column is
    refused and no summary is produced, although the owner has an income
    of 1000.00 dated 10 April. *)
Theorem C2_dashboard_april_fails :
  Storage.getDashboardData Sample.april "alice" Sample.apr_15
  = StoreError "invalid input for type date: 2024-04-31"
  /\ Aggregate.total (Aggregate.of_month "alice" Schema.t_income 2024 4) Sample.april
     = 100000.
Proof. split; reflexivity. Qed.

(** ** Grouping *)

Section GroupBy.
Context {R K : Type} (eqb : K -> K -> bool).
Hypothesis eqb_eq : forall a b, eqb a b = true <-> a = b.
Variables (key : R -> K) (value : R -> Z).

Lemma distinct_In (k : K) (l : list K) : In k (Sql.distinct eqb l) <-> In k l.
Proof.
  induction l as [| x l IH]; simpl; [tauto |].
  rewrite filter_In, IH, negb_true_iff.
  destruct (eqb k x) eqn:E.
  - apply eqb_eq in E. subst. intuition congruence.
  - assert (k <> x) by (intros ->; rewrite (proj2 (eqb_eq x x) eq_refl) in E; discriminate).
    intuition congruence.
Qed.

Lemma distinct_NoDup (l : list K) : NoDup (Sql.distinct eqb l).
Proof.
  induction l as [| x l IH]; simpl; constructor.
  - rewrite filter_In, negb_true_iff. intros [_ E].
    rewrite (proj2 (eqb_eq x x) eq_refl) in E. discriminate.
  - now apply NoDup_filter.
Qed.

Lemma groupBy_sum_keys (rows : list R) :
  map fst (Sql.groupBy_sum eqb key value rows) = Sql.distinct eqb (map key rows).
Proof.
  unfold Sql.groupBy_sum. rewrite map_map. simpl. apply map_id.
Qed.

Lemma groupBy_sum_In (rows : list R) (k : K) (s : option Z) :
  In (k, s) (Sql.groupBy_sum eqb key value rows)
  <-> In k (map key rows)
      /\ s = Pg.sum (map value (filter (fun r => eqb (key r) k) rows)).
Proof.
  unfold Sql.groupBy_sum. rewrite in_map_iff. split.
  - intros (k' & E & I). injection E as -> <-. split; [| reflexivity].
    now apply distinct_In.
  - intros [I ->]. exists k. split; [reflexivity | now apply distinct_In].
Qed.
End GroupBy.

Lemma filter_andb {R : Type} (p q : R -> bool) (l : list R) :
  filter q (filter p l) = filter (fun r => p r && q r) l.
Proof.
  induction l as [| r l IH]; simpl; [reflexivity |].
  destruct (p r); simpl; [destruct (q r) |]; now rewrite IH.
Qed.

(** ** Expenses by category *)

Lemma expense_in_range_between owner lo hi r :
  Storage.expense_in_range owner lo hi r = Select.expense_between owner lo hi r.
Proof.
  unfold Storage.expense_in_range, Select.expense_between, Sql.and_. simpl.
  now rewrite andb_true_r, !andb_assoc.
Qed.

Lemma getExpensesByCategory_typed tbl owner (lo hi : Pg.date) :
  Pg.valid_date lo = true -> Pg.valid_date hi = true ->
  Storage.getExpensesByCategory tbl owner (Pg.date_out lo) (Pg.date_out hi)
  = Ok (map (fun row => Storage.mkCategoryAmount (fst row) (Js.Number_or_0 (snd row)))
          (Sql.groupBy_sum Schema.category_eqb Transaction.category Transaction.amount
             (filter (Select.expense_between owner lo hi) tbl))).
Proof.
  intros Vl Vh. unfold Storage.getExpensesByCategory, Sql.param.
  rewrite (date_in_out lo Vl), (date_in_out hi Vh). simpl. do 3 f_equal.
  apply filter_ext. intros r. apply expense_in_range_between.
Qed.

Lemma total_positive (p : Transaction.row -> bool) (tbl : Storage.table) :
  (exists r, In r tbl /\ p r = true) ->
  (forall r, In r tbl -> p r = true -> 0 < Transaction.amount r) ->
  0 < Aggregate.total p tbl.
Proof.
  unfold Aggregate.total. intros X Pos.
  assert (G : forall l, (forall r, In r l -> p r = true -> 0 < Transaction.amount r) ->
                        0 <= fold_right Z.add 0 (map Transaction.amount (filter p l))).
  { induction l as [| r l IH]; simpl; intros H; [lia |].
    assert (0 <= fold_right Z.add 0 (map Transaction.amount (filter p l)))
      by (apply IH; intros r' I' P'; apply H; [now right | exact P']).
    destruct (p r) eqn:E; simpl; [| assumption].
    pose proof (H r (or_introl eq_refl) E). lia. }
  induction tbl as [| r tbl IH]; [destruct X as (? & [] & _) |].
  simpl. destruct (p r) eqn:E; simpl.
  - pose proof (Pos r (or_introl eq_refl) E).
    assert (0 <= fold_right Z.add 0 (map Transaction.amount (filter p tbl)))
      by (apply G; intros r' I' P'; apply Pos; [now right | exact P']). lia.
  - apply IH.
    + destruct X as (r' & [-> | I] & P); [congruence | now exists r'].
    + intros r' I' P'. apply Pos; [now right | exact P'].
Qed.

(** C7, as stated, fails: a category whose only expense in range has amount
    zero is reported, with the sum zero. *)
Lemma C7_zero_sum_reported :
  exists res e,
    Storage.getExpensesByCategory Sample.free_lunch "alice" "2024-01-01" "2024-01-31"
    = Ok res
    /\ In e res
    /\ Storage.ca_category e = Schema.c_food
    /\ Storage.ca_amount e = 0%float
    /\ Aggregate.total
         (Select.expense_of_category "alice" (Pg.mkdate 2024 1 1) (Pg.mkdate 2024 1 31)
            Schema.c_food) Sample.free_lunch = 0.
Proof.
  exists [Storage.mkCategoryAmount Schema.c_food 0%float],
         (Storage.mkCategoryAmount Schema.c_food 0%float).
  split; [vm_compute; reflexivity |]. split; [now left |]. repeat split.
Qed.

(** C7, amended: for every owner and every range of calendar days,
    [getExpensesByCategory] succeeds; a category is reported exactly when
    the owner has an expense of that category dated in the range (bounds
    included), and is reported once; the amount reported is the decimal sum
    of these expenses, converted to a number; that sum is positive when
    all of them have positive amounts (a category whose expenses in range
    are all of amount zero is reported with sum zero). *)
Theorem C7_getExpensesByCategory (tbl : Storage.table) (owner : string)
    (lo hi : Pg.date) :
  Pg.valid_date lo = true -> Pg.valid_date hi = true ->
  exists res,
    Storage.getExpensesByCategory tbl owner (Pg.date_out lo) (Pg.date_out hi) = Ok res
    /\ NoDup (map Storage.ca_category res)
    /\ (forall c, In c (map Storage.ca_category res)
                  <-> exists r, In r tbl
                                /\ Select.expense_between owner lo hi r = true
                                /\ Transaction.category r = c)
    /\ (forall e, In e res ->
          Storage.ca_amount e
          = Js.Number_of_decimal
              (Aggregate.total
                 (Select.expense_of_category owner lo hi (Storage.ca_category e)) tbl))
    /\ (forall e, In e res ->
          (forall r, In r tbl ->
                     Select.expense_of_category owner lo hi (Storage.ca_category e) r = true ->
                     0 < Transaction.amount r) ->
          0 < Aggregate.total
                (Select.expense_of_category owner lo hi (Storage.ca_category e)) tbl).
Proof.
  intros Vl Vh. eexists. split; [apply (getExpensesByCategory_typed _ _ _ _ Vl Vh) |].
  set (sel := filter (Select.expense_between owner lo hi) tbl).
  assert (Keys : map Storage.ca_category
                   (map (fun row => Storage.mkCategoryAmount (fst row)
                                      (Js.Number_or_0 (snd row)))
                      (Sql.groupBy_sum Schema.category_eqb Transaction.category
                         Transaction.amount sel))
                 = Sql.distinct Schema.category_eqb (map Transaction.category sel)).
  { rewrite map_map. simpl.
    apply (groupBy_sum_keys Schema.category_eqb Transaction.category Transaction.amount). }
  assert (Mem : forall c, In c (map Transaction.category sel)
                          <-> exists r, In r tbl
                                /\ Select.expense_between owner lo hi r = true
                                /\ Transaction.category r = c).
  { intros c. rewrite in_map_iff. unfold sel. split.
    - intros (r & E & I). apply filter_In in I as [I S]. now exists r.
    - intros (r & I & S & E). exists r. split; [exact E |]. apply filter_In. now split. }
  split; [| split; [| split]].
  - rewrite Keys. apply (distinct_NoDup _ category_eqb_eq).
  - intros c. rewrite Keys, (distinct_In _ category_eqb_eq). apply Mem.
  - intros e I. apply in_map_iff in I as ([c s] & <- & I).
    apply (groupBy_sum_In _ category_eqb_eq) in I as [_ ->]. simpl.
    rewrite Number_or_0_sum. unfold Aggregate.total, sel. now rewrite filter_andb.
  - intros e I Pos. apply total_positive; [| exact Pos].
    assert (I' : In (Storage.ca_category e) (map Transaction.category sel)).
    { apply (distinct_In _ category_eqb_eq). rewrite <- Keys. now apply in_map. }
    apply Mem in I' as (r & I' & S & E). exists r. split; [exact I' |].
    unfold Select.expense_of_category. rewrite S, E. simpl. now apply category_eqb_eq.
Qed.

Lemma C7_getExpensesByCategory_witness :
  exists res,
    Storage.getExpensesByCategory Sample.ledger "alice"
      (Pg.date_out (Pg.mkdate 2024 1 1)) (Pg.date_out (Pg.mkdate 2024 2 28)) = Ok res
    /\ NoDup (map Storage.ca_category res).
Proof.
  destruct (C7_getExpensesByCategory Sample.ledger "alice"
              (Pg.mkdate 2024 1 1) (Pg.mkdate 2024 2 28) eq_refl eq_refl)
    as (res & E & N & _).
  exists res. split; assumption.
Defined.

(** The two categories of the example, in whatever order the store
    returns the groups. *)
Example expenses_of_ledger :
  exists res,
    Storage.getExpensesByCategory Sample.ledger "alice" "2024-01-01" "2024-02-28"
    = Ok res
    /\ Permutation res [Storage.mkCategoryAmount Schema.c_food 150%float;
                        Storage.mkCategoryAmount Schema.c_other 300%float].
Proof.
  eexists. split; [vm_compute; reflexivity |]. apply perm_swap.
Qed.

(** ** Creating a transaction *)

Lemma enum_in_Some {E : Type} (out : E -> string) (values : list E) s v :
  Schema.enum_in out values s = Some v -> out v = s.
Proof.
  unfold Schema.enum_in. intros H. apply find_some in H as [_ H].
  now apply String.eqb_eq.
Qed.

Lemma z_enum_type_None (v : option Zod.json) :
  (forall t, v <> Some (Zod.JString (Schema.transaction_type_out t))) ->
  Zod.z_enum Schema.transaction_type_in v = None.
Proof.
  intros H. destruct v as [[| | | s |] |]; try reflexivity. simpl.
  destruct (Schema.transaction_type_in s) as [t |] eqn:E; [| reflexivity].
  apply enum_in_Some in E. subst s. now destruct (H t).
Qed.

Lemma z_enum_category_None (v : option Zod.json) :
  (forall c, v <> Some (Zod.JString (Schema.category_out c))) ->
  Zod.z_enum Schema.category_in v = None.
Proof.
  intros H. destruct v as [[| | | s |] |]; try reflexivity. simpl.
  destruct (Schema.category_in s) as [c |] eqn:E; [| reflexivity].
  apply enum_in_Some in E. subst s. now destruct (H c).
Qed.

Lemma z_string_None (v : option Zod.json) :
  (forall s, v <> Some (Zod.JString s)) -> Zod.z_string v = None.
Proof.
  intros H. destruct v as [[| | | s |] |]; try reflexivity. now destruct (H s).
Qed.

Lemma insertTransactionSchema_parse_None (b : Zod.body) :
  Zod.z_enum Schema.transaction_type_in (Zod.b_type b) = None
  \/ Zod.z_string (Zod.b_description b) = None
  \/ Zod.z_string (Zod.b_amount b) = None
  \/ Zod.z_enum Schema.category_in (Zod.b_category b) = None
  \/ Zod.z_string (Zod.b_date b) = None
  \/ Zod.z_string_nullish (Zod.b_currency b) = None ->
  Zod.insertTransactionSchema_parse b = None.
Proof.
  unfold Zod.insertTransactionSchema_parse.
  destruct (Zod.z_enum Schema.transaction_type_in _); simpl;
    [| intros _; reflexivity].
  destruct (Zod.z_string (Zod.b_description b)); simpl; [| intros _; reflexivity].
  destruct (Zod.z_string (Zod.b_amount b)); simpl; [| intros _; reflexivity].
  destruct (Zod.z_enum Schema.category_in _); simpl; [| intros _; reflexivity].
  destruct (Zod.z_string (Zod.b_date b)); simpl; [| intros _; reflexivity].
  destruct (Zod.z_string_nullish _); simpl; [| intros _; reflexivity].
  intros H. repeat (destruct H as [H | H]; [discriminate H |]). discriminate H.
Qed.

(** *** Text that the conversions read *)

Lemma is_digit_in (c : ascii) :
  Pg.is_digit c = true -> exists v, Pg.digit_in c = Some v /\ 0 <= v <= 9.
Proof.
  unfold Pg.is_digit, Pg.digit_in. 
  destruct ((48 <=? nat_of_ascii c)%nat && (nat_of_ascii c <=? 57)%nat) eqn:E;
    [| discriminate].
  intros _. eexists. split; [reflexivity |].
  apply andb_true_iff in E as [E1 E2]. apply Nat.leb_le in E1, E2. lia.
Qed.

Lemma digits_in_digits (cs : list ascii) (acc : Z) :
  0 <= acc -> forallb Pg.is_digit cs = true ->
  exists v, Pg.digits_in acc cs = Some v /\ 0 <= v.
Proof.
  revert acc. induction cs as [| c cs IH]; intros acc A H;
    cbn [Pg.digits_in forallb] in *.
  - now exists acc.
  - apply andb_true_iff in H as [Hc H].
    destruct (is_digit_in c Hc) as (v & -> & B). cbn [Pg.obind].
    apply IH; [lia | exact H].
Qed.

Lemma forallb_firstn {A} (p : A -> bool) n (l : list A) :
  forallb p l = true -> forallb p (firstn n l) = true.
Proof.
  revert l. induction n as [| n IH]; intros [| x l]; simpl; auto.
  intros H. apply andb_true_iff in H as [-> H]. simpl. now apply IH.
Qed.

Lemma forallb_skipn {A} (p : A -> bool) n (l : list A) :
  forallb p l = true -> forallb p (skipn n l) = true.
Proof.
  revert l. induction n as [| n IH]; intros [| x l]; simpl; auto.
  intros H. apply andb_true_iff in H as [_ H]. now apply IH.
Qed.

(** Within plain decimal notation the conversion fails for one reason only:
    the rounded value has more than eight integer digits. *)
Lemma plain_decimal_numeric_in (s : string) :
  Pg.plain_decimal s = true ->
  exists c, 0 <= c
    /\ (Pg.numeric_in s = (if c <? 10000000000 then Some c else None)
        \/ Pg.numeric_in s = (if c <? 10000000000 then Some (- c) else None)).
Proof.
  unfold Pg.plain_decimal, Pg.numeric_in.
  assert (U : forall cs,
             (let '(ip, fp) := Pg.split_dot cs in
              let fr := match fp with Some f => f | None => [] end in
              forallb Pg.is_digit ip && forallb Pg.is_digit fr
              && negb (Nat.eqb (List.length ip + List.length fr) 0)) = true ->
             exists c, 0 <= c
               /\ Pg.unsigned_numeric_in cs
                  = if c <? 10000000000 then Some c else None).
  { intros cs. unfold Pg.unsigned_numeric_in.
    destruct (Pg.split_dot cs) as [ip fp].
    set (fr := match fp with Some f => f | None => [] end).
    intros H. apply andb_true_iff in H as [H N]. apply andb_true_iff in H as [Hi Hf].
    destruct (digits_in_digits ip 0 ltac:(lia) Hi) as (i & Ei & Bi).
    destruct (digits_in_digits fr 0 ltac:(lia) Hf) as (f0 & Ef0 & _).
    assert (H2 : forallb Pg.is_digit (firstn 2 (fr ++ ["0"; "0"]%char)) = true).
    { apply forallb_firstn. rewrite forallb_app, Hf. reflexivity. }
    destruct (digits_in_digits _ 0 ltac:(lia) H2) as (f & Ef & Bf).
    assert (H3 : forallb Pg.is_digit (firstn 1 (skipn 2 fr)) = true)
      by now apply forallb_firstn, forallb_skipn.
    destruct (digits_in_digits _ 0 ltac:(lia) H3) as (r & Er & Br).
    exists (100 * i + f + (if 5 <=? r then 1 else 0)). split.
    - destruct (5 <=? r); lia.
    - destruct ip as [| c0 ip]; [destruct fr as [| c1 fr']; [discriminate N |] |];
        rewrite Ei, Ef0, Ef, Er; reflexivity. }
  destruct (list_ascii_of_string s) as [| c cs]; [discriminate |].
  destruct (Ascii.eqb c "-") eqn:Em; cbn [orb].
  - intros H. destruct (U cs H) as (v & B & ->). exists v. split; [exact B |].
    right. now destruct (v <? 10000000000).
  - destruct (Ascii.eqb c "+") eqn:Ep.
    + intros H. destruct (U cs H) as (v & B & ->). exists v. auto.
    + intros H. destruct (U (c :: cs) H) as (v & B & ->). exists v. auto.
Qed.

(** Within the ISO form the conversion fails for one reason only: the
    fields do not name a calendar day. *)
Lemma iso_shape_date_in (s : string) :
  Pg.iso_shape s = true ->
  exists v, Pg.date_in s = if Pg.valid_date v then Some v else None.
Proof.
  unfold Pg.iso_shape, Pg.date_in.
  destruct (list_ascii_of_string s)
    as [| y1 [| y2 [| y3 [| y4 [| s1 [| m1 [| m2 [| s2 [| d1 [| d2 [| x l]]]]]]]]]]];
    try discriminate.
  intros H. apply andb_true_iff in H as [H D]. rewrite H.
  cbn [forallb] in D.
  repeat (apply andb_true_iff in D as [?Hd D]).
  repeat match goal with
         | Hc : Pg.is_digit ?c = true |- _ =>
             destruct (is_digit_in c Hc) as (? & ? & ?); clear Hc
         end.
  cbn [Pg.digits_in].
  repeat match goal with
         | E : Pg.digit_in ?c = Some _ |- _ => rewrite E; clear E
         end.
  cbn [Pg.obind Pg.digits_in]. eexists. reflexivity.
Qed.

(** C6, as stated, fails: a body with the amount [-5.00] passes validation
    and is inserted (status 201, one more row, amount -5.00), and a body
    with the date [2024-02-30] passes validation too and is refused by the
    store only (status 500, not the 400 of a validation error). *)
Lemma C6_negative_amount_inserted :
  Routes.post_transactions Sample.people Sample.ledger "alice" Sample.refund "t9"
    Sample.jan_25
  = (Sample.ledger
       ++ [Transaction.mk "t9" "alice" Schema.t_expense "refund" (-500) Schema.c_food
             (Pg.mkdate 2024 1 10) (Some "INR") (Some Sample.jan_25)
             (Some Sample.jan_25)],
     Routes.Json 201
       (Transaction.mk "t9" "alice" Schema.t_expense "refund" (-500) Schema.c_food
          (Pg.mkdate 2024 1 10) (Some "INR") (Some Sample.jan_25)
          (Some Sample.jan_25)))
  /\ Routes.post_transactions Sample.people Sample.ledger "alice" Sample.feb_30 "t9"
       Sample.jan_25
     = (Sample.ledger, Routes.Message 500 "Failed to create transaction").
Proof. split; reflexivity. Qed.

Lemma z_string_nullish_None (v : option Zod.json) :
  (exists j, v = Some j /\ j <> Zod.JNull /\ forall s, j <> Zod.JString s) ->
  Zod.z_string_nullish v = None.
Proof.
  intros (j & -> & N & S). destruct j as [| b | n | s |]; try reflexivity.
  - now destruct N.
  - now destruct (S s).
Qed.

(** C6, amended: [POST /api/transactions] answers 400 and leaves the table
    as it was when the kind or the category is not one of the enum labels,
    when the description, the amount or the date is not a string, or when
    a currency is given that is neither [null] nor a string.  For a body
    that passes, with the amount in plain decimal notation, the date of
    the form [YYYY-MM-DD] and no NUL character in the description or the
    currency: the store refuses the insert, the answer is 500
    and the table is as it was, when the amount has more than eight
    integer digits after rounding to two places, when the date is not a
    calendar day, when the generated id is taken, or when the caller has
    no row in [users]; in every other case, a negative amount included,
    one row is appended and returned with status 201, holding the
    generated id, the caller as owner, the converted amount and date, and
    the time of the insert in [createdAt] and [updatedAt]. *)
Theorem C6_post_transactions (users : list User.row) (tbl : Storage.table)
    (owner : string) (body : Zod.body) (id : string) (now : Js.Date) :
  ((forall t, Zod.b_type body <> Some (Zod.JString (Schema.transaction_type_out t)))
   \/ (forall c, Zod.b_category body <> Some (Zod.JString (Schema.category_out c)))
   \/ (forall s, Zod.b_description body <> Some (Zod.JString s))
   \/ (forall s, Zod.b_amount body <> Some (Zod.JString s))
   \/ (forall s, Zod.b_date body <> Some (Zod.JString s))
   \/ (exists j, Zod.b_currency body = Some j /\ j <> Zod.JNull
                  /\ forall s, j <> Zod.JString s) ->
   Routes.post_transactions users tbl owner body id now
   = (tbl, Routes.Message 400 "Invalid transaction data"))
  /\ forall t c description amount date,
       Zod.b_type body = Some (Zod.JString (Schema.transaction_type_out t)) ->
       Zod.b_category body = Some (Zod.JString (Schema.category_out c)) ->
       Zod.b_description body = Some (Zod.JString description) ->
       Zod.b_amount body = Some (Zod.JString amount) ->
       Zod.b_date body = Some (Zod.JString date) ->
       (Zod.b_currency body = None \/ Zod.b_currency body = Some Zod.JNull
        \/ exists s, Zod.b_currency body = Some (Zod.JString s)
                     /\ Pg.text_ok s = true) ->
       Pg.text_ok description = true ->
       Pg.plain_decimal amount = true ->
       Pg.iso_shape date = true ->
       match Pg.numeric_in amount, Pg.date_in date with
       | Some a, Some d =>
           if existsb (fun r => String.eqb (Transaction.id r) id) tbl
              || negb (Storage.user_exists users owner)
           then Routes.post_transactions users tbl owner body id now
                = (tbl, Routes.Message 500 "Failed to create transaction")
           else
             let row :=
               Transaction.mk id owner t description a c d
                 (match Zod.b_currency body with
                  | Some (Zod.JString cur) => Some cur
                  | Some _ => None
                  | None => Some "INR"
                  end)
                 (Some now) (Some now) in
             Routes.post_transactions users tbl owner body id now
             = (tbl ++ [row], Routes.Json 201 row)
       | _, _ =>
           Routes.post_transactions users tbl owner body id now
           = (tbl, Routes.Message 500 "Failed to create transaction")
       end.
Proof.
  split.
  - intros H. unfold Routes.post_transactions.
    rewrite insertTransactionSchema_parse_None; [reflexivity |].
    destruct H as [H | [H | [H | [H | [H | H]]]]].
    + left. now apply z_enum_type_None.
    + do 3 right. left. now apply z_enum_category_None.
    + right. left. now apply z_string_None.
    + do 2 right. left. now apply z_string_None.
    + do 4 right. left. now apply z_string_None.
    + do 5 right. now apply z_string_nullish_None.
  - intros t c description amount date Ht Hc Hd Ha Hdt Hcur _ _ _.
    unfold Routes.post_transactions, Zod.insertTransactionSchema_parse.
    rewrite Ht, Hc, Hd, Ha, Hdt.
    cbn [Zod.z_enum Zod.z_string Pg.obind].
    rewrite transaction_type_in_out, category_in_out. cbn [Pg.obind].
    assert (Cur : exists currency,
               Zod.z_string_nullish (Zod.b_currency body) = Some currency
               /\ match currency with Some cur => cur | None => Some "INR" end
                  = match Zod.b_currency body with
                    | Some (Zod.JString cur) => Some cur
                    | Some _ => None
                    | None => Some "INR"
                    end).
    { destruct Hcur as [-> | [-> | (s & -> & _)]]; eexists; split; reflexivity. }
    destruct Cur as (currency & -> & Ecur). cbn [Pg.obind].
    unfold Storage.createTransaction, Sql.param.
    cbn [InsertTransaction.amount InsertTransaction.date InsertTransaction.type
         InsertTransaction.description InsertTransaction.category
         InsertTransaction.currency].
    destruct (Pg.numeric_in amount) as [a |]; cbn [bind]; [| reflexivity].
    destruct (Pg.date_in date) as [d |]; cbn [bind]; [| reflexivity].
    destruct (existsb _ tbl); cbn [orb]; [reflexivity |].
    destruct (Storage.user_exists users owner); cbn [negb]; [| reflexivity].
    cbv zeta. now rewrite Ecur.
Qed.

Lemma C6_post_transactions_witness :
  (forall t, Zod.b_type (Zod.mkbody (Some (Zod.JString "gift")) None None None None None)
             <> Some (Zod.JString (Schema.transaction_type_out t)))
  /\ Routes.post_transactions Sample.people Sample.ledger "alice"
       (Zod.mkbody (Some (Zod.JString "gift")) None None None None None) "t9"
       Sample.jan_25
     = (Sample.ledger, Routes.Message 400 "Invalid transaction data")
  /\ Pg.text_ok "refund" = true
  /\ Pg.plain_decimal "-5.00" = true
  /\ Pg.iso_shape "2024-01-10" = true
  /\ Routes.post_transactions Sample.people Sample.ledger "alice" Sample.refund "t9"
       Sample.jan_25
     = (Sample.ledger ++ [More.refund_row], Routes.Json 201 More.refund_row).
Proof.
  assert (H : forall t,
             Zod.b_type (Zod.mkbody (Some (Zod.JString "gift")) None None None None None)
             <> Some (Zod.JString (Schema.transaction_type_out t)))
    by (intros t; destruct t; discriminate).
  pose proof (proj2 (C6_post_transactions Sample.people Sample.ledger "alice"
                       Sample.refund "t9" Sample.jan_25)
                Schema.t_expense Schema.c_food "refund" "-5.00" "2024-01-10"
                eq_refl eq_refl eq_refl eq_refl eq_refl (or_introl eq_refl)
                eq_refl eq_refl eq_refl) as B.
  vm_compute in B.
  split; [exact H |]. split.
  - apply (C6_post_transactions Sample.people Sample.ledger "alice"
             (Zod.mkbody (Some (Zod.JString "gift")) None None None None None) "t9"
             Sample.jan_25).
    left. exact H.
  - repeat (split; [reflexivity |]). vm_compute. exact B.
Defined.

(** ** Order of month keys *)

Lemma string_leb_trans (a b c : string) :
  String.leb a b = true -> String.leb b c = true -> String.leb a c = true.
Proof.
  unfold String.leb. intros H1 H2.
  destruct (String.compare a b) eqn:Cab; [| | discriminate].
  - apply String.compare_eq_iff in Cab. now subst.
  - destruct (String.compare b c) eqn:Cbc; [| | discriminate].
    + apply String.compare_eq_iff in Cbc. subst. now rewrite Cab.
    + destruct OrdersEx.String_as_OT.lt_strorder as [_ T].
      pose proof (T a b c Cab Cbc) as L.
      change (String.compare a c = Lt) in L. now rewrite L.
Qed.

Lemma string_leb_neq_ltb (a b : string) :
  String.leb a b = true -> a <> b -> String.ltb a b = true.
Proof.
  unfold String.leb, String.ltb. intros H N.
  destruct (String.compare a b) eqn:C; [| reflexivity | discriminate].
  apply String.compare_eq_iff in C. contradiction.
Qed.

Lemma string_leb_refl (a : string) : String.leb a a = true.
Proof. destruct (String.leb_total a a); assumption. Qed.

Section AscendingSort.
Context {R : Type} (key : R -> string).

Lemma insert_asc_sorted (x : R) (l : list R) :
  StronglySorted (fun a b => String.leb (key a) (key b) = true) l ->
  StronglySorted (fun a b => String.leb (key a) (key b) = true)
    (Sql.insert_asc String.leb key x l).
Proof.
  induction l as [| y l IH]; intros S; simpl.
  - constructor; constructor.
  - inversion S as [| ? ? S' F]; subst.
    destruct (String.leb (key x) (key y)) eqn:E.
    + constructor; [exact S |]. constructor; [exact E |].
      eapply Forall_impl; [| exact F]. intros z Hz. cbv beta in *.
      eapply string_leb_trans; eassumption.
    + constructor; [now apply IH |].
      assert (Hyx : String.leb (key y) (key x) = true)
        by (destruct (String.leb_total (key x) (key y)); congruence).
      eapply Permutation_Forall; [symmetry; apply insert_asc_perm |].
      constructor; assumption.
Qed.

Lemma orderBy_asc_sorted (l : list R) :
  StronglySorted (fun a b => String.leb (key a) (key b) = true)
    (Sql.orderBy_asc String.leb key l).
Proof.
  induction l as [| x l IH]; simpl; [constructor | now apply insert_asc_sorted].
Qed.
End AscendingSort.

Lemma ascii_compare_digit (x y : Z) :
  Ascii.compare (Js.digit x) (Js.digit y) = (x mod 10 ?= y mod 10).
Proof.
  unfold Js.digit.
  assert (Hx : 0 <= x mod 10 < 10) by (apply Z.mod_pos_bound; lia).
  assert (Hy : 0 <= y mod 10 < 10) by (apply Z.mod_pos_bound; lia).
  remember (x mod 10) as a eqn:Ea. remember (y mod 10) as b eqn:Eb. clear Ea Eb.
  assert (Ca : a = 0 \/ a = 1 \/ a = 2 \/ a = 3 \/ a = 4 \/ a = 5 \/ a = 6
               \/ a = 7 \/ a = 8 \/ a = 9) by lia.
  assert (Cb : b = 0 \/ b = 1 \/ b = 2 \/ b = 3 \/ b = 4 \/ b = 5 \/ b = 6
               \/ b = 7 \/ b = 8 \/ b = 9) by lia.
  clear Hx Hy.
  repeat (destruct Ca as [-> | Ca]);
    repeat (destruct Cb as [-> | Cb]); subst; reflexivity.
Qed.

Lemma compare_cons (c c' : ascii) (s s' : string) :
  String.compare (String c s) (String c' s')
  = match Ascii.compare c c' with Eq => String.compare s s' | r => r end.
Proof. reflexivity. Qed.

Lemma to_char_compare (a b : Pg.date) :
  Pg.valid_date a = true -> Pg.valid_date b = true ->
  String.compare (Pg.to_char_YYYY_MM a) (Pg.to_char_YYYY_MM b)
  = match Pg.year a ?= Pg.year b with
    | Eq => Pg.month a ?= Pg.month b
    | c => c
    end.
Proof.
  intros Va Vb.
  apply valid_date_bounds in Va as (Hya & Hma & _).
  apply valid_date_bounds in Vb as (Hyb & Hmb & _).
  destruct a as [y m d], b as [y' m' d']. cbn [Pg.year Pg.month] in *.
  change (Pg.to_char_YYYY_MM (Pg.mkdate y m d))
    with (String (Js.digit (y / 1000)) (String (Js.digit (y / 100))
            (String (Js.digit (y / 10)) (String (Js.digit y)
               (String "-" (String (Js.digit (m / 10)) (String (Js.digit m) ""))))))).
  change (Pg.to_char_YYYY_MM (Pg.mkdate y' m' d'))
    with (String (Js.digit (y' / 1000)) (String (Js.digit (y' / 100))
            (String (Js.digit (y' / 10)) (String (Js.digit y')
               (String "-" (String (Js.digit (m' / 10)) (String (Js.digit m') ""))))))).
  rewrite !compare_cons, !ascii_compare_digit.
  change (Ascii.compare "-" "-") with Eq. change (String.compare "" "") with Eq.
  cbv iota.
  pose proof (digits4 y ltac:(lia)) as Dy. pose proof (digits4 y' ltac:(lia)) as Dy'.
  pose proof (digits2 m ltac:(lia)) as Dm. pose proof (digits2 m' ltac:(lia)) as Dm'.
  pose proof (Z.mod_pos_bound (y / 1000) 10 ltac:(lia)).
  pose proof (Z.mod_pos_bound (y / 100) 10 ltac:(lia)).
  pose proof (Z.mod_pos_bound (y / 10) 10 ltac:(lia)).
  pose proof (Z.mod_pos_bound y 10 ltac:(lia)).
  pose proof (Z.mod_pos_bound (y' / 1000) 10 ltac:(lia)).
  pose proof (Z.mod_pos_bound (y' / 100) 10 ltac:(lia)).
  pose proof (Z.mod_pos_bound (y' / 10) 10 ltac:(lia)).
  pose proof (Z.mod_pos_bound y' 10 ltac:(lia)).
  pose proof (Z.mod_pos_bound (m / 10) 10 ltac:(lia)).
  pose proof (Z.mod_pos_bound m 10 ltac:(lia)).
  pose proof (Z.mod_pos_bound (m' / 10) 10 ltac:(lia)).
  pose proof (Z.mod_pos_bound m' 10 ltac:(lia)).
  generalize dependent ((y / 1000) mod 10). generalize dependent ((y / 100) mod 10).
  generalize dependent ((y / 10) mod 10). generalize dependent (y mod 10).
  generalize dependent ((y' / 1000) mod 10). generalize dependent ((y' / 100) mod 10).
  generalize dependent ((y' / 10) mod 10). generalize dependent (y' mod 10).
  generalize dependent ((m / 10) mod 10). generalize dependent (m mod 10).
  generalize dependent ((m' / 10) mod 10). generalize dependent (m' mod 10).
  intros.
  repeat match goal with
  | |- context [ match ?p ?= ?q with _ => _ end ] =>
      lazymatch p with
      | y => fail
      | _ => idtac
      end;
      destruct (Z.compare_spec p q)
  end;
  try (replace (y ?= y') with Lt by (symmetry; apply Z.compare_lt_iff; lia); reflexivity);
  try (replace (y ?= y') with Gt by (symmetry; apply Z.compare_gt_iff; lia); reflexivity);
  replace (y ?= y') with Eq by (symmetry; apply Z.compare_eq_iff; lia);
  symmetry;
  first [ apply Z.compare_lt_iff; lia | apply Z.compare_gt_iff; lia
        | apply Z.compare_eq_iff; lia ].
Qed.

(** Two stored dates have the same month key exactly when they lie in the
    same calendar month, and the order of the keys is the order of the
    calendar months. *)
Lemma month_key_eq (a b : Pg.date) :
  Pg.valid_date a = true -> Pg.valid_date b = true ->
  (Pg.to_char_YYYY_MM a = Pg.to_char_YYYY_MM b
   <-> Pg.year a = Pg.year b /\ Pg.month a = Pg.month b).
Proof.
  intros Va Vb. pose proof (to_char_compare a b Va Vb) as C. split.
  - intros E. rewrite E in C.
    assert (R : String.compare (Pg.to_char_YYYY_MM b) (Pg.to_char_YYYY_MM b) = Eq).
    { destruct (String.compare _ _) eqn:Q; [reflexivity | |];
        pose proof (String.compare_antisym (Pg.to_char_YYYY_MM b) (Pg.to_char_YYYY_MM b)) as A;
        rewrite Q in A; discriminate A. }
    rewrite R in C. destruct (Z.compare_spec (Pg.year a) (Pg.year b)); try discriminate.
    symmetry in C. apply Z.compare_eq_iff in C. now split.
  - intros [Ey Em]. apply String.compare_eq_iff. rewrite C, Ey, Em, !Z.compare_refl.
    reflexivity.
Qed.

Lemma month_key_lt (a b : Pg.date) :
  Pg.valid_date a = true -> Pg.valid_date b = true ->
  (String.ltb (Pg.to_char_YYYY_MM a) (Pg.to_char_YYYY_MM b) = true
   <-> Pg.year a < Pg.year b \/ (Pg.year a = Pg.year b /\ Pg.month a < Pg.month b)).
Proof.
  intros Va Vb. unfold String.ltb. rewrite (to_char_compare a b Va Vb).
  destruct (Z.compare_spec (Pg.year a) (Pg.year b)) as [E | L | G].
  - destruct (Z.compare_spec (Pg.month a) (Pg.month b)); split;
      try reflexivity; try discriminate; lia.
  - split; [now left | reflexivity].
  - split; [discriminate | lia].
Qed.

(** ** The object [monthlyData] *)

Lemma obj_get_set (o : Storage.object) (k k' : string) (v : Storage.MonthTotals) :
  Storage.obj_get (Storage.obj_set o k v) k'
  = if String.eqb k k' then Some v else Storage.obj_get o k'.
Proof.
  induction o as [| [k0 v0] o IH]; simpl; [reflexivity |].
  destruct (String.eqb k0 k) eqn:E; simpl.
  - apply String.eqb_eq in E. subst k0. now destruct (String.eqb k k').
  - rewrite IH. destruct (String.eqb k0 k') eqn:E'; [| reflexivity].
    apply String.eqb_eq in E'. subst k0.
    rewrite String.eqb_sym in E. now rewrite E.
Qed.

Lemma obj_keys_set (o : Storage.object) (k : string) (v : Storage.MonthTotals) :
  map fst (Storage.obj_set o k v)
  = match Storage.obj_get o k with
    | Some _ => map fst o
    | None => map fst o ++ [k]
    end.
Proof.
  induction o as [| [k0 v0] o IH]; simpl; [reflexivity |].
  destruct (String.eqb k0 k); simpl; [reflexivity |].
  rewrite IH. now destruct (Storage.obj_get o k).
Qed.

Lemma obj_get_None (o : Storage.object) (k : string) :
  Storage.obj_get o k = None <-> ~ In k (map fst o).
Proof.
  induction o as [| [k0 v0] o IH]; simpl; [tauto |].
  destruct (String.eqb k0 k) eqn:E.
  - apply String.eqb_eq in E. split; [discriminate | intros H; destruct H; now left].
  - apply String.eqb_neq in E. rewrite IH. tauto.
Qed.

Lemma obj_get_In (o : Storage.object) (k : string) (v : Storage.MonthTotals) :
  NoDup (map fst o) -> In (k, v) o -> Storage.obj_get o k = Some v.
Proof.
  induction o as [| [k0 v0] o IH]; simpl; intros N I; [destruct I |].
  inversion N as [| ? ? Hnot N']; subst.
  destruct I as [E | I].
  - injection E as -> ->. now rewrite String.eqb_refl.
  - destruct (String.eqb k0 k) eqn:E; [| now apply IH].
    apply String.eqb_eq in E. subst k0. destruct Hnot.
    apply in_map_iff. now exists (k, v).
Qed.

(** ** Sorted lists extended at the end *)

Lemma StronglySorted_snoc {A : Type} (R : A -> A -> Prop) (l : list A) (x : A) :
  StronglySorted R l -> Forall (fun y => R y x) l -> StronglySorted R (l ++ [x]).
Proof.
  induction l as [| y l IH]; intros S F; simpl.
  - constructor; constructor.
  - inversion S; subst. inversion F; subst.
    constructor; [now apply IH |]. apply Forall_app. split; [assumption |].
    constructor; [assumption | constructor].
Qed.

Lemma StronglySorted_snoc_inv {A : Type} (R : A -> A -> Prop) (l : list A) (x : A) :
  StronglySorted R (l ++ [x]) -> StronglySorted R l /\ Forall (fun y => R y x) l.
Proof.
  induction l as [| y l IH]; simpl; intros S.
  - split; constructor.
  - inversion S as [| ? ? S' F]; subst. destruct (IH S') as [S1 F1].
    apply Forall_app in F as [F2 F3]. inversion F3; subst.
    split; constructor; assumption.
Qed.

Lemma StronglySorted_lt_NoDup (l : list string) :
  StronglySorted (fun a b => String.ltb a b = true) l -> NoDup l.
Proof.
  induction 1 as [| a l S IH F]; constructor; [| exact IH].
  intros I. rewrite Forall_forall in F. specialize (F a I).
  unfold String.ltb in F.
  replace (String.compare a a) with Eq in F; [discriminate |].
  symmetry. destruct (String.compare a a) eqn:C; [reflexivity | |];
    pose proof (String.compare_antisym a a) as Q; rewrite C in Q; discriminate Q.
Qed.

Lemma find_snoc {A : Type} (f : A -> bool) (l : list A) (x : A) :
  find f (l ++ [x])
  = match find f l with
    | Some y => Some y
    | None => if f x then Some x else None
    end.
Proof.
  induction l as [| y l IH]; simpl; [reflexivity |]. now destruct (f y).
Qed.

(** ** The loop over the rows of the query *)

Lemma month_type_eqb_eq (a b : string * Schema.transaction_type) :
  Storage.month_type_eqb a b = true <-> a = b.
Proof.
  destruct a as [m t], b as [m' t']. unfold Storage.month_type_eqb. simpl.
  rewrite andb_true_iff, String.eqb_eq, transaction_type_eqb_eq.
  split; [intros [-> ->]; reflexivity | intros E; injection E as -> ->; auto].
Qed.

Lemma month_type_eqb_refl (a : string * Schema.transaction_type) :
  Storage.month_type_eqb a a = true.
Proof. now apply month_type_eqb_eq. Qed.

Lemma reported_snoc_other rows (k : string * Schema.transaction_type) s m ty :
  k <> (m, ty) -> Series.reported (rows ++ [(k, s)]) m ty = Series.reported rows m ty.
Proof.
  intros N. unfold Series.reported. rewrite find_snoc. simpl.
  destruct (find _ rows); [reflexivity |].
  destruct (Storage.month_type_eqb k (m, ty)) eqn:E; [| reflexivity].
  apply month_type_eqb_eq in E. contradiction.
Qed.

Lemma reported_absent rows m ty :
  ~ In (m, ty) (map fst rows) -> Series.reported rows m ty = 0%float.
Proof.
  intros N. unfold Series.reported.
  destruct (find _ rows) as [row |] eqn:F; [| reflexivity].
  apply find_some in F as [I E]. apply month_type_eqb_eq in E.
  destruct N. rewrite <- E. now apply in_map.
Qed.

Lemma reported_snoc_same rows m ty s :
  ~ In (m, ty) (map fst rows) ->
  Series.reported (rows ++ [((m, ty), s)]) m ty = Js.Number_or_0 s.
Proof.
  intros N. unfold Series.reported. rewrite find_snoc.
  destruct (find _ rows) as [row |] eqn:F.
  - apply find_some in F as [I E]. apply month_type_eqb_eq in E.
    destruct N. rewrite <- E. now apply in_map.
  - simpl. now rewrite month_type_eqb_refl.
Qed.

Lemma reported_present rows m ty s :
  NoDup (map fst rows) -> In ((m, ty), s) rows ->
  Series.reported rows m ty = Js.Number_or_0 s.
Proof.
  induction rows as [| row rows IH] using rev_ind; intros N I; [destruct I |].
  rewrite map_app in N. simpl in N. apply NoDup_remove in N as [N Hnot].
  rewrite app_nil_r in N, Hnot.
  apply in_app_or in I as [I | [-> | []]].
  - destruct row as [k s']. rewrite reported_snoc_other; [now apply IH |].
    intros ->. destruct Hnot. apply in_map_iff. now exists ((m, ty), s).
  - now apply reported_snoc_same.
Qed.

Lemma forEach_row_keys o m ty s :
  map fst (Storage.forEach_row o ((m, ty), s))
  = match Storage.obj_get o m with
    | Some _ => map fst o
    | None => map fst o ++ [m]
    end.
Proof.
  unfold Storage.forEach_row. simpl.
  destruct (Storage.obj_get o m) as [data |] eqn:G.
  - rewrite G. destruct ty; rewrite obj_keys_set, G; reflexivity.
  - rewrite obj_get_set, String.eqb_refl.
    destruct ty; rewrite obj_keys_set, obj_get_set, String.eqb_refl, obj_keys_set, G;
      reflexivity.
Qed.

Lemma forEach_row_get o m ty s m' :
  Storage.obj_get (Storage.forEach_row o ((m, ty), s)) m'
  = if String.eqb m m'
    then
      let data := match Storage.obj_get o m with
                  | Some data => data
                  | None => Storage.mkMonthTotals 0%float 0%float
                  end in
      Some match ty with
           | Schema.t_income =>
               Storage.mkMonthTotals (Js.Number_or_0 s) (Storage.mt_expenses data)
           | Schema.t_expense =>
               Storage.mkMonthTotals (Storage.mt_income data) (Js.Number_or_0 s)
           end
    else Storage.obj_get o m'.
Proof.
  unfold Storage.forEach_row. simpl.
  destruct (Storage.obj_get o m) as [data |] eqn:G.
  - rewrite G. destruct ty; rewrite obj_get_set; reflexivity.
  - rewrite obj_get_set, String.eqb_refl.
    destruct ty; rewrite !obj_get_set; destruct (String.eqb m m'); reflexivity.
Qed.

Lemma loop_invariant_holds
    (rows : list ((string * Schema.transaction_type) * option Z)) :
  NoDup (map fst rows) ->
  StronglySorted
    (fun a b => String.leb (Storage.month_key (fst a)) (Storage.month_key (fst b)) = true)
    rows ->
  Series.loop_invariant rows (fold_left Storage.forEach_row rows []).
Proof.
  induction rows as [| [[m ty] s] rows IH] using rev_ind; intros N S.
  - repeat split; simpl.
    + intros [].
    + intros (row & [] & _).
    + discriminate.
    + discriminate.
    + constructor.
  - rewrite map_app in N. simpl in N. apply NoDup_remove in N as [N Fresh].
    rewrite app_nil_r in N, Fresh.
    apply StronglySorted_snoc_inv in S as [S Below].
    destruct (IH N S) as (Keys & Vals & Sorted). clear IH.
    rewrite fold_left_app. simpl fold_left.
    set (o := fold_left Storage.forEach_row rows []) in *.
    assert (Absent : Storage.obj_get o m = None ->
                     forall ty', ~ In (m, ty') (map fst rows)).
    { intros G ty' I. apply obj_get_None in G. apply G, Keys.
      apply in_map_iff in I as (row & E & I). exists row. now rewrite E. }
    split; [| split].
    + intros m'. rewrite forEach_row_keys.
      assert (Q : (exists row, In row (rows ++ [((m, ty), s)]) /\ fst (fst row) = m')
                  <-> (exists row, In row rows /\ fst (fst row) = m') \/ m = m').
      { split.
        - intros (row & I & E). apply in_app_or in I as [I | [<- | []]];
            [left; now exists row | now right].
        - intros [(row & I & E) | <-].
          + exists row. split; [apply in_or_app; now left | exact E].
          + exists ((m, ty), s). split; [apply in_or_app; right; now left | reflexivity]. }
      rewrite Q, <- Keys.
      destruct (Storage.obj_get o m) as [data |] eqn:G.
      * split; [now left |]. intros [I | <-]; [exact I |].
        destruct (in_dec string_dec m (map fst o)) as [I | I]; [exact I |].
        apply obj_get_None in I. congruence.
      * rewrite in_app_iff. simpl. tauto.
    + intros m' data'. rewrite forEach_row_get.
      destruct (String.eqb m m') eqn:E.
      * apply String.eqb_eq in E. subst m'. intros H. injection H as <-.
        destruct (Storage.obj_get o m) as [data |] eqn:G.
        -- destruct (Vals m data G) as [Vi Ve].
           destruct ty; simpl; split.
           ++ symmetry. now apply reported_snoc_same.
           ++ rewrite reported_snoc_other; [exact Ve | discriminate].
           ++ rewrite reported_snoc_other; [exact Vi | discriminate].
           ++ symmetry. now apply reported_snoc_same.
        -- destruct ty; simpl; split.
           ++ symmetry. now apply reported_snoc_same.
           ++ rewrite reported_snoc_other by discriminate.
              symmetry. now apply reported_absent, Absent.
           ++ rewrite reported_snoc_other by discriminate.
              symmetry. now apply reported_absent, Absent.
           ++ symmetry. now apply reported_snoc_same.
      * apply String.eqb_neq in E. intros G. destruct (Vals m' data' G) as [Vi Ve].
        rewrite !reported_snoc_other by congruence. now split.
    + rewrite forEach_row_keys.
      destruct (Storage.obj_get o m) as [data |] eqn:G; [exact Sorted |].
      apply StronglySorted_snoc; [exact Sorted |].
      apply Forall_forall. intros k I.
      apply string_leb_neq_ltb.
      * apply Keys in I as (row & I & <-).
        rewrite Forall_forall in Below. apply (Below row I).
      * intros ->. apply obj_get_None in G. contradiction.
Qed.

(** ** The monthly series *)

(** *** Calendar days and the clock of the host *)

Lemma iter_invariant {A : Type} (P : A -> Prop) (f : A -> A) (n : nat) (x : A) :
  (forall y, P y -> P (f y)) -> P x -> P (Nat.iter n f x).
Proof. intros F H. induction n as [| n IH]; simpl; auto. Qed.

Lemma nextDay_ok (d : Js.Date) : Aggregate.day_ok d -> Aggregate.day_ok (Js.nextDay d).
Proof.
  unfold Aggregate.day_ok, Js.nextDay. intros (Hm & Hd).
  pose proof (daysInMonth_bounds (Js.fullYear d) (Js.monthIndex d + 1 + 1)) as B1.
  pose proof (daysInMonth_bounds (Js.fullYear d + 1) (0 + 1)) as B2.
  destruct (Js.dayOfMonth d <? _) eqn:E1; [| destruct (Js.monthIndex d =? 11) eqn:E2];
    cbn [Js.fullYear Js.monthIndex Js.dayOfMonth]; lia.
Qed.

Lemma previousDay_ok (d : Js.Date) :
  Aggregate.day_ok d -> Aggregate.day_ok (Js.previousDay d).
Proof.
  unfold Aggregate.day_ok, Js.previousDay. intros (Hm & Hd).
  pose proof (daysInMonth_bounds (Js.fullYear d) (Js.monthIndex d)) as B1.
  destruct (1 <? Js.dayOfMonth d) eqn:E1; [| destruct (Js.monthIndex d =? 0) eqn:E2];
    cbn [Js.fullYear Js.monthIndex Js.dayOfMonth].
  - lia.
  - change (Js.daysInMonth (Js.fullYear d - 1) (11 + 1)) with 31. lia.
  - replace (Js.monthIndex d - 1 + 1) with (Js.monthIndex d) by lia. lia.
Qed.

Lemma addDays_ok (d : Js.Date) (n : Z) :
  Aggregate.day_ok d -> Aggregate.day_ok (Js.addDays d n).
Proof.
  intros H. unfold Js.addDays.
  destruct (0 <=? n); apply iter_invariant; auto using nextDay_ok, previousDay_ok.
Qed.

Lemma addDays_msInDay (d : Js.Date) (n : Z) :
  Js.msInDay (Js.addDays d n) = Js.msInDay d.
Proof.
  unfold Js.addDays.
  destruct (0 <=? n);
    apply (iter_invariant (fun x => Js.msInDay x = Js.msInDay d)); try reflexivity;
    intros y <-.
  - unfold Js.nextDay. destruct (_ <? _); [| destruct (_ =? _)]; reflexivity.
  - unfold Js.previousDay. destruct (_ <? _); [| destruct (_ =? _)]; reflexivity.
Qed.

Lemma atTime_ok (d : Js.Date) (t : Z) :
  Aggregate.day_ok d -> Aggregate.day_ok (Js.atTime d t).
Proof. intros H. unfold Js.atTime. apply addDays_ok. exact H. Qed.

Lemma atTime_msInDay (d : Js.Date) (t : Z) :
  Js.msInDay (Js.atTime d t) = t mod Js.msPerDay.
Proof. unfold Js.atTime. now rewrite addDays_msInDay. Qed.

Lemma MakeDay_ok (d : Js.Date) (m : Z) :
  Aggregate.day_ok d -> Aggregate.day_ok (Js.MakeDay d m).
Proof.
  intros (Hm & Hd). unfold Aggregate.day_ok, Js.MakeDay.
  set (y' := Js.fullYear d + m / 12).
  set (m' := m mod 12).
  assert (Bm : 0 <= m' < 12) by (apply Z.mod_pos_bound; lia).
  pose proof (daysInMonth_bounds (Js.fullYear d) (Js.monthIndex d + 1)) as B0.
  pose proof (daysInMonth_bounds y' (m' + 1)) as B1.
  pose proof (daysInMonth_bounds (y' + 1) (0 + 1)) as B2.
  pose proof (daysInMonth_bounds y' (m' + 1 + 1)) as B3.
  destruct (Js.dayOfMonth d <=? Js.daysInMonth y' (m' + 1)) eqn:E1;
    [| destruct (m' =? 11) eqn:E2];
    cbn [Js.fullYear Js.monthIndex Js.dayOfMonth]; lia.
Qed.

Lemma MakeDay_msInDay (d : Js.Date) (m : Z) :
  Js.msInDay (Js.MakeDay d m) = Js.msInDay d.
Proof.
  unfold Js.MakeDay. cbv zeta.
  destruct (_ <=? _); [| destruct (_ =? _)]; reflexivity.
Qed.

Lemma clock_day_ok (now : Js.Date) : Aggregate.clock_ok now -> Aggregate.day_ok now.
Proof. intros (_ & Hm & Hd). now split. Qed.

Lemma shifted_ok (tz : Js.TimeZone) (now : Js.Date) (months : Z) :
  Aggregate.day_ok now -> Aggregate.day_ok (Series.shifted tz now months).
Proof. intros H. apply MakeDay_ok, atTime_ok, H. Qed.

(** In UTC the local clock is the clock: a [Date] is moved on its own
    fields. *)
Lemma atTime_same (d : Js.Date) :
  0 <= Js.msInDay d < Js.msPerDay -> Js.atTime d (Js.msInDay d) = d.
Proof.
  intros H. unfold Js.atTime.
  rewrite (Z.mod_small _ _ H), (Z.div_small _ _ H). now destruct d.
Qed.

Lemma setMonth_zoneUTC (d : Js.Date) (m : Z) :
  0 <= Js.msInDay d < Js.msPerDay ->
  Js.setMonth Js.zoneUTC d m = Js.MakeDay d m.
Proof.
  intros H. unfold Js.setMonth, Js.UTC, Js.LocalTime, Js.zoneUTC, Js.zoneAt.
  cbn [Js.offsetAtUTC Js.offsetAtLocal]. rewrite Z.add_0_r, Z.sub_0_r.
  rewrite (atTime_same d H). apply atTime_same. now rewrite MakeDay_msInDay.
Qed.

(** On a host five and a half hours ahead of UTC, at 18:30 UTC on 31 March
    2024 the local date is 1 April: one month back is 1 March local time,
    which is still 29 February in UTC.  On a host in UTC the same moment
    is 31 March, and one month back runs over to 2 March. *)
Example start_of_ahead_of_UTC :
  Series.start_of (Js.zoneAt 19800000) (Js.mkDate 2024 2 31 66600000) 1
  = Pg.mkdate 2024 2 29
  /\ Series.start_of Js.zoneUTC (Js.mkDate 2024 2 31 66600000) 1
     = Pg.mkdate 2024 3 2.
Proof. split; reflexivity. Qed.

(** *** The start of the series *)

Lemma start_of_valid (tz : Js.TimeZone) (now : Js.Date) (months : Z) :
  Aggregate.clock_ok now ->
  1 <= Pg.year (Series.start_of tz now months) <= 9999 ->
  Pg.valid_date (Series.start_of tz now months) = true.
Proof.
  intros C. apply clock_day_ok in C.
  pose proof (atTime_ok _ (Js.msInDay (Series.shifted tz now months)
                           - Js.offsetAtLocal tz (Series.shifted tz now months))
                (shifted_ok tz now months C)) as (Hm & Hd).
  unfold Series.start_of, Js.UTC, Pg.valid_date. cbn [Pg.year Pg.month Pg.day].
  intros Y. lia.
Qed.

Lemma slice10_iso (d : Js.Date) :
  0 <= Js.fullYear d <= 9999 ->
  Js.slice0 10 (Js.toISOString d)
  = (Js.pad4 (Js.fullYear d) ++ "-" ++ Js.pad2 (Js.monthIndex d + 1) ++ "-"
       ++ Js.pad2 (Js.dayOfMonth d))%string.
Proof.
  intros H. unfold Js.toISOString, Js.isoYear.
  replace ((0 <=? Js.fullYear d) && (Js.fullYear d <=? 9999)) with true by lia.
  reflexivity.
Qed.

Lemma start_in (tz : Js.TimeZone) (now : Js.Date) (months : Z) :
  Aggregate.clock_ok now ->
  1 <= Pg.year (Series.start_of tz now months) <= 9999 ->
  Pg.date_in
    (Js.slice0 10 (Js.toISOString (Js.setMonth tz now (Js.getMonth tz now - months))))
  = Some (Series.start_of tz now months).
Proof.
  intros C Y. pose proof (start_of_valid tz now months C Y) as V.
  pose proof (valid_date_bounds _ V) as (_ & Bm & Bd).
  pose proof (daysInMonth_bounds (Pg.year (Series.start_of tz now months))
                (Pg.month (Series.start_of tz now months))) as B.
  unfold Series.start_of in *.
  change (Js.setMonth tz now (Js.getMonth tz now - months))
    with (Js.UTC tz (Series.shifted tz now months)).
  set (sd := Js.UTC tz (Series.shifted tz now months)) in *. clearbody sd.
  cbn [Pg.year Pg.month Pg.day] in *.
  rewrite slice10_iso by lia. rewrite date_in_iso by lia. now rewrite V.
Qed.

Lemma counted_since owner start m ty (r : Transaction.row) :
  Storage.since owner start r
  && Storage.month_type_eqb (Storage.month_type_of r) (m, ty)
  = Series.counted owner start m ty r.
Proof.
  unfold Storage.since, Sql.and_, Storage.month_type_eqb, Storage.month_type_of,
    Series.counted. cbn [forallb fst snd]. now rewrite andb_true_r, !andb_assoc.
Qed.

Section SeriesRows.
Variables (tbl : Storage.table) (owner : string) (start : Pg.date).

Lemma series_rows_perm :
  Permutation (Series.query_rows tbl owner start) (Series.groups tbl owner start).
Proof. apply orderBy_asc_perm. Qed.

Lemma series_rows_NoDup : NoDup (map fst (Series.query_rows tbl owner start)).
Proof.
  apply (Permutation_NoDup (l := map fst (Series.groups tbl owner start))).
  - apply Permutation_map. symmetry. apply series_rows_perm.
  - unfold Series.groups. rewrite groupBy_sum_keys.
    apply (distinct_NoDup _ month_type_eqb_eq).
Qed.

Lemma series_rows_key (m : string) (ty : Schema.transaction_type) :
  In (m, ty) (map fst (Series.query_rows tbl owner start))
  <-> exists r, In r tbl /\ Series.counted owner start m ty r = true.
Proof.
  assert (P : Permutation (map fst (Series.query_rows tbl owner start))
                (map fst (Series.groups tbl owner start)))
    by (apply Permutation_map, series_rows_perm).
  split.
  - intros I. apply (Permutation_in _ P) in I. unfold Series.groups in I.
    rewrite groupBy_sum_keys in I.
    apply (proj1 (distinct_In _ month_type_eqb_eq _ _)) in I.
    apply in_map_iff in I as (r & E & I). apply filter_In in I as [I Si].
    exists r. split; [exact I |]. rewrite <- counted_since, Si, E.
    rewrite month_type_eqb_refl. reflexivity.
  - intros (r & I & Cn). rewrite <- counted_since in Cn.
    apply andb_true_iff in Cn as [Si E]. apply month_type_eqb_eq in E.
    apply (Permutation_in _ (Permutation_sym P)). unfold Series.groups.
    rewrite groupBy_sum_keys. apply (distinct_In _ month_type_eqb_eq).
    rewrite <- E. apply in_map. apply filter_In. now split.
Qed.

Lemma series_reported (m : string) (ty : Schema.transaction_type) :
  Series.reported (Series.query_rows tbl owner start) m ty
  = Js.Number_of_decimal (Aggregate.total (Series.counted owner start m ty) tbl).
Proof.
  assert (F : filter (fun r => Storage.month_type_eqb (Storage.month_type_of r) (m, ty))
                (Series.selected tbl owner start)
              = filter (Series.counted owner start m ty) tbl).
  { unfold Series.selected. rewrite filter_andb. apply filter_ext. intros r.
    apply counted_since. }
  unfold Aggregate.total.
  destruct (filter (Series.counted owner start m ty) tbl) as [| r l] eqn:E.
  - rewrite reported_absent; [reflexivity |].
    intros I. apply series_rows_key in I as (r & I & Cn).
    assert (I' : In r (filter (Series.counted owner start m ty) tbl))
      by (apply filter_In; now split).
    rewrite E in I'. destruct I'.
  - assert (I : In r (filter (Series.counted owner start m ty) tbl))
      by (rewrite E; now left).
    apply filter_In in I as [I Cn].
    assert (K : In (m, ty) (map fst (Series.query_rows tbl owner start)))
      by (apply series_rows_key; now exists r).
    assert (G : In ((m, ty),
                    Pg.sum (map Transaction.amount
                      (filter (fun r => Storage.month_type_eqb
                                          (Storage.month_type_of r) (m, ty))
                         (Series.selected tbl owner start))))
                   (Series.query_rows tbl owner start)).
    { apply (Permutation_in _ (Permutation_sym series_rows_perm)).
      apply (groupBy_sum_In _ month_type_eqb_eq). split; [| reflexivity].
      apply (Permutation_in _ (Permutation_map fst series_rows_perm)) in K.
      unfold Series.groups in K. rewrite groupBy_sum_keys in K.
      now apply (proj1 (distinct_In _ month_type_eqb_eq _ _)) in K. }
    rewrite (reported_present _ _ _ _ series_rows_NoDup G), F.
    apply Number_or_0_sum.
Qed.

Lemma series_rows_sorted :
  StronglySorted
    (fun a b : (string * Schema.transaction_type) * option Z =>
       String.leb (Storage.month_key (fst a)) (Storage.month_key (fst b)) = true)
    (Series.query_rows tbl owner start).
Proof.
  apply (orderBy_asc_sorted
           (fun row : (string * Schema.transaction_type) * option Z =>
              Storage.month_key (fst row))).
Qed.
End SeriesRows.

Lemma counted_spec owner start m ty (r : Transaction.row) :
  Series.counted owner start m ty r = true
  <-> Transaction.userId r = owner
      /\ Pg.date_leb start (Transaction.date r) = true
      /\ Pg.to_char_YYYY_MM (Transaction.date r) = m
      /\ Transaction.type r = ty.
Proof.
  unfold Series.counted.
  rewrite !andb_true_iff, !String.eqb_eq, transaction_type_eqb_eq. tauto.
Qed.

(** C3, as stated, fails: on 15 June 2024 (host in UTC) with [months = 1]
    the series has an entry for May and one for July, although neither
    month is among the one calendar month ending with the current month,
    in which the owner has no transaction. *)
Lemma C3_months_outside_range :
  Storage.getIncomeVsExpenses Js.zoneUTC Sample.around_june "alice" 1 Sample.jun_15
  = Ok [Storage.mkMonthEntry "2024-05" 0%float 20%float;
        Storage.mkMonthEntry "2024-07" 50%float 0%float]
  /\ forall r, In r Sample.around_june ->
               Aggregate.in_month 2024 6 (Transaction.date r) = false.
Proof.
  split; [vm_compute; reflexivity |].
  intros r [<- | [<- | []]]; reflexivity.
Qed.

(** C3, amended: in every time zone of the host, when the clock and the
    start day lie in the years 1 to 9999 and so do the stored dates, the
    call succeeds and the series is taken over the transactions of the
    owner dated on or after the start day, with no upper bound.  The start
    day is found as the code finds it: the local date and time of the
    host, [months] months back (the same day of the month, running over
    into the following month when that month is too short), and of that
    moment the day in UTC.  The series holds exactly one entry for each
    calendar month in which there is such a transaction, and none for any
    other month; the entries are in strictly ascending order of their
    month key, which is the order of the calendar months; the income and
    the expenses of an entry are the decimal sums of these transactions of
    that month and kind, converted to numbers, hence [0] for a kind without
    any. *)
Theorem C3_getIncomeVsExpenses (tz : Js.TimeZone) (tbl : Storage.table)
    (owner : string) (months : Z) (now : Js.Date) :
  Aggregate.clock_ok now ->
  1 <= Pg.year (Series.start_of tz now months) <= 9999 ->
  Aggregate.dates_valid tbl ->
  exists res,
    Storage.getIncomeVsExpenses tz tbl owner months now = Ok res
    /\ (forall m, In m (map Storage.me_month res)
                  <-> exists r, In r tbl
                                /\ Transaction.userId r = owner
                                /\ Pg.date_leb (Series.start_of tz now months)
                                     (Transaction.date r) = true
                                /\ Pg.to_char_YYYY_MM (Transaction.date r) = m)
    /\ StronglySorted (fun a b => String.ltb a b = true) (map Storage.me_month res)
    /\ NoDup (map Storage.me_month res)
    /\ (forall e, In e res ->
          Storage.me_income e
          = Js.Number_of_decimal
              (Aggregate.total
                 (Series.counted owner (Series.start_of tz now months)
                    (Storage.me_month e) Schema.t_income) tbl)
          /\ Storage.me_expenses e
             = Js.Number_of_decimal
                 (Aggregate.total
                    (Series.counted owner (Series.start_of tz now months)
                       (Storage.me_month e) Schema.t_expense) tbl))
    /\ (forall e ty, In e res ->
          (forall r, In r tbl ->
                     Series.counted owner (Series.start_of tz now months)
                       (Storage.me_month e) ty r = false) ->
          match ty with
          | Schema.t_income => Storage.me_income e
          | Schema.t_expense => Storage.me_expenses e
          end = 0%float)
    /\ (forall r1 r2, In r1 tbl -> In r2 tbl ->
          let d1 := Transaction.date r1 in
          let d2 := Transaction.date r2 in
          (Pg.to_char_YYYY_MM d1 = Pg.to_char_YYYY_MM d2
           <-> Pg.year d1 = Pg.year d2 /\ Pg.month d1 = Pg.month d2)
          /\ (String.ltb (Pg.to_char_YYYY_MM d1) (Pg.to_char_YYYY_MM d2) = true
              <-> Pg.year d1 < Pg.year d2
                  \/ (Pg.year d1 = Pg.year d2 /\ Pg.month d1 < Pg.month d2))).
Proof.
  intros C Y V. unfold Storage.getIncomeVsExpenses, Sql.param.
  rewrite (start_in tz now months C Y). cbn [bind].
  set (start := Series.start_of tz now months).
  change (Sql.orderBy_asc String.leb _ _) with (Series.query_rows tbl owner start).
  set (rows := Series.query_rows tbl owner start).
  set (o := fold_left Storage.forEach_row rows []).
  destruct (loop_invariant_holds rows (series_rows_NoDup tbl owner start)
              (series_rows_sorted tbl owner start)) as (Keys & Vals & Sorted).
  fold o in Keys, Vals, Sorted.
  assert (M : map Storage.me_month
                (map (fun entry => Storage.mkMonthEntry (fst entry)
                                     (Storage.mt_income (snd entry))
                                     (Storage.mt_expenses (snd entry))) o)
              = map fst o).
  { rewrite map_map. apply map_ext. reflexivity. }
  assert (ND : NoDup (map fst o)) by now apply StronglySorted_lt_NoDup.
  assert (Sums : forall e,
             In e (map (fun entry => Storage.mkMonthEntry (fst entry)
                                       (Storage.mt_income (snd entry))
                                       (Storage.mt_expenses (snd entry))) o) ->
             Storage.me_income e
             = Js.Number_of_decimal
                 (Aggregate.total
                    (Series.counted owner start (Storage.me_month e) Schema.t_income) tbl)
             /\ Storage.me_expenses e
                = Js.Number_of_decimal
                    (Aggregate.total
                       (Series.counted owner start (Storage.me_month e)
                          Schema.t_expense) tbl)).
  { intros e I. apply in_map_iff in I as ([m data] & <- & I).
    cbn [Storage.me_income Storage.me_expenses Storage.me_month fst snd].
    destruct (Vals m data (obj_get_In o m data ND I)) as [Vi Ve].
    rewrite Vi, Ve. unfold rows. rewrite !series_reported. now split. }
  eexists. split; [reflexivity |]. rewrite M.
  split; [| split; [exact Sorted | split; [exact ND | split; [exact Sums | split]]]].
  - intros m. rewrite Keys. split.
    + intros ([[m' ty] s] & I & E). cbn [fst] in E. subst m'.
      assert (K : In (m, ty) (map fst rows)) by (apply in_map_iff; now exists ((m, ty), s)).
      apply series_rows_key in K as (r & I' & Cn).
      apply counted_spec in Cn as (H1 & H2 & H3 & _). now exists r.
    + intros (r & I & H1 & H2 & H3).
      assert (K : In (m, Transaction.type r) (map fst rows)).
      { apply series_rows_key. exists r. split; [exact I |]. now apply counted_spec. }
      apply in_map_iff in K as (row & E & K). exists row. split; [exact K |].
      now rewrite E.
  - intros e ty I None_.
    assert (T : Aggregate.total
                  (Series.counted owner start (Storage.me_month e) ty) tbl = 0).
    { unfold Aggregate.total. now rewrite (filter_none _ _ None_). }
    destruct (Sums e I) as [Si Se]. destruct ty; [rewrite Si | rewrite Se];
      rewrite T; reflexivity.
  - intros r1 r2 I1 I2. split.
    + apply month_key_eq; now apply V.
    + apply month_key_lt; now apply V.
Qed.

Lemma C3_getIncomeVsExpenses_witness :
  exists res,
    Storage.getIncomeVsExpenses (Js.zoneAt 19800000) Sample.ledger "alice" 6
      Sample.jun_15 = Ok res
    /\ NoDup (map Storage.me_month res).
Proof.
  destruct (C3_getIncomeVsExpenses (Js.zoneAt 19800000) Sample.ledger "alice" 6
              Sample.jun_15)
    as (res & E & _ & _ & N & _).
  - repeat split; vm_compute; discriminate.
  - split; vm_compute; discriminate.
  - intros r [<- | [<- | [<- | []]]]; reflexivity.
  - exists res. split; assumption.
Defined.

Example series_of_ledger :
  Storage.getIncomeVsExpenses Js.zoneUTC Sample.ledger "alice" 6 Sample.jun_15
  = Ok [Storage.mkMonthEntry "2024-01" 1000%float 300%float;
        Storage.mkMonthEntry "2024-02" 0%float 150%float].
Proof. vm_compute. reflexivity. Qed.

(** * Further properties of the store *)

(** ** Order of the listing *)

Lemma date_leb_total (a b : Pg.date) :
  Pg.date_leb a b = true \/ Pg.date_leb b a = true.
Proof. unfold Pg.date_leb. lia. Qed.

Lemma date_leb_trans (a b c : Pg.date) :
  Pg.date_leb a b = true -> Pg.date_leb b c = true -> Pg.date_leb a c = true.
Proof. unfold Pg.date_leb. lia. Qed.

Section SortedBy.
Context {R K : Type} (leb : K -> K -> bool) (key : R -> K).
Hypothesis leb_total : forall a b, leb a b = true \/ leb b a = true.
Hypothesis leb_trans : forall a b c, leb a b = true -> leb b c = true -> leb a c = true.

Lemma insert_desc_sorted_by (x : R) (l : list R) :
  StronglySorted (fun a b => leb (key b) (key a) = true) l ->
  StronglySorted (fun a b => leb (key b) (key a) = true) (Sql.insert_desc leb key x l).
Proof.
  induction l as [| y l IH]; intros S; simpl.
  - constructor; constructor.
  - inversion S as [| ? ? S' F]; subst.
    destruct (leb (key y) (key x)) eqn:E.
    + constructor; [exact S |]. constructor; [exact E |].
      eapply Forall_impl; [| exact F]. intros z Hz. cbv beta in *.
      eapply leb_trans; eassumption.
    + constructor; [now apply IH |].
      assert (Hxy : leb (key x) (key y) = true)
        by (destruct (leb_total (key x) (key y)); congruence).
      eapply Permutation_Forall; [symmetry; apply insert_desc_perm |].
      constructor; assumption.
Qed.

Lemma orderBy_desc_sorted_by (l : list R) :
  StronglySorted (fun a b => leb (key b) (key a) = true) (Sql.orderBy_desc leb key l).
Proof.
  induction l as [| x l IH]; simpl; [constructor | now apply insert_desc_sorted_by].
Qed.

Lemma insert_asc_sorted_by (x : R) (l : list R) :
  StronglySorted (fun a b => leb (key a) (key b) = true) l ->
  StronglySorted (fun a b => leb (key a) (key b) = true) (Sql.insert_asc leb key x l).
Proof.
  induction l as [| y l IH]; intros S; simpl.
  - constructor; constructor.
  - inversion S as [| ? ? S' F]; subst.
    destruct (leb (key x) (key y)) eqn:E.
    + constructor; [exact S |]. constructor; [exact E |].
      eapply Forall_impl; [| exact F]. intros z Hz. cbv beta in *.
      eapply leb_trans; eassumption.
    + constructor; [now apply IH |].
      assert (Hyx : leb (key y) (key x) = true)
        by (destruct (leb_total (key x) (key y)); congruence).
      eapply Permutation_Forall; [symmetry; apply insert_asc_perm |].
      constructor; assumption.
Qed.

Lemma orderBy_asc_sorted_by (l : list R) :
  StronglySorted (fun a b => leb (key a) (key b) = true) (Sql.orderBy_asc leb key l).
Proof.
  induction l as [| x l IH]; simpl; [constructor | now apply insert_asc_sorted_by].
Qed.
End SortedBy.

(** Whatever the filter, a successful listing is the table filtered by a
    condition that implies ownership, in descending order of date. *)
Lemma getTransactions_inv (tbl : Storage.table) (owner : string)
    (filters : option Filters.t) (l : list Transaction.row) :
  Storage.getTransactions tbl owner filters = Ok l ->
  exists conditions,
    (forall tbl', Storage.getTransactions tbl' owner filters
                  = Ok (Sql.orderBy_desc Pg.date_leb Transaction.date
                          (filter (Sql.and_ conditions) tbl')))
    /\ (forall r, Sql.and_ conditions r = true -> Spec.owned_by owner r = true).
Proof.
  unfold Storage.getTransactions.
  set (c0 := [fun r : Transaction.row => (Transaction.userId r =? owner)%string]).
  assert (G : forall (A : Type) field (conv : string -> option A) ty cond cs cs',
             Storage.push_if field conv ty cond cs = Ok cs' ->
             forall r, Sql.and_ cs' r = true -> Sql.and_ cs r = true).
  { intros A field conv ty cond cs cs' E r. unfold Storage.push_if in E.
    destruct (Js.truthy field); [| injection E as <-; trivial].
    destruct field as [s |]; [| injection E as <-; trivial].
    unfold Sql.param in E. destruct (conv s); [| discriminate].
    simpl in E. injection E as <-. rewrite and_app, andb_true_iff. tauto. }
  destruct (Storage.push_if _ _ _ _ c0) as [c1 |] eqn:E1; [| discriminate]. cbn [bind].
  destruct (Storage.push_if _ _ _ _ c1) as [c2 |] eqn:E2; [| discriminate]. cbn [bind].
  destruct (Storage.push_if _ _ _ _ c2) as [c3 |] eqn:E3; [| discriminate]. cbn [bind].
  destruct (Storage.push_if _ _ _ _ c3) as [c4 |] eqn:E4; [| discriminate]. cbn [bind].
  intros _. exists c4. split; [reflexivity |].
  intros r S.
  apply (G _ _ _ _ _ _ _ E4), (G _ _ _ _ _ _ _ E3), (G _ _ _ _ _ _ _ E2),
        (G _ _ _ _ _ _ _ E1) in S.
  unfold c0, Sql.and_ in S. simpl in S. now rewrite andb_true_r in S.
Qed.

(** X1: whatever the filter, the list that [getTransactions] returns is in
    descending order of date: each row is dated no earlier than every row
    after it. *)
Theorem getTransactions_sorted (tbl : Storage.table) (owner : string)
    (filters : option Filters.t) (l : list Transaction.row) :
  Storage.getTransactions tbl owner filters = Ok l ->
  StronglySorted
    (fun a b => Pg.date_leb (Transaction.date b) (Transaction.date a) = true) l.
Proof.
  intros E. destruct (getTransactions_inv _ _ _ _ E) as (conditions & Sh & _).
  rewrite Sh in E. injection E as <-.
  apply (orderBy_desc_sorted_by Pg.date_leb Transaction.date date_leb_total date_leb_trans).
Qed.

Lemma getTransactions_sorted_witness :
  StronglySorted
    (fun a b => Pg.date_leb (Transaction.date b) (Transaction.date a) = true)
    [Sample.tx "t3" "alice" Schema.t_expense 15000 Schema.c_food 2024 2 5;
     Sample.tx "t2" "alice" Schema.t_expense 30000 Schema.c_other 2024 1 20;
     Sample.tx "t1" "alice" Schema.t_income 100000 Schema.c_salary 2024 1 15].
Proof.
  apply (getTransactions_sorted Sample.shared "alice" None). reflexivity.
Defined.

Lemma sorted_firstn_skipn {A : Type} (R : A -> A -> Prop) (n : nat) (l : list A) :
  StronglySorted R l ->
  forall a b, In a (firstn n l) -> In b (skipn n l) -> R a b.
Proof.
  revert l. induction n as [| n IH]; intros l S a b Ia Ib; [destruct Ia |].
  destruct l as [| x l]; [destruct Ia |].
  inversion S as [| ? ? S' F]; subst. simpl in Ia, Ib. destruct Ia as [<- | Ia].
  - rewrite Forall_forall in F. apply F.
    rewrite <- (firstn_skipn n l). apply in_or_app. now right.
  - now apply (IH l S').
Qed.

(** X2: the dashboard page shows at most five transactions, and they are
    the latest of the owner: of the list that [GET /api/transactions]
    answers without query parameters, each transaction shown is dated no
    earlier than every one that is not shown, and belongs to the owner;
    with five or fewer transactions all are shown. *)
Theorem recent_are_latest (tbl : Storage.table) (owner : string)
    (l : list Transaction.row) :
  Routes.get_transactions tbl owner (Filters.mk None None None None)
  = Routes.Json 200 l ->
  (List.length (Client.recent l) <= 5)%nat
  /\ (forall a b, In a (Client.recent l) -> In b (skipn 5 l) ->
                  Pg.date_leb (Transaction.date b) (Transaction.date a) = true)
  /\ (forall r, In r (Client.recent l) -> In r tbl /\ Transaction.userId r = owner)
  /\ ((List.length l <= 5)%nat -> Client.recent l = l).
Proof.
  unfold Routes.get_transactions. cbn [Filters.startDate Filters.endDate
                                       Filters.category Filters.type].
  destruct (Storage.getTransactions tbl owner _) as [l' | msg] eqn:E;
    [| discriminate].
  intros J. injection J as ->.
  unfold Client.recent. split; [apply firstn_le_length |]. split; [| split].
  - destruct (getTransactions_inv _ _ _ _ E) as (conditions & Sh & _).
    pose proof E as E'. rewrite Sh in E'. injection E' as <-.
    apply (sorted_firstn_skipn _ 5).
    apply (orderBy_desc_sorted_by Pg.date_leb Transaction.date date_leb_total
             date_leb_trans).
  - intros r I. apply (getTransactions_owned _ _ _ _ E).
    rewrite <- (firstn_skipn 5 l). apply in_or_app. now left.
  - intros H. now apply firstn_all2.
Qed.

Lemma recent_are_latest_witness :
  let l := [Sample.tx "t3" "alice" Schema.t_expense 15000 Schema.c_food 2024 2 5;
            Sample.tx "t2" "alice" Schema.t_expense 30000 Schema.c_other 2024 1 20;
            Sample.tx "t1" "alice" Schema.t_income 100000 Schema.c_salary 2024 1 15] in
  Routes.get_transactions Sample.shared "alice" (Filters.mk None None None None)
  = Routes.Json 200 l
  /\ (forall r, In r (Client.recent l) ->
                In r Sample.shared /\ Transaction.userId r = "alice").
Proof.
  split; [reflexivity |].
  apply (recent_are_latest Sample.shared "alice"). reflexivity.
Defined.

(** ** Composition of the transaction operations *)

(** X3: a transaction that [createTransaction] has inserted is returned by
    the next unfiltered listing of its owner, together with exactly the
    rows the owner had before. *)
Theorem create_then_list (users : list User.row) (tbl : Storage.table)
    (transaction : InsertTransaction.t) (owner id : string) (now : Js.Date)
    (tbl' : Storage.table) (created : Transaction.row) :
  Storage.createTransaction users tbl transaction owner id now = Ok (tbl', created) ->
  exists l,
    Storage.getTransactions tbl' owner None = Ok l
    /\ In created l
    /\ (forall r, In r l <-> r = created \/ (In r tbl /\ Transaction.userId r = owner))
    /\ List.length l = S (List.length (filter (Spec.owned_by owner) tbl)).
Proof.
  intros E. apply createTransaction_inv in E as (-> & _ & U & _).
  rewrite getTransactions_no_filter. eexists. split; [reflexivity |].
  pose proof (orderBy_desc_perm Pg.date_leb Transaction.date
                (filter (Spec.owned_by owner) (tbl ++ [created]))) as P.
  assert (O : Spec.owned_by owner created = true)
    by (unfold Spec.owned_by; now apply String.eqb_eq).
  assert (M : forall r, In r (filter (Spec.owned_by owner) (tbl ++ [created]))
                        <-> r = created \/ (In r tbl /\ Transaction.userId r = owner)).
  { intros r. rewrite filter_In, in_app_iff. unfold Spec.owned_by at 1.
    rewrite String.eqb_eq. simpl. split.
    - intros [[I | [<- | []]] Hu]; [right | left]; auto.
    - intros [-> | [I Hu]]; [split; [right; now left | exact U] | split; [now left | exact Hu]]. }
  split; [| split].
  - apply (Permutation_in _ (Permutation_sym P)). apply M. now left.
  - intros r. rewrite <- M. split; apply Permutation_in; [| symmetry]; exact P.
  - rewrite (Permutation_length P), filter_app, length_app. simpl. rewrite O.
    simpl. lia.
Qed.

Lemma create_then_list_witness :
  exists l,
    Storage.getTransactions (Sample.ledger ++ [More.refund_row]) "alice" None = Ok l
    /\ In More.refund_row l.
Proof.
  destruct (create_then_list Sample.people Sample.ledger More.refund_data "alice" "t9"
              Sample.jan_25
              (Sample.ledger ++ [More.refund_row]) More.refund_row eq_refl)
    as (l & E & I & _).
  exists l. split; assumption.
Defined.

Lemma set_transaction_is id owner updates amount date now (r : Transaction.row) :
  Storage.transaction_is id owner (Storage.set_transaction updates amount date now r)
  = Storage.transaction_is id owner r.
Proof. reflexivity. Qed.

Lemma set_transaction_idem updates amount date now (r : Transaction.row) :
  Storage.set_transaction updates amount date now
    (Storage.set_transaction updates amount date now r)
  = Storage.set_transaction updates amount date now r.
Proof.
  unfold Storage.set_transaction. simpl.
  destruct (TransactionUpdates.type updates), (TransactionUpdates.description updates),
    amount, (TransactionUpdates.category updates), date,
    (TransactionUpdates.currency updates); reflexivity.
Qed.

Lemma filter_map_selected {R : Type} (p : R -> bool) (g : R -> R) (l : list R) :
  (forall r, p (g r) = p r) ->
  filter p (map (fun r => if p r then g r else r) l) = map g (filter p l).
Proof.
  intros H. induction l as [| r l IH]; simpl; [reflexivity |].
  destruct (p r) eqn:E; simpl.
  - rewrite H, E. simpl. now rewrite IH.
  - rewrite E. exact IH.
Qed.

(** X4: the primary key survives every write: when the ids of the table
    are pairwise distinct, they still are after a successful
    [createTransaction], after [updateTransaction] and after
    [deleteTransaction]; an update changes neither the number of rows nor
    the id or the owner of any row. *)
Theorem transaction_ids_stay_unique (tbl : Storage.table) (owner id : string) :
  NoDup (map Transaction.id tbl) ->
  (forall users transaction now tbl' created,
      Storage.createTransaction users tbl transaction owner id now
      = Ok (tbl', created) ->
      NoDup (map Transaction.id tbl'))
  /\ (forall updates now tbl' ret,
         Storage.updateTransaction tbl id owner updates now = Ok (tbl', ret) ->
         map Transaction.id tbl' = map Transaction.id tbl
         /\ map Transaction.userId tbl' = map Transaction.userId tbl
         /\ NoDup (map Transaction.id tbl'))
  /\ (forall tbl' removed,
         Storage.deleteTransaction tbl id owner = Ok (tbl', removed) ->
         NoDup (map Transaction.id tbl')).
Proof.
  intros N. split; [| split].
  - intros users transaction now tbl' created E.
    apply createTransaction_inv in E as (-> & Hid & _ & _ & _ & Fresh & _).
    rewrite map_app. simpl. apply NoDup_app; [exact N | repeat constructor; intros [] |].
    intros x I [<- | []]. apply in_map_iff in I as (r & Er & I).
    apply (Fresh r I). congruence.
  - intros updates now tbl' ret E.
    apply updateTransaction_inv in E as (amount & date & -> & _).
    assert (Hi : map Transaction.id
                   (map (fun r => if Storage.transaction_is id owner r
                                  then Storage.set_transaction updates amount date now r
                                  else r) tbl)
                 = map Transaction.id tbl).
    { rewrite map_map. apply map_ext. intros r.
      now destruct (Storage.transaction_is id owner r). }
    split; [exact Hi |]. split; [| now rewrite Hi].
    rewrite map_map. apply map_ext. intros r.
    now destruct (Storage.transaction_is id owner r).
  - intros tbl' removed E. unfold Storage.deleteTransaction in E. injection E as <- _.
    revert N. generalize (fun r => negb (Storage.transaction_is id owner r)).
    intros p N. induction tbl as [| r tbl IH]; simpl; [constructor |].
    inversion N as [| ? ? Hnot N']; subst.
    destruct (p r); simpl; [| now apply IH]. constructor; [| now apply IH].
    intros I. apply Hnot. apply in_map_iff in I as (r' & Er & I).
    apply filter_In in I as [I _]. rewrite <- Er. now apply in_map.
Qed.

Lemma transaction_ids_stay_unique_witness :
  NoDup (map Transaction.id Sample.shared)
  /\ forall tbl' removed,
       Storage.deleteTransaction Sample.shared "t2" "alice" = Ok (tbl', removed) ->
       NoDup (map Transaction.id tbl').
Proof.
  assert (N : NoDup (map Transaction.id Sample.shared))
    by (repeat constructor; simpl; intuition discriminate).
  split; [exact N |].
  apply (transaction_ids_stay_unique Sample.shared "alice" "t2" N).
Defined.

(** X5: deleting a transaction right after creating it gives back the
    table as it was before the insert, and answers [true]. *)
Theorem create_then_delete (users : list User.row) (tbl : Storage.table)
    (transaction : InsertTransaction.t) (owner id : string) (now : Js.Date)
    (tbl' : Storage.table) (created : Transaction.row) :
  Storage.createTransaction users tbl transaction owner id now = Ok (tbl', created) ->
  Storage.deleteTransaction tbl' id owner = Ok (tbl, true).
Proof.
  intros E. apply createTransaction_inv in E as (-> & Hid & U & _ & _ & Fresh & _).
  unfold Storage.deleteTransaction.
  assert (S : Storage.transaction_is id owner created = true)
    by now apply transaction_is_spec.
  assert (N : forall r, In r tbl -> Storage.transaction_is id owner r = false).
  { intros r I. destruct (Storage.transaction_is id owner r) eqn:Q; [| reflexivity].
    apply transaction_is_spec in Q as [Q _]. now destruct (Fresh r I). }
  rewrite !filter_app. simpl. rewrite S. simpl.
  rewrite (filter_none _ _ N), app_nil_r. simpl.
  rewrite filter_all; [reflexivity |]. intros r I. now rewrite (N r I).
Qed.

Lemma create_then_delete_witness :
  Storage.deleteTransaction (Sample.ledger ++ [More.refund_row]) "t9" "alice"
  = Ok (Sample.ledger, true).
Proof.
  apply (create_then_delete Sample.people Sample.ledger More.refund_data "alice" "t9"
           Sample.jan_25
           (Sample.ledger ++ [More.refund_row]) More.refund_row).
  reflexivity.
Defined.

(** X6: repeating an update changes nothing more: when [updateTransaction]
    has succeeded, the same call on the resulting table (same patch, same
    time) returns that table and the same row again. *)
Theorem update_is_idempotent (tbl : Storage.table) (id owner : string)
    (updates : TransactionUpdates.t) (now : Js.Date) (tbl' : Storage.table)
    (ret : option Transaction.row) :
  Storage.updateTransaction tbl id owner updates now = Ok (tbl', ret) ->
  Storage.updateTransaction tbl' id owner updates now = Ok (tbl', ret)
  /\ List.length tbl' = List.length tbl.
Proof.
  unfold Storage.updateTransaction.
  destruct (Sql.param_opt Pg.numeric_in _ _) as [amount |]; [| discriminate].
  destruct (Sql.param_opt Pg.date_in _ _) as [date |]; [| discriminate].
  cbn [bind]. intros E. injection E as <- <-. split; [| apply length_map].
  set (set := Storage.set_transaction updates amount date now).
  set (p := Storage.transaction_is id owner).
  assert (Hp : forall r, p (set r) = p r) by reflexivity.
  rewrite (filter_map_selected p set tbl Hp). apply f_equal. apply f_equal2.
  - rewrite map_map. apply map_ext. intros r. destruct (p r) eqn:Q.
    + rewrite Hp, Q. apply set_transaction_idem.
    + now rewrite Q.
  - rewrite map_map. apply f_equal. apply map_ext. intros r.
    apply set_transaction_idem.
Qed.

Lemma update_is_idempotent_witness :
  exists tbl' ret,
    Storage.updateTransaction Sample.ledger "t2" "alice" More.touch Sample.jun_15
    = Ok (tbl', ret)
    /\ Storage.updateTransaction tbl' "t2" "alice" More.touch Sample.jun_15
       = Ok (tbl', ret).
Proof.
  eexists. eexists. split; [reflexivity |].
  apply (update_is_idempotent Sample.ledger "t2" "alice" More.touch Sample.jun_15).
  reflexivity.
Defined.

(** ** Reads see the rows of the caller only *)

Lemma push_if_weakens {A : Type} field (conv : string -> option A) ty cond cs cs' :
  Storage.push_if field conv ty cond cs = Ok cs' ->
  forall r, Sql.and_ cs' r = true -> Sql.and_ cs r = true.
Proof.
  intros E r. unfold Storage.push_if in E.
  destruct (Js.truthy field); [| injection E as <-; trivial].
  destruct field as [s |]; [| injection E as <-; trivial].
  unfold Sql.param in E. destruct (conv s); [| discriminate].
  simpl in E. injection E as <-. rewrite and_app, andb_true_iff. tauto.
Qed.

Lemma filter_owned_first (owner : string) (conditions : list (Transaction.row -> bool))
    (tbl : Storage.table) :
  filter (Sql.and_ ((fun r => String.eqb (Transaction.userId r) owner) :: conditions))
    (filter (Spec.owned_by owner) tbl)
  = filter (Sql.and_ ((fun r => String.eqb (Transaction.userId r) owner) :: conditions))
      tbl.
Proof.
  rewrite filter_andb. apply filter_ext. intros r.
  unfold Spec.owned_by, Sql.and_. simpl.
  now destruct (String.eqb (Transaction.userId r) owner).
Qed.

(** X7: every read made for an owner depends on the rows of that owner
    only: the listing, the dashboard summary, the expenses by category and
    the monthly series give the same answer (or the same failure) on the
    whole table as on the table reduced to the owner's rows, so rows of
    other owners never enter a result or a sum. *)
Theorem reads_depend_on_own_rows (tbl : Storage.table) (owner : string) :
  (forall filters,
      Storage.getTransactions tbl owner filters
      = Storage.getTransactions (filter (Spec.owned_by owner) tbl) owner filters)
  /\ (forall now,
         Storage.getDashboardData tbl owner now
         = Storage.getDashboardData (filter (Spec.owned_by owner) tbl) owner now)
  /\ (forall startDate endDate,
         Storage.getExpensesByCategory tbl owner startDate endDate
         = Storage.getExpensesByCategory (filter (Spec.owned_by owner) tbl) owner
             startDate endDate)
  /\ (forall tz months now,
         Storage.getIncomeVsExpenses tz tbl owner months now
         = Storage.getIncomeVsExpenses tz (filter (Spec.owned_by owner) tbl) owner
             months now).
Proof.
  split; [| split; [| split]].
  - intros filters. unfold Storage.getTransactions.
    set (c0 := [fun r : Transaction.row => (Transaction.userId r =? owner)%string]).
    destruct (Storage.push_if _ _ _ _ c0) as [c1 |] eqn:E1; [| reflexivity]. cbn [bind].
    destruct (Storage.push_if _ _ _ _ c1) as [c2 |] eqn:E2; [| reflexivity]. cbn [bind].
    destruct (Storage.push_if _ _ _ _ c2) as [c3 |] eqn:E3; [| reflexivity]. cbn [bind].
    destruct (Storage.push_if _ _ _ _ c3) as [c4 |] eqn:E4; [| reflexivity]. cbn [bind].
    do 2 f_equal. symmetry. apply filter_filter_frame. intros r S.
    apply (push_if_weakens _ _ _ _ _ _ E4), (push_if_weakens _ _ _ _ _ _ E3),
          (push_if_weakens _ _ _ _ _ _ E2), (push_if_weakens _ _ _ _ _ _ E1) in S.
    unfold c0, Sql.and_ in S. simpl in S. now rewrite andb_true_r in S.
  - intros now. unfold Storage.getDashboardData, Storage.monthly_total.
    destruct (Sql.param Pg.date_in _ _) as [lo |]; [| reflexivity]. cbn [bind].
    destruct (Sql.param Pg.date_in _ _) as [hi |]; [| reflexivity]. cbn [bind].
    now rewrite !filter_owned_first.
  - intros startDate endDate. unfold Storage.getExpensesByCategory.
    destruct (Sql.param Pg.date_in _ startDate) as [lo |]; [| reflexivity]. cbn [bind].
    destruct (Sql.param Pg.date_in _ endDate) as [hi |]; [| reflexivity]. cbn [bind].
    unfold Storage.expense_in_range. now rewrite filter_owned_first.
  - intros tz months now. unfold Storage.getIncomeVsExpenses.
    destruct (Sql.param Pg.date_in _ _) as [start |]; [| reflexivity]. cbn [bind].
    unfold Storage.since. now rewrite filter_owned_first.
Qed.

(** ** What the forms send *)

Lemma json_of_number_not_string (n : float) (s : string) :
  Client.json_of_number n <> Zod.JString s.
Proof.
  unfold Client.json_of_number.
  destruct (PrimFloat.is_nan n || PrimFloat.is_infinity n); discriminate.
Qed.

Lemma z_string_number (n : float) :
  Zod.z_string (Some (Client.json_of_number n)) = None.
Proof.
  apply z_string_None. intros s E. injection E as E.
  now apply json_of_number_not_string in E.
Qed.

Lemma optional_z_string_number (n : float) :
  Zod.optional Zod.z_string (Some (Client.json_of_number n)) = None.
Proof. unfold Zod.optional. now rewrite z_string_number. Qed.

Lemma z_string_nullish_number (n : float) :
  PrimFloat.is_nan n || PrimFloat.is_infinity n = false ->
  Zod.z_string_nullish (Some (Client.json_of_number n)) = None.
Proof. unfold Client.json_of_number. now intros ->. Qed.

(** X8: a request body in which [amount] is a JSON number or [null]
    instead of a string is refused by validation: [POST /api/transactions]
    and [PUT /api/transactions/:id] answer 400 and leave the table as it
    was.  The body that the transaction form builds,
    [{ ...data, amount: parseFloat(data.amount) }], is of this kind whatever
    the user has typed. *)
Theorem transaction_form_is_refused (parseFloat : string -> float)
    (data : Client.TransactionFormData) (users : list User.row)
    (tbl : Storage.table) (owner id : string) (now : Js.Date) :
  Routes.post_transactions users tbl owner (Client.transaction_request parseFloat data)
    id now
  = (tbl, Routes.Message 400 "Invalid transaction data")
  /\ Routes.put_transactions tbl owner id (Client.transaction_request parseFloat data) now
     = (tbl, Routes.Message 400 "Invalid transaction data").
Proof.
  split.
  - unfold Routes.post_transactions.
    rewrite insertTransactionSchema_parse_None; [reflexivity |].
    do 2 right. left. apply z_string_number.
  - unfold Routes.put_transactions, Zod.insertTransactionSchema_partial_parse.
    cbn [Client.transaction_request Zod.b_type Zod.b_description Zod.b_amount
         Zod.b_category Zod.b_date Zod.b_currency].
    rewrite optional_z_string_number.
    destruct (Zod.optional (Zod.z_enum Schema.transaction_type_in) _); [| reflexivity].
    reflexivity.
Qed.

(** X9: the budget form, the goal form and the "add money" action send
    their amounts as JSON numbers too, and are refused in the same way:
    [POST] and [PUT] on [/api/budgets] and [/api/goals] answer 400 to the
    bodies these build and leave the tables as they were. *)
Theorem budget_and_goal_forms_are_refused (parseFloat : string -> float)
    (owner id : string) (now : Js.Date) :
  (forall (data : Client.BudgetFormData) (users : list User.row)
          (tbl : list Budget.row),
      Api.post_budgets users tbl owner (Client.budget_request parseFloat data) id now
      = (tbl, Routes.Message 400 "Invalid budget data")
      /\ Api.put_budgets tbl owner id (Client.budget_request parseFloat data) now
         = (tbl, Routes.Message 400 "Invalid budget data"))
  /\ (forall (data : Client.GoalFormData) (users : list User.row)
             (tbl : list Goal.row),
         Api.post_goals users tbl owner (Client.goal_request parseFloat data) id now
         = (tbl, Routes.Message 400 "Invalid goal data")
         /\ Api.put_goals tbl owner id (Client.goal_request parseFloat data) now
            = (tbl, Routes.Message 400 "Invalid goal data"))
  /\ (forall (newCurrentAmount : float) (tbl : list Goal.row),
         PrimFloat.is_nan newCurrentAmount || PrimFloat.is_infinity newCurrentAmount
         = false ->
         Api.put_goals tbl owner id (Client.add_money_request newCurrentAmount) now
         = (tbl, Routes.Message 400 "Invalid goal data")).
Proof.
  split; [| split].
  - intros data users tbl. split.
    + unfold Api.post_budgets, Schemas.insertBudgetSchema_parse.
      cbn [Client.budget_request Schemas.bb_category Schemas.bb_amount].
      rewrite z_string_number.
      now destruct (Zod.z_enum Schema.category_in _).
    + unfold Api.put_budgets, Schemas.insertBudgetSchema_partial_parse.
      cbn [Client.budget_request Schemas.bb_category Schemas.bb_amount].
      rewrite optional_z_string_number.
      now destruct (Zod.optional (Zod.z_enum Schema.category_in) _).
  - intros data users tbl. split.
    + unfold Api.post_goals, Schemas.insertGoalSchema_parse.
      cbn [Client.goal_request Schemas.gb_name Schemas.gb_description
           Schemas.gb_targetAmount].
      rewrite z_string_number. cbn [Zod.z_string Pg.obind].
      now destruct (Zod.z_string_nullish _).
    + unfold Api.put_goals, Schemas.insertGoalSchema_partial_parse.
      cbn [Client.goal_request Schemas.gb_name Schemas.gb_description
           Schemas.gb_targetAmount].
      rewrite optional_z_string_number. cbn [Zod.optional Zod.z_string option_map Pg.obind].
      now destruct (Zod.z_string_nullish _).
  - intros n tbl F. unfold Api.put_goals, Schemas.insertGoalSchema_partial_parse.
    cbn [Client.add_money_request Schemas.gb_name Schemas.gb_description
         Schemas.gb_targetAmount Schemas.gb_currentAmount].
    now rewrite (z_string_nullish_number n F).
Qed.

Lemma budget_and_goal_forms_are_refused_witness :
  Api.put_goals More.goals "alice" "g1" (Client.add_money_request 150%float)
    Sample.jun_15
  = (More.goals, Routes.Message 400 "Invalid goal data").
Proof.
  apply (budget_and_goal_forms_are_refused (fun _ => 0%float) "alice" "g1" Sample.jun_15).
  reflexivity.
Defined.

(** ** Totals of the grouped queries *)

Section GroupTotals.
Context {R K : Type} (eqb : K -> K -> bool).
Hypothesis eqb_eq : forall a b, eqb a b = true <-> a = b.
Variables (key : R -> K) (value : R -> Z).

Lemma sum_pointwise_add (f g : K -> Z) (ks : list K) :
  fold_right Z.add 0 (map (fun k => f k + g k) ks)
  = fold_right Z.add 0 (map f ks) + fold_right Z.add 0 (map g ks).
Proof. induction ks as [| k ks IH]; simpl; lia. Qed.

Lemma sum_indicator (k0 : K) (v : Z) (ks : list K) :
  NoDup ks -> In k0 ks ->
  fold_right Z.add 0 (map (fun k => if eqb k0 k then v else 0) ks) = v.
Proof.
  induction ks as [| k ks IH]; intros N I; [destruct I |].
  inversion N as [| ? ? Hnot N']; subst. simpl. destruct I as [-> | I].
  - rewrite (proj2 (eqb_eq k0 k0) eq_refl).
    assert (Z0 : fold_right Z.add 0 (map (fun k => if eqb k0 k then v else 0) ks) = 0).
    { clear IH N N'. induction ks as [| k ks IH]; simpl; [reflexivity |].
      destruct (eqb k0 k) eqn:E.
      - apply eqb_eq in E. subst. destruct Hnot. now left.
      - rewrite IH; [reflexivity |]. intros I. apply Hnot. now right. }
    lia.
  - destruct (eqb k0 k) eqn:E.
    + apply eqb_eq in E. subst. contradiction.
    + rewrite (IH N' I). lia.
Qed.

Lemma groups_total (ks : list K) (rows : list R) :
  NoDup ks -> (forall r, In r rows -> In (key r) ks) ->
  fold_right Z.add 0
    (map (fun k => fold_right Z.add 0 (map value (filter (fun r => eqb (key r) k) rows)))
       ks)
  = fold_right Z.add 0 (map value rows).
Proof.
  intros N. induction rows as [| r rows IH]; intros C.
  - simpl. induction ks as [| k ks IHk]; simpl; [reflexivity |].
    inversion N; subst. now rewrite IHk.
  - simpl.
    rewrite (map_ext _
               (fun k => (if eqb (key r) k then value r else 0)
                         + fold_right Z.add 0
                             (map value (filter (fun r => eqb (key r) k) rows)))).
    2:{ intros k. now destruct (eqb (key r) k). }
    rewrite sum_pointwise_add, sum_indicator, IH; auto.
    + intros r' I. apply C. now right.
    + apply C. now left.
Qed.
End GroupTotals.

(** X10: the sums by category add up: for every range of calendar days the
    entries of [getExpensesByCategory] carry decimal sums whose total is
    the decimal total of all expenses of the owner dated in the range, so
    no expense is counted twice or left out. *)
Theorem expenses_by_category_add_up (tbl : Storage.table) (owner : string)
    (lo hi : Pg.date) :
  Pg.valid_date lo = true -> Pg.valid_date hi = true ->
  exists res sums,
    Storage.getExpensesByCategory tbl owner (Pg.date_out lo) (Pg.date_out hi) = Ok res
    /\ map Storage.ca_amount res = map Js.Number_of_decimal sums
    /\ fold_right Z.add 0 sums
       = Aggregate.total (Select.expense_between owner lo hi) tbl.
Proof.
  intros Vl Vh.
  set (sel := filter (Select.expense_between owner lo hi) tbl).
  set (keys := Sql.distinct Schema.category_eqb (map Transaction.category sel)).
  eexists.
  exists (map (fun k => fold_right Z.add 0
                          (map Transaction.amount
                             (filter (fun r => Schema.category_eqb (Transaction.category r) k)
                                sel))) keys).
  split; [apply (getExpensesByCategory_typed _ _ _ _ Vl Vh) |]. split.
  - unfold Sql.groupBy_sum. fold sel keys. rewrite !map_map. apply map_ext.
    intros k. simpl. apply Number_or_0_sum.
  - unfold Aggregate.total. fold sel.
    apply (groups_total Schema.category_eqb category_eqb_eq).
    + apply (distinct_NoDup _ category_eqb_eq).
    + intros r I. apply (distinct_In _ category_eqb_eq). now apply in_map.
Qed.

Lemma expenses_by_category_add_up_witness :
  exists res sums,
    Storage.getExpensesByCategory Sample.ledger "alice"
      (Pg.date_out (Pg.mkdate 2024 1 1)) (Pg.date_out (Pg.mkdate 2024 2 28)) = Ok res
    /\ map Storage.ca_amount res = map Js.Number_of_decimal sums
    /\ fold_right Z.add 0 sums = 45000.
Proof.
  destruct (expenses_by_category_add_up Sample.ledger "alice"
              (Pg.mkdate 2024 1 1) (Pg.mkdate 2024 2 28) eq_refl eq_refl)
    as (res & sums & E & A & T).
  exists res, sums. repeat split; assumption.
Defined.

(** X11: a range whose end lies before its start selects nothing:
    [getExpensesByCategory] then returns the empty list, not an error. *)
Theorem expenses_of_inverted_range (tbl : Storage.table) (owner : string)
    (lo hi : Pg.date) :
  Pg.valid_date lo = true -> Pg.valid_date hi = true ->
  Pg.date_leb lo hi = false ->
  Storage.getExpensesByCategory tbl owner (Pg.date_out lo) (Pg.date_out hi) = Ok [].
Proof.
  intros Vl Vh Inv. rewrite (getExpensesByCategory_typed _ _ _ _ Vl Vh).
  rewrite filter_none; [reflexivity |].
  intros r _. unfold Select.expense_between.
  destruct (Pg.date_leb lo (Transaction.date r)) eqn:A;
    [| now rewrite andb_false_r].
  destruct (Pg.date_leb (Transaction.date r) hi) eqn:B; [| now rewrite andb_false_r].
  rewrite (date_leb_trans _ _ _ A B) in Inv. discriminate.
Qed.

Lemma expenses_of_inverted_range_witness :
  Storage.getExpensesByCategory Sample.ledger "alice"
    (Pg.date_out (Pg.mkdate 2024 2 28)) (Pg.date_out (Pg.mkdate 2024 1 1)) = Ok [].
Proof.
  apply (expenses_of_inverted_range Sample.ledger "alice"); reflexivity.
Defined.

(** X12: the dashboard summary depends on the clock only through its year
    and month: two calls made at any two moments of the same calendar
    month give the same answer (or the same failure) on the same table. *)
Theorem dashboard_same_within_month (tbl : Storage.table) (owner : string)
    (now now' : Js.Date) :
  0 <= Js.fullYear now <= 9999 ->
  Js.fullYear now' = Js.fullYear now ->
  Js.monthIndex now' = Js.monthIndex now ->
  Storage.getDashboardData tbl owner now' = Storage.getDashboardData tbl owner now.
Proof.
  intros Y Ey Em. unfold Storage.getDashboardData.
  rewrite (currentMonth_iso now Y), (currentMonth_iso now') by (rewrite Ey; exact Y).
  now rewrite Ey, Em.
Qed.

Lemma dashboard_same_within_month_witness :
  Storage.getDashboardData Sample.ledger "alice" (Js.mkDate 2024 0 1 0)
  = Storage.getDashboardData Sample.ledger "alice" Sample.jan_25.
Proof.
  apply (dashboard_same_within_month Sample.ledger "alice"); [| reflexivity ..].
  split; vm_compute; discriminate.
Defined.

(** ** The look-back of the monthly series *)

Lemma date_leb_refl (a : Pg.date) : Pg.date_leb a a = true.
Proof. unfold Pg.date_leb. lia. Qed.

(** Moving the same day further back gives no later a day. *)
Lemma MakeDay_antitone (d : Js.Date) (x m1 m2 : Z) :
  m1 <= m2 ->
  Js.day_leb (Js.MakeDay d (x - m2)) (Js.MakeDay d (x - m1)) = true.
Proof.
  intros L. destruct (Z.eq_dec m1 m2) as [-> | Ne]; [unfold Js.day_leb; lia |].
  unfold Js.MakeDay.
  pose proof (Z.div_mod (x - m1) 12 ltac:(lia)) as D1.
  pose proof (Z.div_mod (x - m2) 12 ltac:(lia)) as D2.
  pose proof (Z.mod_pos_bound (x - m1) 12 ltac:(lia)) as B1.
  pose proof (Z.mod_pos_bound (x - m2) 12 ltac:(lia)) as B2.
  set (a1 := (x - m1) / 12) in *.
  set (b1 := (x - m1) mod 12) in *.
  set (a2 := (x - m2) / 12) in *.
  set (b2 := (x - m2) mod 12) in *.
  pose proof (daysInMonth_bounds (Js.fullYear d + a1) (b1 + 1)) as M1.
  pose proof (daysInMonth_bounds (Js.fullYear d + a2) (b2 + 1)) as M2.
  set (d1 := Js.daysInMonth (Js.fullYear d + a1) (b1 + 1)) in *.
  set (d2 := Js.daysInMonth (Js.fullYear d + a2) (b2 + 1)) in *.
  clearbody a1 b1 a2 b2 d1 d2.
  destruct (Js.dayOfMonth d <=? d1) eqn:O1;
    destruct (Js.dayOfMonth d <=? d2) eqn:O2;
    destruct (b1 =? 11) eqn:E1; destruct (b2 =? 11) eqn:E2;
    unfold Js.day_leb; cbn [Js.fullYear Js.monthIndex Js.dayOfMonth]; lia.
Qed.

Lemma nextDay_mono (a b : Js.Date) :
  Aggregate.day_ok a -> Aggregate.day_ok b ->
  Js.day_leb a b = true -> Js.day_leb (Js.nextDay a) (Js.nextDay b) = true.
Proof.
  destruct a as [ya ma da ta], b as [yb mb db tb].
  unfold Aggregate.day_ok, Js.day_leb, Js.nextDay.
  cbn [Js.fullYear Js.monthIndex Js.dayOfMonth Js.msInDay].
  intros (Ha & Ha') (Hb & Hb') L.
  pose proof (daysInMonth_bounds ya (ma + 1)) as B1.
  pose proof (daysInMonth_bounds yb (mb + 1)) as B2.
  destruct (Z.eq_dec ya yb) as [<- | Ny]; [destruct (Z.eq_dec ma mb) as [<- | Nm] |];
    repeat match goal with
           | |- context [if ?c then _ else _] => destruct c eqn:?
           end;
    cbn [Js.fullYear Js.monthIndex Js.dayOfMonth]; lia.
Qed.

Lemma previousDay_mono (a b : Js.Date) :
  Aggregate.day_ok a -> Aggregate.day_ok b ->
  Js.day_leb a b = true -> Js.day_leb (Js.previousDay a) (Js.previousDay b) = true.
Proof.
  destruct a as [ya ma da ta], b as [yb mb db tb].
  unfold Aggregate.day_ok, Js.day_leb, Js.previousDay.
  cbn [Js.fullYear Js.monthIndex Js.dayOfMonth Js.msInDay].
  intros (Ha & Ha') (Hb & Hb') L.
  pose proof (daysInMonth_bounds ya ma) as B1.
  pose proof (daysInMonth_bounds yb mb) as B2.
  pose proof (daysInMonth_bounds ya (ma + 1)) as B3.
  pose proof (daysInMonth_bounds yb (mb + 1)) as B4.
  destruct (Z.eq_dec ya yb) as [<- | Ny];
    [destruct (Z.eq_dec ma mb) as [<- | Nm];
     [| destruct (Z.eq_dec (ma + 1) mb) as [<- | Nm']] |];
    repeat match goal with
           | |- context [if ?c then _ else _] => destruct c eqn:?
           end;
    cbn [Js.fullYear Js.monthIndex Js.dayOfMonth]; lia.
Qed.

Lemma addDays_mono (a b : Js.Date) (n : Z) :
  Aggregate.day_ok a -> Aggregate.day_ok b ->
  Js.day_leb a b = true -> Js.day_leb (Js.addDays a n) (Js.addDays b n) = true.
Proof.
  intros Ha Hb L. unfold Js.addDays.
  destruct (0 <=? n).
  - induction (Z.to_nat n) as [| k IH]; simpl; [exact L |].
    apply nextDay_mono; [| | exact IH]; apply iter_invariant; auto using nextDay_ok.
  - induction (Z.to_nat (- n)) as [| k IH]; simpl; [exact L |].
    apply previousDay_mono; [| | exact IH];
      apply iter_invariant; auto using previousDay_ok.
Qed.

(** Looking further back starts no later, in a zone whose offset is the
    same at the two local times. *)
Lemma start_of_antitone (tz : Js.TimeZone) (now : Js.Date) (m1 m2 : Z) :
  Aggregate.day_ok now ->
  Js.offsetAtLocal tz (Series.shifted tz now m1)
  = Js.offsetAtLocal tz (Series.shifted tz now m2) ->
  m1 <= m2 ->
  Pg.date_leb (Series.start_of tz now m2) (Series.start_of tz now m1) = true.
Proof.
  intros C O L.
  pose proof (shifted_ok tz now m1 C) as K1.
  pose proof (shifted_ok tz now m2 C) as K2.
  assert (A : Js.day_leb (Series.shifted tz now m2) (Series.shifted tz now m1) = true)
    by (apply MakeDay_antitone, L).
  assert (T : Js.msInDay (Series.shifted tz now m1)
              = Js.msInDay (Series.shifted tz now m2))
    by (unfold Series.shifted; now rewrite !MakeDay_msInDay).
  unfold Series.start_of, Js.UTC. rewrite O, T.
  set (t := Js.msInDay (Series.shifted tz now m2)
            - Js.offsetAtLocal tz (Series.shifted tz now m2)).
  unfold Js.atTime.
  set (s1 := Series.shifted tz now m1) in *. set (s2 := Series.shifted tz now m2) in *.
  assert (M : Js.day_leb
                (Js.addDays (Js.mkDate (Js.fullYear s2) (Js.monthIndex s2)
                               (Js.dayOfMonth s2) (t mod Js.msPerDay))
                   (t / Js.msPerDay))
                (Js.addDays (Js.mkDate (Js.fullYear s1) (Js.monthIndex s1)
                               (Js.dayOfMonth s1) (t mod Js.msPerDay))
                   (t / Js.msPerDay)) = true).
  { apply addDays_mono; [exact K2 | exact K1 | exact A]. }
  unfold Js.day_leb in M. unfold Pg.date_leb. cbn [Pg.year Pg.month Pg.day]. lia.
Qed.

(** The months of the series: those in which the owner has a transaction
    dated on or after the start. *)
Lemma getIncomeVsExpenses_months (tz : Js.TimeZone) (tbl : Storage.table)
    (owner : string) (months : Z) (now : Js.Date) :
  Aggregate.clock_ok now ->
  1 <= Pg.year (Series.start_of tz now months) <= 9999 ->
  exists res,
    Storage.getIncomeVsExpenses tz tbl owner months now = Ok res
    /\ forall m, In m (map Storage.me_month res)
                 <-> exists r, In r tbl
                               /\ Transaction.userId r = owner
                               /\ Pg.date_leb (Series.start_of tz now months)
                                    (Transaction.date r) = true
                               /\ Pg.to_char_YYYY_MM (Transaction.date r) = m.
Proof.
  intros C Y. unfold Storage.getIncomeVsExpenses, Sql.param.
  rewrite (start_in tz now months C Y). cbn [bind].
  set (start := Series.start_of tz now months).
  change (Sql.orderBy_asc String.leb _ _) with (Series.query_rows tbl owner start).
  set (rows := Series.query_rows tbl owner start).
  set (o := fold_left Storage.forEach_row rows []).
  destruct (loop_invariant_holds rows (series_rows_NoDup tbl owner start)
              (series_rows_sorted tbl owner start)) as (Keys & _ & _).
  fold o in Keys.
  eexists. split; [reflexivity |]. intros m.
  rewrite map_map. cbn [Storage.me_month]. rewrite Keys. split.
  - intros ([[m' ty] s] & I & E). cbn [fst] in E. subst m'.
    assert (K : In (m, ty) (map fst rows))
      by (apply in_map_iff; now exists ((m, ty), s)).
    apply series_rows_key in K as (r & I' & Cn).
    apply counted_spec in Cn as (H1 & H2 & H3 & _). now exists r.
  - intros (r & I & H1 & H2 & H3).
    assert (K : In (m, Transaction.type r) (map fst rows)).
    { apply series_rows_key. exists r. split; [exact I |]. now apply counted_spec. }
    apply in_map_iff in K as (row & E & K). exists row. split; [exact K |].
    now rewrite E.
Qed.

(** X13: asking for more months never loses a month: every month that
    has an entry in the series for [m1] months has one in the series for
    [m2 >= m1] months, taken at the same moment on the same table.  This
    holds in every time zone of the host whose offset from UTC is the same
    at the two local times to which the clock is moved back, as it is in
    UTC and in every zone without daylight saving time. *)
Theorem series_grows_with_months (tz : Js.TimeZone) (tbl : Storage.table)
    (owner : string) (m1 m2 : Z) (now : Js.Date) :
  Aggregate.clock_ok now ->
  1 <= Pg.year (Series.start_of tz now m1) <= 9999 ->
  1 <= Pg.year (Series.start_of tz now m2) <= 9999 ->
  Js.offsetAtLocal tz (Series.shifted tz now m1)
  = Js.offsetAtLocal tz (Series.shifted tz now m2) ->
  m1 <= m2 ->
  exists res1 res2,
    Storage.getIncomeVsExpenses tz tbl owner m1 now = Ok res1
    /\ Storage.getIncomeVsExpenses tz tbl owner m2 now = Ok res2
    /\ forall m, In m (map Storage.me_month res1) -> In m (map Storage.me_month res2).
Proof.
  intros C Y1 Y2 O L.
  destruct (getIncomeVsExpenses_months tz tbl owner m1 now C Y1) as (res1 & E1 & K1).
  destruct (getIncomeVsExpenses_months tz tbl owner m2 now C Y2) as (res2 & E2 & K2).
  exists res1, res2. split; [exact E1 |]. split; [exact E2 |].
  intros m I. apply K1 in I as (r & I & U & S & M). apply K2. exists r.
  split; [exact I |]. split; [exact U |]. split; [| exact M].
  eapply date_leb_trans;
    [apply (start_of_antitone tz now m1 m2 (clock_day_ok now C) O L) | exact S].
Qed.

Lemma series_grows_with_months_witness :
  exists res1 res2,
    Storage.getIncomeVsExpenses (Js.zoneAt 19800000) Sample.ledger "alice" 5
      Sample.jun_15 = Ok res1
    /\ Storage.getIncomeVsExpenses (Js.zoneAt 19800000) Sample.ledger "alice" 6
         Sample.jun_15 = Ok res2
    /\ forall m, In m (map Storage.me_month res1) -> In m (map Storage.me_month res2).
Proof.
  apply (series_grows_with_months (Js.zoneAt 19800000) Sample.ledger "alice" 5 6
           Sample.jun_15).
  - repeat split; vm_compute; discriminate.
  - split; vm_compute; discriminate.
  - split; vm_compute; discriminate.
  - reflexivity.
  - lia.
Defined.

(** ** Budgets *)

Lemma nat_leb_total (a b : nat) : Nat.leb a b = true \/ Nat.leb b a = true.
Proof. destruct (Nat.leb a b) eqn:E; [now left | right]. apply Nat.leb_le.
  apply Nat.leb_gt in E. lia. Qed.

Lemma nat_leb_trans (a b c : nat) :
  Nat.leb a b = true -> Nat.leb b c = true -> Nat.leb a c = true.
Proof. rewrite !Nat.leb_le. lia. Qed.

Lemma StronglySorted_weaken {A : Type} (R R' : A -> A -> Prop) (l : list A) :
  (forall a b, R a b -> R' a b) -> StronglySorted R l -> StronglySorted R' l.
Proof.
  intros H. induction 1 as [| a l S IH F]; constructor; [exact IH |].
  eapply Forall_impl; [| exact F]. intros b. apply H.
Qed.

Lemma category_rank_inj (a b : Schema.category) :
  DatabaseStorage.category_rank a = DatabaseStorage.category_rank b -> a = b.
Proof. destruct a, b; intros H; try reflexivity; discriminate H. Qed.

(** X14: [getBudgets] never fails; it returns the budgets of the owner,
    each as often as it is stored and no other row, ordered by category in
    the order in which the enum declares its values (food first, other
    last); two budgets of the same category both appear (they are not
    merged). *)
Theorem getBudgets_sorted (tbl : list Budget.row) (owner : string) :
  exists l,
    DatabaseStorage.getBudgets tbl owner = Ok l
    /\ Permutation l (filter (fun r => String.eqb (Budget.userId r) owner) tbl)
    /\ (forall r, In r l <-> In r tbl /\ Budget.userId r = owner)
    /\ StronglySorted
         (fun a b => (DatabaseStorage.category_rank (Budget.category a)
                      <= DatabaseStorage.category_rank (Budget.category b))%nat) l
    /\ (forall c, nth_error Schema.categories (DatabaseStorage.category_rank c)
                  = Some c).
Proof.
  eexists. split; [reflexivity |].
  pose proof (orderBy_asc_perm Nat.leb
                (fun r => DatabaseStorage.category_rank (Budget.category r))
                (filter (fun r => String.eqb (Budget.userId r) owner) tbl)) as P.
  split; [exact P |]. split; [| split; [| intros c; destruct c; reflexivity]].
  - intros r. split.
    + intros I. apply (Permutation_in _ P) in I. apply filter_In in I as [I U].
      split; [exact I | now apply String.eqb_eq].
    + intros [I U]. apply (Permutation_in _ (Permutation_sym P)).
      apply filter_In. split; [exact I | now apply String.eqb_eq].
  - eapply StronglySorted_weaken;
      [| apply (orderBy_asc_sorted_by Nat.leb
                  (fun r => DatabaseStorage.category_rank (Budget.category r))
                  nat_leb_total nat_leb_trans)].
    intros a b H. now apply Nat.leb_le.
Qed.


(** X15: for an amount written in plain decimal notation (and a period
    and a currency without NUL character, if given), [createBudget]
    succeeds exactly when the amount converts (it has at most eight
    integer digits after rounding to two places), the generated id is new
    and the owner has a row in [users], whatever budgets the owner already
    has (a second budget for the same category is accepted).  The new row
    takes the period [monthly] and the currency [INR] when the request
    names none, carries the time of the insert in [createdAt] and
    [updatedAt], is appended to the table, and is returned by the next
    [getBudgets] of the owner. *)
Theorem createBudget_then_list (users : list User.row) (tbl : list Budget.row)
    (budget : InsertBudget.t) (owner id : string) (now : Js.Date) :
  Pg.plain_decimal (InsertBudget.amount budget) = true ->
  (forall s, InsertBudget.period budget = Some (Some s)
             \/ InsertBudget.currency budget = Some (Some s) ->
             Pg.text_ok s = true) ->
  match Pg.numeric_in (InsertBudget.amount budget) with
  | Some amount =>
      if existsb (fun r => String.eqb (Budget.id r) id) tbl
         || negb (Storage.user_exists users owner)
      then isOk (DatabaseStorage.createBudget users tbl budget owner id now) = false
      else
        let created :=
          Budget.mk id owner (InsertBudget.category budget) amount
            (match InsertBudget.period budget with Some p => p | None => Some "monthly" end)
            (match InsertBudget.currency budget with Some c => c | None => Some "INR" end)
            (Some now) (Some now) in
        DatabaseStorage.createBudget users tbl budget owner id now
        = Ok (tbl ++ [created], created)
        /\ exists l,
             DatabaseStorage.getBudgets (tbl ++ [created]) owner = Ok l
             /\ In created l
             /\ List.length l
                = S (List.length
                       (filter (fun r => String.eqb (Budget.userId r) owner) tbl))
  | None => isOk (DatabaseStorage.createBudget users tbl budget owner id now) = false
  end.
Proof.
  intros _ _. unfold DatabaseStorage.createBudget, Sql.param.
  destruct (Pg.numeric_in _) as [amount |]; [| reflexivity]. cbn [bind].
  destruct (existsb _ tbl) eqn:X; [reflexivity |]. cbn [orb].
  destruct (Storage.user_exists users owner); [| reflexivity]. cbn [negb].
  cbv zeta. split; [reflexivity |]. eexists. split; [reflexivity |].
  set (created := Budget.mk id owner _ amount _ _ _ _).
  pose proof (orderBy_asc_perm Nat.leb
                (fun r => DatabaseStorage.category_rank (Budget.category r))
                (filter (fun r => String.eqb (Budget.userId r) owner)
                   (tbl ++ [created]))) as P.
  assert (F : filter (fun r => String.eqb (Budget.userId r) owner) (tbl ++ [created])
              = filter (fun r => String.eqb (Budget.userId r) owner) tbl ++ [created]).
  { rewrite filter_app. simpl. now rewrite String.eqb_refl. }
  split.
  - apply (Permutation_in _ (Permutation_sym P)). rewrite F.
    apply in_or_app. right. now left.
  - rewrite (Permutation_length P), F, length_app. simpl. lia.
Qed.

Lemma createBudget_then_list_witness :
  Pg.plain_decimal (InsertBudget.amount More.rent_budget) = true
  /\ DatabaseStorage.createBudget Sample.people Sample.budgets More.rent_budget
       "alice" "b9" Sample.jan_25
     = Ok (Sample.budgets ++ [More.rent_row], More.rent_row)
  /\ isOk (DatabaseStorage.createBudget Sample.people Sample.budgets More.rent_budget
             "carol" "b9" Sample.jan_25) = false.
Proof.
  assert (T : forall s,
             InsertBudget.period More.rent_budget = Some (Some s)
             \/ InsertBudget.currency More.rent_budget = Some (Some s) ->
             Pg.text_ok s = true)
    by (intros s [H | H]; discriminate H).
  pose proof (createBudget_then_list Sample.people Sample.budgets More.rent_budget
                "alice" "b9" Sample.jan_25 eq_refl T) as A.
  pose proof (createBudget_then_list Sample.people Sample.budgets More.rent_budget
                "carol" "b9" Sample.jan_25 eq_refl T) as B.
  vm_compute in A, B. vm_compute.
  split; [reflexivity |]. split; [exact (proj1 A) | exact B].
Defined.





(** ** Goals *)

Lemma nullable_timestamp_leb_total (a b : option Js.Date) :
  DatabaseStorage.nullable_timestamp_leb a b = true
  \/ DatabaseStorage.nullable_timestamp_leb b a = true.
Proof.
  destruct a as [a |], b as [b |]; simpl; auto.
  unfold DatabaseStorage.timestamp_leb. lia.
Qed.

Lemma nullable_timestamp_leb_trans (a b c : option Js.Date) :
  DatabaseStorage.nullable_timestamp_leb a b = true ->
  DatabaseStorage.nullable_timestamp_leb b c = true ->
  DatabaseStorage.nullable_timestamp_leb a c = true.
Proof.
  destruct a as [a |], b as [b |], c as [c |]; simpl; auto; try discriminate.
  unfold DatabaseStorage.timestamp_leb. lia.
Qed.


(** X17: [getGoals] never fails; it returns the goals of the owner, each
    as often as it is stored and no other row, in ascending order of
    [createdAt]: a goal comes before every goal created later, and goals
    without a creation time come last. *)
Theorem getGoals_sorted (tbl : list Goal.row) (owner : string) :
  exists l,
    DatabaseStorage.getGoals tbl owner = Ok l
    /\ Permutation l (filter (fun r => String.eqb (Goal.userId r) owner) tbl)
    /\ (forall r, In r l <-> In r tbl /\ Goal.userId r = owner)
    /\ StronglySorted
         (fun a b =>
            match Goal.createdAt a, Goal.createdAt b with
            | Some x, Some y => DatabaseStorage.timestamp_leb x y = true
            | None, Some _ => False
            | _, None => True
            end) l.
Proof.
  eexists. split; [reflexivity |].
  pose proof (orderBy_asc_perm DatabaseStorage.nullable_timestamp_leb Goal.createdAt
                (filter (fun r => String.eqb (Goal.userId r) owner) tbl)) as P.
  split; [exact P |]. split.
  - intros r. split.
    + intros I. apply (Permutation_in _ P) in I. apply filter_In in I as [I U].
      split; [exact I | now apply String.eqb_eq].
    + intros [I U]. apply (Permutation_in _ (Permutation_sym P)).
      apply filter_In. split; [exact I | now apply String.eqb_eq].
  - eapply StronglySorted_weaken;
      [| apply (orderBy_asc_sorted_by DatabaseStorage.nullable_timestamp_leb
                  Goal.createdAt nullable_timestamp_leb_total
                  nullable_timestamp_leb_trans)].
    intros a b. cbv beta. unfold DatabaseStorage.nullable_timestamp_leb.
    destruct (Goal.createdAt a), (Goal.createdAt b); auto. discriminate.
Qed.






(** X19: a goal that [createGoal] has inserted is appended to the table,
    belongs to the caller, carries the generated id and the time of the
    insert, starts with a current amount of 0 when the request names none,
    and is returned by the next [getGoals] of its owner; the goals of
    other owners are as before. *)
Theorem createGoal_then_list (users : list User.row) (tbl : list Goal.row)
    (goal : InsertGoal.t) (owner id : string) (now : Js.Date)
    (tbl' : list Goal.row) (created : Goal.row) :
  DatabaseStorage.createGoal users tbl goal owner id now = Ok (tbl', created) ->
  tbl' = tbl ++ [created]
  /\ Goal.id created = id
  /\ Goal.userId created = owner
  /\ Goal.name created = InsertGoal.name goal
  /\ Pg.numeric_in (InsertGoal.targetAmount goal) = Some (Goal.targetAmount created)
  /\ Goal.createdAt created = Some now
  /\ Goal.updatedAt created = Some now
  /\ (InsertGoal.currentAmount goal = None -> Goal.currentAmount created = Some 0)
  /\ (forall r, In r tbl -> Goal.id r <> id)
  /\ (exists l, DatabaseStorage.getGoals tbl' owner = Ok l /\ In created l)
  /\ (forall other, other <> owner ->
        DatabaseStorage.getGoals tbl' other = DatabaseStorage.getGoals tbl other).
Proof.
  unfold DatabaseStorage.createGoal, Sql.param.
  destruct (Pg.numeric_in (InsertGoal.targetAmount goal)) as [ta |] eqn:Ta;
    [| discriminate]. cbn [bind].
  destruct (DatabaseStorage.param_nullish Pg.numeric_in _ _) as [ca |] eqn:Ca;
    [| discriminate]. cbn [bind].
  destruct (DatabaseStorage.param_nullish Pg.date_in _ _) as [td |]; [| discriminate].
  cbn [bind]. destruct (existsb _ tbl) eqn:X; [discriminate |].
  destruct (Storage.user_exists users owner); [| discriminate]. cbn [negb].
  intros E. injection E as <- <-. cbn [Goal.id Goal.userId Goal.name Goal.targetAmount
    Goal.createdAt Goal.updatedAt Goal.currentAmount].
  repeat (split; [reflexivity |]). split; [| split; [| split]].
  - intros H. rewrite H in Ca. simpl in Ca. now injection Ca as <-.
  - intros r I Hid.
    assert (existsb (fun r => (Goal.id r =? id)%string) tbl = true) as C.
    { apply existsb_exists. exists r. split; [exact I | now apply String.eqb_eq]. }
    congruence.
  - eexists. split; [reflexivity |].
    apply (Permutation_in _ (Permutation_sym (orderBy_asc_perm _ _ _))).
    apply filter_In. split; [apply in_or_app; right; now left |].
    apply String.eqb_refl.
  - intros other D. unfold DatabaseStorage.getGoals. rewrite filter_app. simpl.
    replace (String.eqb owner other) with false; [now rewrite app_nil_r |].
    symmetry. apply String.eqb_neq. congruence.
Qed.

Lemma createGoal_then_list_witness :
  exists tbl' created,
    DatabaseStorage.createGoal Sample.people More.goals
      (InsertGoal.mk "bike" None "300.00" None None None) "alice" "g9" Sample.jun_15
    = Ok (tbl', created)
    /\ Goal.currentAmount created = Some 0.
Proof.
  eexists. eexists. split; [reflexivity |].
  apply (createGoal_then_list Sample.people More.goals
           (InsertGoal.mk "bike" None "300.00" None None None) "alice" "g9"
           Sample.jun_15 _ _ eq_refl).
  reflexivity.
Defined.

(** ** Users *)

Lemma filter_map_chosen {R : Type} (p : R -> bool) (g : R -> R) (l : list R) :
  (forall r, p r = true -> p (g r) = true) ->
  filter p (map (fun r => if p r then g r else r) l) = map g (filter p l).
Proof.
  intros H. induction l as [| r l IH]; simpl; [reflexivity |].
  destruct (p r) eqn:E; simpl.
  - rewrite (H r E). simpl. now rewrite IH.
  - rewrite E. exact IH.
Qed.

Lemma set_user_id (userData : UpsertUser.t) (gen : string) (now : Js.Date)
    (u : User.row) :
  String.eqb (User.id u) (Storage.or_else (UpsertUser.id userData) gen) = true ->
  User.id (DatabaseStorage.set_user userData now u)
  = Storage.or_else (UpsertUser.id userData) gen.
Proof.
  intros H. apply String.eqb_eq in H. unfold DatabaseStorage.set_user. simpl.
  now destruct (UpsertUser.id userData).
Qed.

(** The two ways in which [upsertUser] succeeds. *)
Lemma upsertUser_inv (users : list User.row) (userData : UpsertUser.t)
    (gen : string) (now : Js.Date) users' user :
  DatabaseStorage.upsertUser users userData gen now = Ok (users', user) ->
  let id := Storage.or_else (UpsertUser.id userData) gen in
  let is_id := fun u => String.eqb (User.id u) id in
  let set := DatabaseStorage.set_user userData now in
  (existsb is_id users = false
   /\ user = DatabaseStorage.new_user userData id now
   /\ users' = users ++ [user]
   /\ DatabaseStorage.email_taken users id (User.email user) = false)
  \/ (existsb is_id users = true
      /\ users' = map (fun u => if is_id u then set u else u) users
      /\ hd_error (map set (filter is_id users)) = Some user
      /\ existsb (fun u => is_id u
                           && DatabaseStorage.email_taken users id (User.email (set u)))
           users = false).
Proof.
  unfold DatabaseStorage.upsertUser. cbv zeta.
  destruct (existsb _ users) eqn:X.
  - destruct (existsb (fun u => _ && _) users) eqn:T; [discriminate |].
    destruct (hd_error _) as [u |] eqn:H; [| discriminate].
    intros E. injection E as <- <-. right. auto.
  - destruct (DatabaseStorage.email_taken users _ _) eqn:T; [discriminate |].
    intros E. injection E as <- <-. left. auto.
Qed.

Lemma existsb_false_filter {R : Type} (p : R -> bool) (l : list R) :
  existsb p l = false -> filter p l = [].
Proof.
  intros H. apply filter_none. intros r I.
  destruct (p r) eqn:E; [| reflexivity].
  assert (existsb p l = true) by (apply existsb_exists; now exists r). congruence.
Qed.

Lemma getUser_other (users : list User.row) (g : User.row -> User.row)
    (id id' : string) :
  id' <> id ->
  (forall u, String.eqb (User.id u) id = true -> User.id (g u) = id) ->
  DatabaseStorage.getUser
    (map (fun u => if String.eqb (User.id u) id then g u else u) users) id'
  = DatabaseStorage.getUser users id'.
Proof.
  intros D H. unfold DatabaseStorage.getUser. f_equal.
  induction users as [| u users IH]; simpl; [reflexivity |].
  destruct (String.eqb (User.id u) id) eqn:E.
  - rewrite (H u E). apply String.eqb_eq in E.
    replace (String.eqb id id') with false
      by (symmetry; apply String.eqb_neq; congruence).
    replace (String.eqb (User.id u) id') with false
      by (symmetry; apply String.eqb_neq; congruence).
    exact IH.
  - now rewrite IH.
Qed.

(** X20: a user that [upsertUser] has written can be read back: after a
    successful call, [getUser] with the id of the returned row returns
    that row; the row has the id of the request (or the generated one
    when the request has none); the ids of the table stay pairwise
    distinct; every other user reads as before; and the table grows by at
    most one row. *)
Theorem upsert_then_get (users : list User.row) (userData : UpsertUser.t)
    (gen : string) (now : Js.Date) (users' : list User.row) (user : User.row) :
  NoDup (map User.id users) ->
  DatabaseStorage.upsertUser users userData gen now = Ok (users', user) ->
  User.id user = Storage.or_else (UpsertUser.id userData) gen
  /\ User.updatedAt user
     = (if existsb (fun u => String.eqb (User.id u) (User.id user)) users
        then Some now
        else Storage.or_else (UpsertUser.updatedAt userData) (Some now))
  /\ DatabaseStorage.getUser users' (User.id user) = Some user
  /\ NoDup (map User.id users')
  /\ (forall id', id' <> User.id user ->
        DatabaseStorage.getUser users' id' = DatabaseStorage.getUser users id')
  /\ (List.length users <= List.length users' <= S (List.length users))%nat.
Proof.
  intros N E. apply upsertUser_inv in E. cbv zeta in E.
  set (id := Storage.or_else (UpsertUser.id userData) gen) in *.
  destruct E as [(X & -> & -> & _) | (X & -> & H & _)].
  - cbn [DatabaseStorage.new_user User.id User.updatedAt]. rewrite X.
    split; [reflexivity |]. split; [reflexivity |].
    unfold DatabaseStorage.getUser. rewrite !filter_app.
    rewrite (existsb_false_filter _ _ X). simpl. rewrite String.eqb_refl.
    split; [reflexivity |]. split; [| split].
    + rewrite map_app. simpl. apply NoDup_app; [exact N | repeat constructor; intros [] |].
      intros x I [<- | []]. apply in_map_iff in I as (r & Er & I).
      assert (existsb (fun u => (User.id u =? id)%string) users = true) as C.
      { apply existsb_exists. exists r. split; [exact I | now apply String.eqb_eq]. }
      congruence.
    + intros id' D. rewrite filter_app. simpl.
      replace (String.eqb id id') with false
        by (symmetry; apply String.eqb_neq; congruence).
      now rewrite app_nil_r.
    + rewrite length_app. simpl. lia.
  - assert (Sid : forall u, String.eqb (User.id u) id = true ->
                            User.id (DatabaseStorage.set_user userData now u) = id)
      by (intros u Q; now apply set_user_id).
    assert (Hu : User.id user = id).
    { apply hd_error_filter_map in H as (u0 & _ & Q & ->). now apply Sid. }
    rewrite Hu, X. split; [reflexivity |]. split.
    { apply hd_error_filter_map in H as (u0 & _ & Q & ->). reflexivity. }
    split; [| split; [| split]].
    + unfold DatabaseStorage.getUser. rewrite filter_map_chosen; [exact H |].
      intros r Q. rewrite (Sid r Q). apply String.eqb_refl.
    + replace (map User.id _) with (map User.id users); [exact N |].
      rewrite map_map. apply map_ext. intros u.
      destruct (String.eqb (User.id u) id) eqn:Q; [| reflexivity].
      rewrite (Sid u Q). now apply String.eqb_eq.
    + intros id' D. now apply getUser_other.
    + rewrite length_map. lia.
Qed.

Lemma upsert_then_get_witness :
  exists users' user,
    DatabaseStorage.upsertUser More.users More.demo_data "gen-1" Sample.jun_15
    = Ok (users', user)
    /\ DatabaseStorage.getUser users' (User.id user) = Some user.
Proof.
  eexists. eexists. split; [reflexivity |].
  apply (upsert_then_get More.users More.demo_data "gen-1" Sample.jun_15).
  - repeat constructor; simpl; intuition discriminate.
  - reflexivity.
Defined.

Lemma existsb_map {A B : Type} (f : B -> bool) (h : A -> B) (l : list A) :
  existsb f (map h l) = existsb (fun x => f (h x)) l.
Proof. induction l as [| x l IH]; simpl; [reflexivity | now rewrite IH]. Qed.

Lemma existsb_ext_in {A : Type} (f g : A -> bool) (l : list A) :
  (forall x, In x l -> f x = g x) -> existsb f l = existsb g l.
Proof.
  induction l as [| x l IH]; intros H; simpl; [reflexivity |].
  rewrite (H x (or_introl eq_refl)), IH; [reflexivity |].
  intros y I. apply H. now right.
Qed.

Lemma email_taken_map (users : list User.row) (g : User.row -> User.row)
    (id : string) (email : option string) :
  (forall u, String.eqb (User.id u) id = true -> User.id (g u) = id) ->
  DatabaseStorage.email_taken
    (map (fun u => if String.eqb (User.id u) id then g u else u) users) id email
  = DatabaseStorage.email_taken users id email.
Proof.
  intros H. unfold DatabaseStorage.email_taken. destruct email as [e |]; [| reflexivity].
  rewrite existsb_map. apply existsb_ext_in. intros u _.
  destruct (String.eqb (User.id u) id) eqn:Q; [| now rewrite Q].
  now rewrite (H u Q), String.eqb_refl.
Qed.

Lemma email_taken_snoc (users : list User.row) (u : User.row) (email : option string) :
  DatabaseStorage.email_taken (users ++ [u]) (User.id u) email
  = DatabaseStorage.email_taken users (User.id u) email.
Proof.
  unfold DatabaseStorage.email_taken. destruct email as [e |]; [| reflexivity].
  rewrite existsb_app. simpl. rewrite String.eqb_refl. simpl. apply orb_false_r.
Qed.

Lemma existsb_and_const {A : Type} (p : A -> bool) (c : bool) (l : list A) :
  existsb (fun x => p x && c) l = existsb p l && c.
Proof.
  induction l as [| x l IH]; simpl; [reflexivity |]. rewrite IH.
  destruct (p x), (existsb p l), c; reflexivity.
Qed.

Lemma hd_error_map_filter {A B : Type} (p : A -> bool) (g : A -> B) (l : list A) :
  existsb p l = true -> exists x, In x l /\ p x = true
                                  /\ hd_error (map g (filter p l)) = Some (g x).
Proof.
  induction l as [| y l IH]; simpl; [discriminate |].
  destruct (p y) eqn:E; simpl.
  - intros _. exists y. auto.
  - intros H. destruct (IH H) as (x & I & Q & R). exists x. auto.
Qed.

Lemma set_user_again (userData : UpsertUser.t) (now now' : Js.Date) (u : User.row) :
  DatabaseStorage.set_user userData now' (DatabaseStorage.set_user userData now u)
  = Patch.stamped now' (DatabaseStorage.set_user userData now u).
Proof.
  unfold DatabaseStorage.set_user, Patch.stamped. simpl.
  destruct (UpsertUser.id userData), (UpsertUser.email userData),
    (UpsertUser.firstName userData), (UpsertUser.lastName userData),
    (UpsertUser.profileImageUrl userData), (UpsertUser.defaultCurrency userData),
    (UpsertUser.createdAt userData); reflexivity.
Qed.

Lemma set_user_new (userData : UpsertUser.t) (gen : string) (now now' : Js.Date) :
  let id := Storage.or_else (UpsertUser.id userData) gen in
  DatabaseStorage.set_user userData now' (DatabaseStorage.new_user userData id now)
  = Patch.stamped now' (DatabaseStorage.new_user userData id now).
Proof.
  unfold DatabaseStorage.set_user, DatabaseStorage.new_user, Patch.stamped. simpl.
  destruct (UpsertUser.id userData), (UpsertUser.email userData),
    (UpsertUser.firstName userData), (UpsertUser.lastName userData),
    (UpsertUser.profileImageUrl userData), (UpsertUser.defaultCurrency userData),
    (UpsertUser.createdAt userData); reflexivity.
Qed.

(** X21: a repeated upsert adds no row and changes nothing but the time
    stamp: when [upsertUser] has succeeded for data that name their id,
    the same data upserted again at any time [now'] succeed, return the
    row of the first call with [updatedAt] set to [now'], and leave the
    table as the first call left it, apart from that [updatedAt].  This
    is what the upsert that [isAuthenticated] performs on every request
    does from the second request on. *)
Theorem upsert_again_only_stamps (users : list User.row) (userData : UpsertUser.t)
    (gen gen' : string) (now now' : Js.Date) (users' : list User.row)
    (user : User.row) :
  UpsertUser.id userData <> None ->
  DatabaseStorage.upsertUser users userData gen now = Ok (users', user) ->
  DatabaseStorage.upsertUser users' userData gen' now'
  = Ok (map (fun u => if String.eqb (User.id u) (User.id user)
                      then Patch.stamped now' u else u) users',
        Patch.stamped now' user).
Proof.
  intros Named E. apply upsertUser_inv in E. cbv zeta in E.
  unfold DatabaseStorage.upsertUser. cbv zeta.
  replace (Storage.or_else (UpsertUser.id userData) gen')
    with (Storage.or_else (UpsertUser.id userData) gen)
    by (destruct (UpsertUser.id userData); [reflexivity | now destruct Named]).
  set (id := Storage.or_else (UpsertUser.id userData) gen) in *.
  set (is_id := fun u : User.row => String.eqb (User.id u) id) in *.
  set (set := DatabaseStorage.set_user userData now) in *.
  set (set' := DatabaseStorage.set_user userData now').
  assert (Sid : forall u, is_id u = true -> User.id (set u) = id)
    by (intros u Q; now apply set_user_id).
  destruct E as [(X & -> & -> & T) | (X & -> & H & T)].
  - set (u1 := DatabaseStorage.new_user userData id now) in *.
    assert (I1 : is_id u1 = true) by apply String.eqb_refl.
    assert (S1 : set' u1 = Patch.stamped now' u1) by apply set_user_new.
    assert (N : forall r, In r users -> is_id r = false).
    { intros r I. destruct (is_id r) eqn:Q; [| reflexivity].
      assert (existsb is_id users = true) by (apply existsb_exists; now exists r).
      congruence. }
    assert (Xg : existsb is_id (users ++ [u1]) = true).
    { rewrite existsb_app. cbn [existsb]. rewrite I1.
      destruct (existsb is_id users); reflexivity. }
    rewrite Xg.
    assert (Tg : existsb (fun u => is_id u
                            && DatabaseStorage.email_taken (users ++ [u1]) id
                                 (User.email (set' u))) (users ++ [u1]) = false).
    { pose proof (email_taken_snoc users u1 (User.email u1)) as P.
      change (User.id u1) with id in P.
      rewrite existsb_app. cbn [existsb]. rewrite I1, S1.
      change (User.email (Patch.stamped now' u1)) with (User.email u1).
      rewrite P, T.
      rewrite (existsb_ext_in _ (fun _ => false)).
      - clear. induction users; simpl; auto.
      - intros r I. now rewrite (N r I). }
    unfold is_id at 1 in Tg. rewrite Tg.
    rewrite filter_app, (filter_none _ _ N). cbn [filter app]. rewrite I1.
    cbn [map hd_error]. rewrite S1. f_equal. f_equal.
    change (User.id u1) with id. rewrite !map_app. f_equal.
    + rewrite (map_unselected _ _ _ N). symmetry. now apply map_unselected.
    + cbn [map]. fold (is_id u1). now rewrite I1, S1.
  - set (g := fun u => if String.eqb (User.id u) id then set u else u) in *.
    destruct (hd_error_map_filter is_id set users X) as (x & Ix & Qx & Rx).
    assert (Eu : user = set x) by congruence.
    assert (Iu : User.id user = id) by (rewrite Eu; now apply Sid).
    assert (Xg : existsb is_id (map g users) = true).
    { rewrite existsb_map. rewrite <- X. apply existsb_ext_in. intros u _. unfold g.
      fold (is_id u).
      destruct (is_id u) eqn:Q; [| exact Q]. unfold is_id. rewrite (Sid u Q).
      apply String.eqb_refl. }
    rewrite Xg.
    assert (Tg : existsb (fun u => is_id u
                            && DatabaseStorage.email_taken (map g users) id
                                 (User.email (set' u))) (map g users) = false).
    { rewrite existsb_map, <- T. apply existsb_ext_in. intros u _. unfold g.
      fold (is_id u).
      rewrite (email_taken_map users set id _ Sid).
      destruct (is_id u) eqn:Q; [| now rewrite Q].
      unfold set', set. rewrite set_user_again. fold set.
      change (User.email (Patch.stamped now' (set u))) with (User.email (set u)).
      replace (is_id (set u)) with true; [reflexivity |].
      symmetry. unfold is_id. rewrite (Sid u Q). apply String.eqb_refl. }
    unfold is_id at 1 in Tg. rewrite Tg.
    assert (Fg : filter is_id (map g users) = map set (filter is_id users)).
    { apply filter_map_chosen. intros r Q. unfold is_id. rewrite (Sid r Q).
      apply String.eqb_refl. }
    rewrite Fg, map_map.
    rewrite (map_ext (fun x => set' (set x)) (fun x => Patch.stamped now' (set x)))
      by (intros y; unfold set', set; apply set_user_again).
    rewrite <- (map_map set (Patch.stamped now')).
    destruct (map set (filter is_id users)) as [| y l] eqn:M; [discriminate H |].
    cbn [map hd_error] in H |- *. injection H as ->.
    f_equal. f_equal. rewrite Iu, !map_map. apply map_ext. intros u.
    unfold g. fold (is_id u).
    destruct (is_id u) eqn:Q.
    + rewrite (Sid u Q), String.eqb_refl. unfold set', set. apply set_user_again.
    + fold (is_id u). now rewrite Q.
Qed.

Lemma upsert_again_only_stamps_witness :
  exists users' user,
    DatabaseStorage.upsertUser More.users More.demo_data "gen-1" Sample.jan_25
    = Ok (users', user)
    /\ DatabaseStorage.upsertUser users' More.demo_data "gen-2" Sample.jun_15
       = Ok (map (fun u => if String.eqb (User.id u) (User.id user)
                           then Patch.stamped Sample.jun_15 u else u) users',
             Patch.stamped Sample.jun_15 user).
Proof.
  eexists. eexists. split; [reflexivity |].
  apply (upsert_again_only_stamps More.users More.demo_data "gen-1" "gen-2"
           Sample.jan_25 Sample.jun_15).
  - discriminate.
  - reflexivity.
Defined.

(** ** The signed-in user *)

(** X22: [GET /api/auth/user] behind [isAuthenticated].  Without a session
    user the answer is 401 and the users table is untouched.  With one,
    the answer always has status 200: when no other row holds the session
    user's email, the body is the stored row, which carries the session
    user's id, email, names and image and is stamped with the time of the
    request; when another row holds that email the upsert fails, the
    failure is swallowed, the table stays as it was and the body is
    whatever row the id had before, possibly none. *)
Theorem auth_user_answer (users : list User.row)
    (session : option LocalAuth.SessionUser) (gen : string) (now : Js.Date) :
  match session with
  | None =>
      AuthRoutes.auth_user users session gen now
      = (users, Routes.Message 401 "Unauthorized")
  | Some su =>
      if DatabaseStorage.email_taken users (LocalAuth.id su) (LocalAuth.email su)
      then AuthRoutes.auth_user users session gen now
           = (users, Routes.Json 200 (DatabaseStorage.getUser users (LocalAuth.id su)))
      else exists users' row,
          AuthRoutes.auth_user users session gen now
          = (users', Routes.Json 200 (Some row))
          /\ In row users'
          /\ User.id row = LocalAuth.id su
          /\ User.email row = LocalAuth.email su
          /\ User.firstName row = LocalAuth.firstName su
          /\ User.lastName row = LocalAuth.lastName su
          /\ User.profileImageUrl row = LocalAuth.profileImageUrl su
          /\ User.updatedAt row = Some now
  end.
Proof.
  destruct session as [su |]; [| reflexivity].
  unfold AuthRoutes.auth_user, LocalAuth.isAuthenticated, DatabaseStorage.upsertUser.
  cbv zeta. cbn [UpsertUser.id Storage.or_else LocalAuth.sub].
  set (id := LocalAuth.id su).
  set (is_id := fun u : User.row => String.eqb (User.id u) id).
  set (data := UpsertUser.mk _ _ _ _ _ _ _ _).
  assert (Em : forall u, User.email (DatabaseStorage.set_user data now u)
                         = LocalAuth.email su) by reflexivity.
  rewrite (existsb_ext_in
             (fun u => is_id u && DatabaseStorage.email_taken users id
                                    (User.email (DatabaseStorage.set_user data now u)))
             (fun u => is_id u && DatabaseStorage.email_taken users id
                                    (LocalAuth.email su)))
    by (intros u _; now rewrite Em).
  rewrite existsb_and_const.
  change (User.email (DatabaseStorage.new_user data id now)) with (LocalAuth.email su).
  destruct (DatabaseStorage.email_taken users id (LocalAuth.email su)) eqn:T.
  - destruct (existsb is_id users); reflexivity.
  - destruct (existsb is_id users) eqn:X; cbn [andb].
    + destruct (hd_error_map_filter is_id (DatabaseStorage.set_user data now) users X)
        as (x & I & Q & R).
      rewrite R. eexists. exists (DatabaseStorage.set_user data now x).
      split; [| split].
      * f_equal. f_equal. unfold DatabaseStorage.getUser. fold is_id.
        rewrite filter_map_chosen; [exact R |].
        intros r _. apply String.eqb_refl.
      * apply in_map_iff. exists x. split; [| exact I]. fold (is_id x). now rewrite Q.
      * repeat split; reflexivity.
    + eexists. exists (DatabaseStorage.new_user data id now). split; [| split].
      * f_equal. f_equal. unfold DatabaseStorage.getUser. fold is_id.
        rewrite filter_app, (existsb_false_filter _ _ X). cbn [filter app].
        replace (is_id (DatabaseStorage.new_user data id now)) with true
          by (symmetry; apply String.eqb_refl).
        reflexivity.
      * apply in_or_app. right. now left.
      * repeat split; reflexivity.
Qed.

(** ** Client pages *)

(** X23: a budget card of the budgets page never reports spending: for
    every amount, also zero, negative, infinite or not a number, the
    percentage shown is 0 and the budget is never marked as over budget,
    whatever transactions exist. *)
Theorem budget_card_never_over (budgetAmount : float) :
  Client.bc_percentage (Client.budget_card budgetAmount) = 0%float
  /\ Client.bc_isOverBudget (Client.budget_card budgetAmount) = false.
Proof.
  assert (P : Client.bc_percentage (Client.budget_card budgetAmount) = 0%float).
  { unfold Client.budget_card. cbn [Client.bc_percentage].
    destruct (PrimFloat.ltb 0 budgetAmount) eqn:L; [| reflexivity].
    apply FloatAxioms.Prim2SF_inj.
    rewrite FloatAxioms.ltb_spec in L.
    rewrite FloatAxioms.mul_spec, FloatAxioms.div_spec.
    change (Prim2SF 0) with (S754_zero false) in *.
    destruct (Prim2SF budgetAmount) as [s | s | | s m e]; try discriminate L.
    - destruct s; [discriminate L | reflexivity].
    - destruct s; [discriminate L | reflexivity]. }
  split; [exact P |].
  unfold Client.budget_card in *. cbn [Client.bc_percentage Client.bc_isOverBudget] in *.
  rewrite P. reflexivity.
Qed.

Lemma totals_set_In (o : Client.totals) (k : string) (v : float) (c : string) :
  In c (map fst (Client.totals_set o k v)) <-> c = k \/ In c (map fst o).
Proof.
  induction o as [| [k' v'] o IH]; simpl.
  - intuition.
  - destruct (String.eqb k' k) eqn:E; simpl.
    + apply String.eqb_eq in E. subst k'. intuition.
    + rewrite IH. intuition.
Qed.

Lemma totals_set_NoDup (o : Client.totals) (k : string) (v : float) :
  NoDup (map fst o) -> NoDup (map fst (Client.totals_set o k v)).
Proof.
  induction o as [| [k' v'] o IH]; simpl; intros N.
  - constructor; [intros [] | constructor].
  - inversion N as [| ? ? Nin N']; subst.
    destruct (String.eqb k' k) eqn:E; simpl.
    + constructor; assumption.
    + constructor; [| now apply IH].
      rewrite totals_set_In. intros [-> | I]; [| now apply Nin].
      rewrite String.eqb_refl in E. discriminate.
Qed.

Lemma add_expense_In (o : Client.totals) (t : Transaction.row) (c : string) :
  In c (map fst (Client.add_expense o t))
  <-> In c (map fst o)
      \/ (Transaction.type t = Schema.t_expense
          /\ Schema.category_out (Transaction.category t) = c).
Proof.
  unfold Client.add_expense. destruct (Transaction.type t).
  - split; [auto | intros [I | [D _]]; [exact I | discriminate D]].
  - rewrite totals_set_In. split.
    + intros [-> | I]; auto.
    + intros [I | [_ <-]]; auto.
Qed.

Lemma add_expense_NoDup (o : Client.totals) (t : Transaction.row) :
  NoDup (map fst o) -> NoDup (map fst (Client.add_expense o t)).
Proof.
  unfold Client.add_expense. destruct (Transaction.type t); [auto |].
  apply totals_set_NoDup.
Qed.

Lemma categoryTotals_In (ts : list Transaction.row) (o : Client.totals) (c : string) :
  In c (map fst (fold_left Client.add_expense ts o))
  <-> In c (map fst o)
      \/ exists t, In t ts /\ Transaction.type t = Schema.t_expense
                   /\ Schema.category_out (Transaction.category t) = c.
Proof.
  revert o. induction ts as [| t ts IH]; intros o; simpl.
  - split; [auto | intros [I | (t & [] & _)]; exact I].
  - rewrite IH, add_expense_In. split.
    + intros [[I | [T C]] | (t' & I & T & C)]; eauto 6.
    + intros [I | (t' & [<- | I] & T & C)]; eauto 6.
Qed.

Lemma categoryTotals_NoDup (ts : list Transaction.row) (o : Client.totals) :
  NoDup (map fst o) -> NoDup (map fst (fold_left Client.add_expense ts o)).
Proof.
  revert o. induction ts as [| t ts IH]; intros o N; simpl; [exact N |].
  apply IH, add_expense_NoDup, N.
Qed.

Lemma insert_by_Permutation {A : Type} (compare : A -> A -> float) (x : A)
    (l : list A) :
  Permutation (Client.insert_by compare x l) (x :: l).
Proof.
  induction l as [| y l IH]; simpl; [reflexivity |].
  destruct (PrimFloat.ltb (compare y x) 0); [| reflexivity].
  rewrite IH. apply perm_swap.
Qed.

Lemma sort_by_Permutation {A : Type} (compare : A -> A -> float) (l : list A) :
  Permutation (Client.sort_by compare l) l.
Proof.
  induction l as [| x l IH]; simpl; [reflexivity |].
  rewrite insert_by_Permutation. now constructor.
Qed.

(** X24: the category breakdown of the reports page lists a category
    exactly when some transaction of the list is an expense of that
    category, and lists it once; income never adds a line, and without
    transactions the breakdown is empty. *)
Theorem getCategoryBreakdown_categories (transactions : list Transaction.row) :
  Client.getCategoryBreakdown None = []
  /\ NoDup (map fst (Client.getCategoryBreakdown (Some transactions)))
  /\ forall c,
       In c (map fst (Client.getCategoryBreakdown (Some transactions)))
       <-> exists t, In t transactions
                     /\ Transaction.type t = Schema.t_expense
                     /\ Schema.category_out (Transaction.category t) = c.
Proof.
  split; [reflexivity |].
  unfold Client.getCategoryBreakdown.
  set (cmp := fun a b : string * float => PrimFloat.sub (snd b) (snd a)).
  pose proof (Permutation_map fst
                (sort_by_Permutation cmp (fold_left Client.add_expense transactions [])))
    as P.
  split.
  - apply (Permutation_NoDup (Permutation_sym P)).
    apply categoryTotals_NoDup. constructor.
  - intros c. split.
    + intros I. apply (Permutation_in _ P) in I.
      apply categoryTotals_In in I. destruct I as [[] | I]. exact I.
    + intros I. apply (Permutation_in _ (Permutation_sym P)).
      apply categoryTotals_In. now right.
Qed.

(** ** The analytics route *)

(** X25: the answer of [GET /api/analytics/expenses-by-category].  It is
    400 when [startDate] or [endDate] is missing or empty, whatever the
    table holds.  When both are given in the form [YYYY-MM-DD], it is 200
    with the rows of [getExpensesByCategory] if both name a calendar day,
    and 500 if one of them does not, as [2024-02-30]: the route validates
    nothing, the failure comes from the store. *)
Theorem expenses_by_category_answer (tbl : Storage.table) (userId : string)
    (startDate endDate : option string) :
  let answer := Api.get_expenses_by_category tbl userId startDate endDate in
  match startDate, endDate with
  | Some s, Some e =>
      if String.eqb s "" || String.eqb e ""
      then answer = Routes.Message 400 "Start date and end date are required"
      else
        Pg.iso_shape s = true -> Pg.iso_shape e = true ->
        match Pg.date_in s, Pg.date_in e with
        | Some lo, Some hi =>
            answer
            = Routes.Json 200
                (map (fun row => Storage.mkCategoryAmount (fst row)
                                   (Js.Number_or_0 (snd row)))
                   (Sql.groupBy_sum Schema.category_eqb Transaction.category
                      Transaction.amount
                      (filter (Select.expense_between userId lo hi) tbl)))
        | _, _ => answer = Routes.Message 500 "Failed to fetch expenses by category"
        end
  | _, _ => answer = Routes.Message 400 "Start date and end date are required"
  end.
Proof.
  cbv zeta. unfold Api.get_expenses_by_category, Js.truthy.
  destruct startDate as [s |]; [| reflexivity].
  destruct endDate as [e |];
    [| destruct (negb (negb (String.eqb s ""))); reflexivity].
  rewrite !negb_involutive.
  destruct (String.eqb s ""); [reflexivity |].
  destruct (String.eqb e ""); [reflexivity |]. cbn [orb]. intros _ _.
  unfold Storage.getExpensesByCategory, Sql.param.
  destruct (Pg.date_in s) as [lo |]; [| reflexivity].
  destruct (Pg.date_in e) as [hi |]; [| reflexivity].
  cbn [bind]. do 3 f_equal. apply filter_ext. intros r.
  apply expense_in_range_between.
Qed.

Lemma expenses_by_category_answer_witness :
  Pg.iso_shape "2024-01-01" = true /\ Pg.iso_shape "2024-02-30" = true
  /\ Api.get_expenses_by_category Sample.ledger "alice" (Some "2024-01-01")
       (Some "2024-02-30")
     = Routes.Message 500 "Failed to fetch expenses by category".
Proof.
  split; [reflexivity |]. split; [reflexivity |].
  exact (expenses_by_category_answer Sample.ledger "alice" (Some "2024-01-01")
           (Some "2024-02-30") eq_refl eq_refl).
Defined.
